(** * pdf-logo: the detection-and-redaction pipeline of [apps/api/src/processor.js]
    and the jobs API of [apps/api/src/index.js]

    A shallow embedding of the processor: JavaScript numbers, the geometry
    mapper, the edge-map matcher, the footer band locator, the template
    library, the fill colour sampler, the replacement banner, the vision
    probe adapter and the per-page decision and audit engine of
    [processPdf]; and of the job store and the routes that run the
    processor; followed by the properties proved about them.

    Modelling conventions.
    - A JavaScript number is a [num]: [NaN], the two infinities, or a finite
      value carried as an exact rational.  Rounding of IEEE doubles and the
      sign of zero are not modelled; comparisons, [Math.max]/[Math.min] and
      the propagation of [NaN] are.
    - Pixel sizes, coordinates of the matcher, byte buffers and the page
      counts of a document are integers ([Z]); the page limits of the
      configuration are numbers, as [Number] leaves them; typed arrays are
      lists whose out-of-range reads give [undefined] ([None]).
    - What the processor obtains from its collaborators (the file system,
      sharp, pdf-lib, pdf.js, the HTTP classifier, [JSON.parse]) is an input
      of the model; so are, for the routes, the request, the identifier and
      the clock. *)

From Stdlib Require Import ZArith QArith Qminmax Qround Qabs Lia Lqa List String Ascii Bool.
From Stdlib Require DecimalString.
Import ListNotations.

Set Implicit Arguments.

(** ** JavaScript numbers *)

Inductive num : Type :=
| NaN
| NegInf
| Fin (q : Q)
| PosInf.

Definition ofZ (z : Z) : num := Fin (inject_Z z).

(** [Number.isNaN(a)] and [Number.isFinite(a)]. *)
Definition isNaN (a : num) : bool :=
  match a with
  | NaN => true
  | _ => false
  end.

Definition isFinite (a : num) : bool :=
  match a with
  | Fin _ => true
  | _ => false
  end.

Definition Qltb (a b : Q) : bool := negb (Qle_bool b a).

(** [a < b], [a <= b], [a > b], [a >= b]: false as soon as one side is NaN. *)
Definition num_ltb (a b : num) : bool :=
  match a, b with
  | NaN, _ | _, NaN => false
  | NegInf, NegInf => false
  | NegInf, _ => true
  | Fin _, NegInf => false
  | Fin p, Fin q => Qltb p q
  | Fin _, PosInf => true
  | PosInf, _ => false
  end.

Definition num_leb (a b : num) : bool :=
  match a, b with
  | NaN, _ | _, NaN => false
  | NegInf, _ => true
  | Fin _, NegInf => false
  | Fin p, Fin q => Qle_bool p q
  | Fin _, PosInf => true
  | PosInf, PosInf => true
  | PosInf, _ => false
  end.

Definition num_gtb (a b : num) : bool := num_ltb b a.
Definition num_geb (a b : num) : bool := num_leb b a.

(** [Math.max] and [Math.min] of two arguments. *)
Definition Math_max (a b : num) : num :=
  match a, b with
  | NaN, _ | _, NaN => NaN
  | _, _ => if num_ltb a b then b else a
  end.

Definition Math_min (a b : num) : num :=
  match a, b with
  | NaN, _ | _, NaN => NaN
  | _, _ => if num_ltb b a then b else a
  end.

Definition num_neg (a : num) : num :=
  match a with
  | NaN => NaN
  | NegInf => PosInf
  | Fin q => Fin (- q)
  | PosInf => NegInf
  end.

Definition num_add (a b : num) : num :=
  match a, b with
  | NaN, _ | _, NaN => NaN
  | PosInf, NegInf | NegInf, PosInf => NaN
  | PosInf, _ | _, PosInf => PosInf
  | NegInf, _ | _, NegInf => NegInf
  | Fin p, Fin q => Fin (p + q)
  end.

Definition num_sub (a b : num) : num := num_add a (num_neg b).

(** The sign of a finite value: -1, 0 or 1. *)
Definition Qsign (q : Q) : Z := Z.sgn (Qnum q).

Definition inf_of_sign (s : Z) : num :=
  if (s =? 0)%Z then NaN else if (0 <? s)%Z then PosInf else NegInf.

Definition num_sign (a : num) : Z :=
  match a with
  | NaN => 0
  | NegInf => -1
  | Fin q => Qsign q
  | PosInf => 1
  end.

Definition num_mul (a b : num) : num :=
  match a, b with
  | NaN, _ | _, NaN => NaN
  | Fin p, Fin q => Fin (p * q)
  | _, _ => inf_of_sign (num_sign a * num_sign b)
  end.

Definition num_div (a b : num) : num :=
  match a, b with
  | NaN, _ | _, NaN => NaN
  | Fin p, Fin q => if Qeq_bool q 0 then inf_of_sign (Qsign p) else Fin (p / q)
  | Fin _, _ => Fin 0
  | _, Fin q => if Qeq_bool q 0 then a else inf_of_sign (num_sign a * Qsign q)
  | _, _ => NaN
  end.

Definition Math_floor (a : num) : num :=
  match a with
  | Fin q => ofZ (Qfloor q)
  | _ => a
  end.

(** [Math.round]: the nearest integer, halves rounded up.  The argument is
    the exact value: a product that a double rounds to just below a half is
    here the half itself. *)
Definition Math_round (a : num) : num :=
  match a with
  | Fin q => ofZ (Qfloor (q + (1 # 2)))
  | _ => a
  end.

(** [Number(v.toFixed(4))]: rounding to four decimals (half away from
    zero), of the exact value. *)
Definition toFixed4 (a : num) : num :=
  match a with
  | Fin q =>
      if Qle_bool 0 q
      then Fin (inject_Z (Qfloor (q * 10000 + (1 # 2))) / 10000)
      else Fin (- (inject_Z (Qfloor ((- q) * 10000 + (1 # 2))) / 10000))
  | _ => a
  end.

Declare Scope num_scope.
Delimit Scope num_scope with num.
Bind Scope num_scope with num.
Infix "+" := num_add : num_scope.
Infix "-" := num_sub : num_scope.
Infix "*" := num_mul : num_scope.
Infix "/" := num_div : num_scope.
Infix "<?" := num_ltb : num_scope.
Infix "<=?" := num_leb : num_scope.
Infix ">?" := num_gtb : num_scope.
Infix ">=?" := num_geb : num_scope.

(** processor.js:15 *)
Definition clamp (value min max : num) : num :=
  Math_max min (Math_min max value).

(** ** Geometry mapper *)

Record Rect : Type := mkRect {
  rect_x : num;
  rect_y : num;
  rect_width : num;
  rect_height : num
}.

Record Size : Type := mkSize {
  size_width : num;
  size_height : num
}.

(** processor.js:322 *)
Definition imageBboxToPdfRect (bboxPx : Rect) (renderSize pageSize : Size) : Rect :=
  let x := ((rect_x bboxPx / size_width renderSize) * size_width pageSize)%num in
  let yTop := ((rect_y bboxPx / size_height renderSize) * size_height pageSize)%num in
  let width := ((rect_width bboxPx / size_width renderSize) * size_width pageSize)%num in
  let height := ((rect_height bboxPx / size_height renderSize) * size_height pageSize)%num in
  let y := (size_height pageSize - yTop - height)%num in
  {| rect_x := clamp x (Fin 0) (size_width pageSize);
     rect_y := clamp y (Fin 0) (size_height pageSize);
     rect_width := clamp width (Fin 1) (size_width pageSize);
     rect_height := clamp height (Fin 1) (size_height pageSize) |}.

(** processor.js:337 *)
Definition getStableFooterPdfRect (pageSize : Size) (footerRatio : num) : Rect :=
  let height := (size_height pageSize * footerRatio)%num in
  {| rect_x := Fin 0;
     rect_y := Fin 0;
     rect_width := size_width pageSize;
     rect_height := height |}.

(** The inverse of the linear map of [imageBboxToPdfRect] (the scaling and
    the vertical flip, without the clamps), for the same render and page
    sizes: from a document rectangle back to a pixel box.  The processor has
    no such function; it is the mapping the round-trip property speaks of. *)
Definition pdfRectToImageBbox (rect : Rect) (renderSize pageSize : Size) : Rect :=
  let x := ((rect_x rect / size_width pageSize) * size_width renderSize)%num in
  let width := ((rect_width rect / size_width pageSize) * size_width renderSize)%num in
  let height := ((rect_height rect / size_height pageSize) * size_height renderSize)%num in
  let yTop := (size_height pageSize - rect_y rect - rect_height rect)%num in
  let y := ((yTop / size_height pageSize) * size_height renderSize)%num in
  {| rect_x := x; rect_y := y; rect_width := width; rect_height := height |}.

(** Two numbers are finite and at most [tol] apart. *)
Definition num_within (tol : Q) (a b : num) : bool :=
  match a, b with
  | Fin p, Fin q => Qle_bool (Qabs (p - q)) tol
  | _, _ => false
  end.

Definition rect_within (tol : Q) (r s : Rect) : bool :=
  num_within tol (rect_x r) (rect_x s)
  && num_within tol (rect_y r) (rect_y s)
  && num_within tol (rect_width r) (rect_width s)
  && num_within tol (rect_height r) (rect_height s).

(** [lo <= a <= hi] for a finite [a]. *)
Definition num_between (lo hi a : num) : bool := num_leb lo a && num_leb a hi.

Definition finRect (x y w h : Q) : Rect := mkRect (Fin x) (Fin y) (Fin w) (Fin h).
Definition finSize (w h : Q) : Size := mkSize (Fin w) (Fin h).

(** Every coordinate is a finite number. *)
Definition rectFinite (r : Rect) : bool :=
  isFinite (rect_x r) && isFinite (rect_y r)
  && isFinite (rect_width r) && isFinite (rect_height r).

(** Both sides are finite; both are finite and positive. *)
Definition sizeFinite (s : Size) : bool :=
  isFinite (size_width s) && isFinite (size_height s).

Definition sizePositive (s : Size) : bool :=
  sizeFinite s && num_ltb (Fin 0) (size_width s) && num_ltb (Fin 0) (size_height s).

(** ** JavaScript values

    The values [JSON.parse] can produce, and [undefined] for what a missing
    property reads as.  An object is the list of its own properties. *)

Set Warnings "-register-all".

Inductive jsval : Type :=
| JUndefined
| JNull
| JBool (b : bool)
| JNum (n : num)
| JStr (s : string)
| JArr (items : list jsval)
| JObj (fields : list (string * jsval)).

(** ** Typed arrays and loops *)

(** [a[i]] on a [Uint8Array] or [Buffer]: [undefined] outside the array. *)
Definition typedGet (a : list Z) (i : Z) : option Z :=
  if (i <? 0)%Z then None else nth_error a (Z.to_nat i).

(** Truthiness of an element read from a typed array. *)
Definition truthyElem (v : option Z) : bool :=
  match v with
  | Some z => negb (z =? 0)%Z
  | None => false
  end.

(** The values of [for (v = lo; v < hi; v += 1)]. *)
Definition zrange (lo hi : Z) : list Z :=
  map (fun k => (lo + Z.of_nat k)%Z) (seq 0 (Z.to_nat (hi - lo))).

(** The values of [for (v = lo; v <= hi; v += 3)]. *)
Definition zrange3 (lo hi : Z) : list Z :=
  map (fun k => (lo + 3 * Z.of_nat k)%Z) (seq 0 (Z.to_nat ((hi - lo) / 3 + 1))).

(** ** Edge maps (processor.js:108) *)

Definition absdiff (a b : Z) : Z := Z.abs (a - b).

(** The value written to [edges[idx]], for [idx = y * width + x]; a read
    outside [gray] is [undefined], the sum is then [NaN] and the test fails. *)
Definition edgeAt (gray : list Z) (width threshold x y : Z) : Z :=
  let row := (y * width)%Z in
  let nextRow := ((y + 1) * width)%Z in
  let idx := (row + x)%Z in
  match typedGet gray idx, typedGet gray (idx + 1), typedGet gray (nextRow + x) with
  | Some g, Some gRight, Some gBelow =>
      if (threshold <=? absdiff g gRight + absdiff g gBelow)%Z then 1%Z else 0%Z
  | _, _, _ => 0%Z
  end.

(** [computeEdgeMap]: a zeroed array of [width * height] cells in which the
    loops write every cell with [x < width - 1] and [y < height - 1]. *)
Definition computeEdgeMap (gray : list Z) (width height threshold : Z) : list Z :=
  map (fun idx =>
         let y := (idx / width)%Z in
         let x := (idx mod width)%Z in
         if ((y <? height - 1) && (x <? width - 1))%Z%bool
         then edgeAt gray width threshold x y
         else 0%Z)
      (zrange 0 (width * height)).

Definition defaultEdgeThreshold : Z := 22.

(** ** Deterministic matcher *)

Record Template : Type := mkTemplate {
  refName : string;
  t_width : Z;
  t_height : Z;
  t_edges : list Z
}.

Record Zone : Type := mkZone {
  x0 : Z;
  y0 : Z;
  x1 : Z;
  y1 : Z
}.

Record Match : Type := mkMatch {
  score : num;
  bboxPx : option Rect;
  matchedReference : jsval
}.

Definition rectZ (x y w h : Z) : Rect := mkRect (ofZ x) (ofZ y) (ofZ w) (ofZ h).

(** The counters [tp], [fp], [fn] of [scoreTemplateAt]. *)
Record Counts : Type := mkCounts {
  tp : Z;
  fp : Z;
  fn : Z
}.

(** One iteration of the inner loop of [scoreTemplateAt]. *)
Definition countPixel (pageEdges : list Z) (pageWidth x y : Z) (template : Template)
    (ty : Z) (c : Counts) (tx : Z) : Counts :=
  let pageRow := ((y + ty) * pageWidth)%Z in
  let tRow := (ty * t_width template)%Z in
  let p := truthyElem (typedGet pageEdges (pageRow + x + tx)) in
  let t := truthyElem (typedGet (t_edges template) (tRow + tx)) in
  if p && t then mkCounts (tp c + 1) (fp c) (fn c)
  else if p && negb t then mkCounts (tp c) (fp c + 1) (fn c)
  else if negb p && t then mkCounts (tp c) (fp c) (fn c + 1)
  else c.

Definition countWindow (pageEdges : list Z) (pageWidth x y : Z) (template : Template) : Counts :=
  fold_left
    (fun c ty =>
       fold_left (countPixel pageEdges pageWidth x y template ty)
                 (zrange 0 (t_width template)) c)
    (zrange 0 (t_height template))
    (mkCounts 0 0 0).

(** [denom = tp + 0.65 * fp + 1.25 * fn] and [denom > 0 ? tp / denom : 0]. *)
Definition scoreOfCounts (c : Counts) : Q :=
  let denom := (inject_Z (tp c) + 0.65 * inject_Z (fp c) + 1.25 * inject_Z (fn c))%Q in
  if Qltb 0 denom then (inject_Z (tp c) / denom)%Q else 0%Q.

(** processor.js:260 *)
Definition scoreTemplateAt (pageEdges : list Z) (pageWidth x y : Z) (template : Template) : Q :=
  scoreOfCounts (countWindow pageEdges pageWidth x y template).

(** The search zone used when none is supplied. *)
Definition defaultZone (pageWidth pageHeight : Z) : Zone :=
  {| x0 := Qfloor (inject_Z pageWidth * 0.45);
     y0 := Qfloor (inject_Z pageHeight * 0.60);
     x1 := pageWidth;
     y1 := pageHeight |}.

(** The body of the innermost loop of [detectLogoByTemplateMatch]. *)
Definition tryPosition (pageEdges : list Z) (pageWidth : Z) (template : Template)
    (y : Z) (best : Match) (x : Z) : Match :=
  let s := scoreTemplateAt pageEdges pageWidth x y template in
  if num_gtb (Fin s) (score best)
  then {| score := Fin s;
          bboxPx := Some (rectZ x y (t_width template) (t_height template));
          matchedReference := JStr (refName template) |}
  else best.

Definition scanZone (pageEdges : list Z) (pageWidth : Z) (template : Template)
    (best : Match) (zone : Zone) : Match :=
  let maxX := (x1 zone - t_width template)%Z in
  let maxY := (y1 zone - t_height template)%Z in
  if ((maxX <=? x0 zone) || (maxY <=? y0 zone))%Z%bool then best
  else
    fold_left
      (fun b y => fold_left (tryPosition pageEdges pageWidth template y)
                            (zrange3 (x0 zone) maxX) b)
      (zrange3 (y0 zone) maxY)
      best.

Definition noMatch : Match :=
  {| score := Fin 0; bboxPx := None; matchedReference := JNull |}.

(** processor.js:283 *)
Definition detectLogoByTemplateMatch (pageEdges : list Z) (pageWidth pageHeight : Z)
    (templates : list Template) (searchZone : option Zone) : Match :=
  let zones :=
    match searchZone with
    | Some z => [z]
    | None => [defaultZone pageWidth pageHeight]
    end in
  fold_left
    (fun best template => fold_left (scanZone pageEdges pageWidth template) zones best)
    templates
    noMatch.

(** processor.js:313 *)
Definition isBboxPlausible (bboxPx : option Rect) (pageWidth pageHeight : num) : bool :=
  match bboxPx with
  | None => false
  | Some b =>
      let wr := (rect_width b / pageWidth)%num in
      let hr := (rect_height b / pageHeight)%num in
      if (wr <? Fin 0.05)%num || (wr >? Fin 0.42)%num then false
      else if (hr <? Fin 0.015)%num || (hr >? Fin 0.22)%num then false
      else true
  end.

(** A page edge map of [pageWidth * pageHeight] cells holding the edge
    pixels of [template] with its top-left corner at [(px, py)], and no edge
    anywhere else. *)
Definition embedTemplate (pageWidth pageHeight px py : Z) (template : Template) : list Z :=
  map (fun idx =>
         let y := (idx / pageWidth)%Z in
         let x := (idx mod pageWidth)%Z in
         if ((px <=? x) && (x <? px + t_width template)
             && (py <=? y) && (y <? py + t_height template))%Z%bool
         then if truthyElem (typedGet (t_edges template)
                               ((y - py) * t_width template + (x - px)))
              then 1%Z else 0%Z
         else 0%Z)
      (zrange 0 (pageWidth * pageHeight)).

(** The overlap counts of a window, stated over the pixels of the window:
    how many offsets [(tx, ty)] of the template have a given pair of
    page/template truth values. *)
Definition overlapCount (wantPage wantTemplate : bool)
    (pageEdges : list Z) (pageWidth x y : Z) (template : Template) : Z :=
  Z.of_nat
    (List.length
       (filter
          (fun off : Z * Z =>
             let (ty, tx) := off in
             Bool.eqb (truthyElem (typedGet pageEdges ((y + ty) * pageWidth + x + tx))) wantPage
             && Bool.eqb (truthyElem (typedGet (t_edges template) (ty * t_width template + tx)))
                         wantTemplate)
          (list_prod (zrange 0 (t_height template)) (zrange 0 (t_width template))))).

(** *** Vocabulary for the matcher's properties *)

(** A candidate of the scan: a template and the top-left corner of a window. *)
Definition ScanCandidate : Type := (Template * Z * Z)%type.

Definition candScore (pageEdges : list Z) (pageWidth : Z) (c : ScanCandidate) : Q :=
  let '(template, x, y) := c in scoreTemplateAt pageEdges pageWidth x y template.

Definition candMatch (pageEdges : list Z) (pageWidth : Z) (c : ScanCandidate) : Match :=
  let '(template, x, y) := c in
  {| score := Fin (scoreTemplateAt pageEdges pageWidth x y template);
     bboxPx := Some (rectZ x y (t_width template) (t_height template));
     matchedReference := JStr (refName template) |}.

(** [F] updates the best match over the candidates [P]: its result scores
    at least as much as its argument and as every candidate, and is its
    argument or the match of a candidate that scores strictly more than its
    argument. *)
Definition scans (pageEdges : list Z) (pageWidth : Z)
    (F : Match -> Match) (P : ScanCandidate -> Prop) : Prop :=
  forall (best : Match) (q0 : Q),
    score best = Fin q0 ->
    exists q : Q,
      score (F best) = Fin q /\
      (q0 <= q)%Q /\
      (forall c, P c -> (candScore pageEdges pageWidth c <= q)%Q) /\
      (F best = best \/
       ((q0 < q)%Q /\ exists c, P c /\ F best = candMatch pageEdges pageWidth c)).

(** The windows [detectLogoByTemplateMatch] visits for a template in a zone. *)
Definition onGrid (zone : Zone) (template : Template) (x y : Z) : Prop :=
  (x0 zone < x1 zone - t_width template)%Z /\
  (y0 zone < y1 zone - t_height template)%Z /\
  In x (zrange3 (x0 zone) (x1 zone - t_width template)) /\
  In y (zrange3 (y0 zone) (y1 zone - t_height template)).

(** The zone a search runs in. *)
Definition effectiveZone (pageWidth pageHeight : Z) (searchZone : option Zone) : Zone :=
  match searchZone with
  | Some z => z
  | None => defaultZone pageWidth pageHeight
  end.

(** ** Footer band locator *)

(** processor.js:123; a channel read outside the buffer is [undefined], and
    every comparison with it is false. *)
Definition isPurplePixel (r g b : option Z) : bool :=
  match r, g, b with
  | Some r, Some g, Some b =>
      ((55 <? r) && (55 <? b) && (g <? 120) && (g + 18 <? r) && (g + 18 <? b))%Z%bool
  | _, _, _ => false
  end.

(** [a ?? b] on reads of a buffer. *)
Definition orElse (a b : option Z) : option Z :=
  match a with
  | Some _ => a
  | None => b
  end.

(** The test of the inner loop of [detectFooterBand] for pixel [(x, y)]. *)
Definition purpleAt (raw : list Z) (width channels x y : Z) : bool :=
  let idx := ((y * width + x) * channels)%Z in
  let r := typedGet raw idx in
  let g := orElse (typedGet raw (idx + 1)) (typedGet raw idx) in
  let b := orElse (typedGet raw (idx + 2)) (typedGet raw idx) in
  isPurplePixel r g b.

Definition purpleCount (raw : list Z) (width channels y : Z) : Z :=
  fold_left (fun count x => if purpleAt raw width channels x y then (count + 1)%Z else count)
            (zrange 0 width) 0%Z.

(** [rowPurpleRatio[y]] for a scanned row [startY <= y < height]:
    [purpleCount / width] ([NaN] for an empty row). *)
Definition rowPurpleRatio (raw : list Z) (width channels y : Z) : num :=
  (ofZ (purpleCount raw width channels y) / ofZ width)%num.

Record Band : Type := mkBand {
  band_y0 : Z;
  band_y1 : Z;
  band_score : num
}.

(** The inner [while (y < height && rowPurpleRatio[y] >= 0.2)]: the row it
    stops at, [ratioSum] and [bandRows].  It runs at most [height - y]
    times, which is the fuel its caller gives it. *)
Fixpoint extendBand (fuel : nat) (ratio : Z -> num) (height y : Z)
    (ratioSum : num) (bandRows : Z) : Z * num * Z :=
  match fuel with
  | O => (y, ratioSum, bandRows)
  | S fuel' =>
      if (y <? height)%Z && (ratio y >=? Fin 0.2)%num
      then extendBand fuel' ratio height (y + 1)%Z (ratioSum + ratio y)%num (bandRows + 1)%Z
      else (y, ratioSum, bandRows)
  end.

(** The outer [while (y < height)] of [detectFooterBand]; [None] when the
    fuel runs out before the loop ends. *)
Fixpoint scanBands (fuel : nat) (ratio : Z -> num) (height minBandHeight y : Z)
    (best : option Band) : option (option Band) :=
  if (y <? height)%Z then
    match fuel with
    | O => None
    | S fuel' =>
        if (ratio y <? Fin 0.28)%num
        then scanBands fuel' ratio height minBandHeight (y + 1)%Z best
        else
          let bandStart := y in
          let '(yEnd, ratioSum, bandRows) :=
            extendBand (Z.to_nat (height - y)) ratio height y (Fin 0) 0%Z in
          let bandEnd := (yEnd - 1)%Z in
          let bandHeight := (bandEnd - bandStart + 1)%Z in
          let avgRatio := if (0 <? bandRows)%Z then (ratioSum / ofZ bandRows)%num else Fin 0 in
          let best' :=
            if (minBandHeight <=? bandHeight)%Z then
              let score := (ofZ bandHeight * Fin 0.7 + avgRatio * ofZ height * Fin 0.3)%num in
              match best with
              | None => Some (mkBand bandStart bandEnd score)
              | Some b =>
                  if (score >? band_score b)%num
                  then Some (mkBand bandStart bandEnd score)
                  else best
              end
            else best in
          scanBands fuel' ratio height minBandHeight yEnd best'
    end
  else Some best.

Definition footerStartY (height : Z) : Z := Qfloor (inject_Z height * 0.45).

Definition minBandHeight (height : Z) : Z := Z.max 24 (Qfloor (inject_Z height * 0.05)).

(** processor.js:127.  [Some None] is the [null] result; [None] stands for
    a scan that does not end within one step per scanned row. *)
Definition detectFooterBand (raw : list Z) (width height channels : Z) : option (option Zone) :=
  let startY := footerStartY height in
  match scanBands (Z.to_nat (height - startY)) (rowPurpleRatio raw width channels)
                  height (minBandHeight height) startY None with
  | None => None
  | Some None => Some None
  | Some (Some best) =>
      Some (Some {| x0 := Qfloor (inject_Z width * 0.45);
                    y0 := band_y0 best;
                    x1 := width;
                    y1 := (band_y1 best + 1)%Z |})
  end.

(** A contiguous group of rows that the scan accepts as a band: it starts,
    at or below [startY], on a row whose ratio reaches the entry threshold
    0.28, all its rows reach 0.2, and it is at least [minBandHeight] high. *)
Definition qualifyingGroup (ratio : Z -> num) (height a b : Z) : Prop :=
  (footerStartY height <= a)%Z /\ (a <= b)%Z /\ (b < height)%Z /\
  (ratio a >=? Fin 0.28)%num = true /\
  (forall y, (a <= y <= b)%Z -> (ratio y >=? Fin 0.2)%num = true) /\
  (minBandHeight height <= b - a + 1)%Z.

(** What the scan keeps as its best band is a qualifying group. *)
Definition keepsQualifying (ratio : Z -> num) (height : Z) (best : option Band) : Prop :=
  match best with
  | None => True
  | Some b => qualifyingGroup ratio height (band_y0 b) (band_y1 b)
  end.

(** An RGB bitmap whose rows from [height - h] on have the colour [band] and
    whose other rows have the colour [top]. *)
Definition bandedBitmap (width height h : Z) (top band : Z * Z * Z) : list Z :=
  flat_map
    (fun y =>
       flat_map (fun _ : Z =>
                   let '(r, g, b) := if (height - h <=? y)%Z then band else top in [r; g; b])
                (zrange 0 width))
    (zrange 0 height).

(** #6E1F5D, the footer colour, and white. *)
Definition footerColor : Z * Z * Z := (110, 31, 93)%Z.
Definition white : Z * Z * Z := (255, 255, 255)%Z.

(** ** The JavaScript engine

    What the processor asks of the engine on values it did not build:
    [JSON.parse] ([None] when it throws), the conversion to a number of a
    string and of an object or array, and the decimal rendering of a finite
    number that is not an integer of at most 21 digits.  Both conversions to
    a number are taken to return a number: an object whose own [toString]
    and [valueOf] are not functions, on which the conversion throws, is
    outside this model. *)

Record Engine : Type := mkEngine {
  JSON_parse : string -> option jsval;
  StringToNumber : string -> num;
  ObjectToNumber : jsval -> num;
  NumberToString : Q -> string
}.

(** [String(n)] for an integer below [10^21] in absolute value. *)
Definition stringOfZ (n : Z) : string :=
  DecimalString.NilZero.string_of_int (Z.to_int n).

(** [String(a)] *)
Definition stringOfNum (js : Engine) (a : num) : string :=
  match a with
  | NaN => "NaN"
  | PosInf => "Infinity"
  | NegInf => "-Infinity"
  | Fin q =>
      if Qeq_bool q (inject_Z (Qfloor q)) && Qltb (Qabs q) (inject_Z (10 ^ 21))
      then stringOfZ (Qfloor q)
      else NumberToString js q
  end.

(** [Boolean(v)], and [v] as a condition. *)
Definition truthy (v : jsval) : bool :=
  match v with
  | JUndefined | JNull => false
  | JBool b => b
  | JNum NaN => false
  | JNum (Fin q) => negb (Qeq_bool q 0)
  | JNum _ => true
  | JStr s => negb (String.eqb s "")
  | JArr _ | JObj _ => true
  end.

(** [Number(v)]. *)
Definition Number (js : Engine) (v : jsval) : num :=
  match v with
  | JUndefined => NaN
  | JNull => Fin 0
  | JBool b => if b then Fin 1 else Fin 0
  | JNum n => n
  | JStr s => StringToNumber js s
  | JArr _ | JObj _ => ObjectToNumber js v
  end.

Fixpoint lookup (key : string) (fields : list (string * jsval)) : jsval :=
  match fields with
  | [] => JUndefined
  | (k, v) :: rest => if String.eqb k key then v else lookup key rest
  end.

(** [v?.key], for the keys the processor reads (none of them is a
    property of strings, numbers or arrays). *)
Definition get (v : jsval) (key : string) : jsval :=
  match v with
  | JObj fields => lookup key fields
  | _ => JUndefined
  end.

(** [a ?? b] *)
Definition nullish (a b : jsval) : jsval :=
  match a with
  | JUndefined | JNull => b
  | _ => a
  end.

(** [a || b] *)
Definition orJs (a b : jsval) : jsval := if truthy a then a else b.

(** [typeof v === "object"] *)
Definition isObjectType (v : jsval) : bool :=
  match v with
  | JNull | JArr _ | JObj _ => true
  | _ => false
  end.

(** ** Strings *)

Definition quoteChar : ascii := ascii_of_nat 34.
Definition backslashChar : ascii := ascii_of_nat 92.
Definition openBrace : ascii := ascii_of_nat 123.
Definition closeBrace : ascii := ascii_of_nat 125.
Definition backtick : ascii := ascii_of_nat 96.

Definition lowerChar (c : ascii) : ascii :=
  let n := nat_of_ascii c in
  if (65 <=? n)%nat && (n <=? 90)%nat then ascii_of_nat (n + 32) else c.

(** [p] is a prefix of [s], letters compared without case. *)
Fixpoint prefixCI (p s : string) : bool :=
  match p, s with
  | EmptyString, _ => true
  | String a p', String b s' => Ascii.eqb (lowerChar a) (lowerChar b) && prefixCI p' s'
  | String _ _, EmptyString => false
  end.

(** [s.replace(/p/g, "")] and [s.replace(/p/gi, "")] for a literal,
    non-empty [p]: every match, left to right, is left out. *)
Fixpoint removeAllFrom (ci : bool) (p : string) (skip : nat) (s : string) : string :=
  match s with
  | EmptyString => EmptyString
  | String c rest =>
      match skip with
      | S k => removeAllFrom ci p k rest
      | O =>
          if (if ci then prefixCI p s else prefix p s)
          then removeAllFrom ci p (String.length p - 1) rest
          else String c (removeAllFrom ci p O rest)
      end
  end.

Definition removeAll (ci : bool) (p : string) (s : string) : string :=
  removeAllFrom ci p O s.

Definition isSpace (c : ascii) : bool :=
  let n := nat_of_ascii c in
  ((9 <=? n)%nat && (n <=? 13)%nat) || (n =? 32)%nat.

Fixpoint trimStart (s : string) : string :=
  match s with
  | String c rest => if isSpace c then trimStart rest else s
  | EmptyString => EmptyString
  end.

Fixpoint trimEnd (s : string) : string :=
  match s with
  | EmptyString => EmptyString
  | String c rest =>
      match trimEnd rest with
      | EmptyString => if isSpace c then EmptyString else String c EmptyString
      | r => String c r
      end
  end.

(** [s.trim()] (on the white space of ASCII). *)
Definition trim (s : string) : string := trimEnd (trimStart s).

(** [s.indexOf(c)] and [s.lastIndexOf(c)] for a character; [-1] as [None]. *)
Fixpoint indexOfChar (c : ascii) (s : string) : option nat :=
  match s with
  | EmptyString => None
  | String a rest =>
      if Ascii.eqb a c then Some O else option_map S (indexOfChar c rest)
  end.

Fixpoint lastIndexOfChar (c : ascii) (s : string) : option nat :=
  match s with
  | EmptyString => None
  | String a rest =>
      match lastIndexOfChar c rest with
      | Some i => Some (S i)
      | None => if Ascii.eqb a c then Some O else None
      end
  end.

(** [s.slice(start, stop)] for [0 <= start <= stop]. *)
Definition slice (start stop : nat) (s : string) : string :=
  substring start (stop - start) s.

Definition fence : string := String backtick (String backtick (String backtick EmptyString)).

(** ** Vision probe adapter: parsing the reply *)

(** processor.js:21 *)
Definition extractJsonObject (js : Engine) (text : string) : jsval :=
  if String.eqb text "" then JNull
  else
    match indexOfChar openBrace text, lastIndexOfChar closeBrace text with
    | Some start, Some stop =>
        if (stop <=? start)%nat then JNull
        else
          match JSON_parse js (slice start (stop + 1) text) with
          | Some v => v
          | None => JNull
          end
    | _, _ => JNull
    end.

(** processor.js:33 *)
Definition cleanModelJsonText (text : string) : string :=
  if String.eqb text "" then ""
  else trim (removeAll false fence (removeAll true (fence ++ "json") text)).

(** The state of the salvaging scan of [parseVisionDetections]. *)
Record ScanState : Type := mkScanState {
  objects : list jsval;
  depth : Z;
  start : Z;
  inString : bool;
  escaped : bool
}.

(** One iteration of the scan, for the character [ch] at index [i].  The
    escape test compares the one-character string [ch] with a string of two
    backslashes. *)
Definition scanChar (js : Engine) (cleaned : string) (st : ScanState) (i : nat) (ch : ascii)
    : ScanState :=
  if inString st then
    if escaped st then mkScanState (objects st) (depth st) (start st) true false
    else if String.eqb (String ch EmptyString)
                       (String backslashChar (String backslashChar EmptyString))
    then mkScanState (objects st) (depth st) (start st) true true
    else if Ascii.eqb ch quoteChar
    then mkScanState (objects st) (depth st) (start st) false (escaped st)
    else st
  else if Ascii.eqb ch quoteChar
  then mkScanState (objects st) (depth st) (start st) true (escaped st)
  else if Ascii.eqb ch openBrace
  then
    let start' := if (depth st =? 0)%Z then Z.of_nat i else start st in
    mkScanState (objects st) (depth st + 1) start' false (escaped st)
  else if Ascii.eqb ch closeBrace
  then
    let depth' := (depth st - 1)%Z in
    if (depth' =? 0)%Z && (0 <=? start st)%Z
    then
      let chunk := slice (Z.to_nat (start st)) (i + 1) cleaned in
      let objects' :=
        match JSON_parse js chunk with
        | Some obj => if truthy obj && isObjectType obj then objects st ++ [obj] else objects st
        | None => objects st
        end in
      mkScanState objects' depth' (-1) false (escaped st)
    else mkScanState (objects st) depth' (start st) false (escaped st)
  else st.

Fixpoint scanFrom (js : Engine) (cleaned : string) (st : ScanState) (i : nat) (rest : string)
    : ScanState :=
  match rest with
  | EmptyString => st
  | String ch rest' => scanFrom js cleaned (scanChar js cleaned st i ch) (S i) rest'
  end.

Definition salvageObjects (js : Engine) (cleaned : string) : list jsval :=
  objects (scanFrom js cleaned (mkScanState [] 0 (-1) false false) O cleaned).

(** processor.js:55 *)
Definition parseVisionDetections (js : Engine) (text : string) : list jsval :=
  let cleaned := cleanModelJsonText text in
  if String.eqb cleaned "" then []
  else
    let direct :=
      match JSON_parse js cleaned with
      | Some (JArr items) => Some items
      | Some data => if truthy data && isObjectType data then Some [data] else None
      | None =>
          let one := extractJsonObject js cleaned in
          if truthy one && isObjectType one then Some [one] else None
      end in
    match direct with
    | Some items => items
    | None => salvageObjects js cleaned
    end.

(** ** Vision probe adapter: choosing the candidate *)

Record Candidate : Type := mkCandidate {
  c_found : bool;
  c_confidence : num;
  c_bbox : option Rect;
  c_matchedReference : jsval
}.

Record ProbeResult : Type := mkProbeResult {
  probe_found : bool;
  probe_confidence : num;
  probe_bbox : option Rect;
  probe_matchedReference : jsval;
  probe_rawText : string
}.

(** The callback of [.map] at processor.js:510. *)
Definition toCandidate (js : Engine) (item : jsval) : Candidate :=
  let unit v := clamp (Number js (nullish v (JNum (Fin 0)))) (Fin 0) (Fin 1) in
  let b := get item "bbox" in
  {| c_found := truthy (get item "found");
     c_confidence := unit (get item "confidence");
     c_bbox :=
       if truthy b
       then Some {| rect_x := unit (get b "x");
                    rect_y := unit (get b "y");
                    rect_width := unit (get b "width");
                    rect_height := unit (get b "height") |}
       else None;
     c_matchedReference := orJs (get item "matchedReference") JNull |}.

(** The callback of [.filter] at processor.js:528. *)
Definition keepCandidate (c : Candidate) : bool :=
  c_found c &&
  match c_bbox c with
  | Some b => (rect_width b >? Fin 0)%num && (rect_height b >? Fin 0)%num
  | None => false
  end.

(** [confidence + bbox.x * 0.1], the sort key (every sorted candidate has a
    bbox). *)
Definition quality (c : Candidate) : num :=
  match c_bbox c with
  | Some b => (c_confidence c + rect_x b * Fin 0.1)%num
  | None => NaN
  end.

(** The comparator [(a, b) => qb - qa]. *)
Definition compareCandidates (a b : Candidate) : num := (quality b - quality a)%num.

(** [Array.prototype.sort] with a comparator, as a stable insertion sort:
    an element moves behind another only when the comparator is positive
    ([NaN] counts as 0).  Every stable sort gives this order when the
    comparator orders the elements consistently, and on two elements
    whatever the comparator; with a comparator that is [NaN] on some pairs
    of three or more elements the order is the engine's choice, and this is
    one such choice. *)
Fixpoint insertSorted (A : Type) (cmp : A -> A -> num) (x : A) (l : list A) : list A :=
  match l with
  | [] => [x]
  | y :: rest =>
      if (cmp x y >? Fin 0)%num then y :: insertSorted cmp x rest else x :: l
  end.

Definition sortArray (A : Type) (cmp : A -> A -> num) (l : list A) : list A :=
  fold_right (insertSorted cmp) [] l.

(** The result when no candidate is left (processor.js:531). *)
Definition notFound (text : string) : ProbeResult :=
  {| probe_found := false; probe_confidence := Fin 0; probe_bbox := None;
     probe_matchedReference := JNull; probe_rawText := text |}.

(** processor.js:509-548: from the reply text to the probe result. *)
Definition probeFromText (js : Engine) (text : string) : ProbeResult :=
  let candidates := filter keepCandidate (map (toCandidate js) (parseVisionDetections js text)) in
  match candidates with
  | [] => notFound text
  | _ :: _ =>
      match sortArray compareCandidates candidates with
      | best :: _ =>
          {| probe_found := true;
             probe_confidence := c_confidence best;
             probe_bbox := c_bbox best;
             probe_matchedReference := c_matchedReference best;
             probe_rawText := text |}
      | [] => notFound text
      end
  end.

(** ** Calls that may fail

    The outcome of a call: a value, a thrown error with its message, or no
    return at all. *)

Inductive Result (A : Type) : Type :=
| Ok (a : A)
| Throw (msg : string)
| Hang.

Arguments Ok {A} a.
Arguments Throw {A} msg.
Arguments Hang {A}.

Definition rbind (A B : Type) (r : Result A) (k : A -> Result B) : Result B :=
  match r with
  | Ok a => k a
  | Throw msg => Throw msg
  | Hang => Hang
  end.

(** [for (const a of l) { ... }] over a body that may fail, threading [acc]. *)
Fixpoint rfold (A B : Type) (body : B -> A -> Result B) (l : list A) (acc : B) : Result B :=
  match l with
  | [] => Ok acc
  | a :: rest => rbind (body acc a) (rfold body rest)
  end.

(** ** Template library *)

(** The reference directory as the file system and sharp present it:
    [fs.readdir], the metadata (width, height) of a file after
    [rotate().trim().grayscale()], and its raw variant resized to a target
    width (width, height, bytes). *)
Record RefDir : Type := mkRefDir {
  readdir : Result (list string);
  trimmedMeta : string -> Result (Z * Z);
  resizedRaw : string -> Z -> Result (Z * Z * list Z);
  resizedPng : string -> Result string
}.

(** [s] ends with [suffix], letters compared without case. *)
Definition endsWithCI (suffix s : string) : bool :=
  let n := String.length s in
  let m := String.length suffix in
  (m <=? n)%nat && prefixCI suffix (substring (n - m) m s).

(** [/\.(png|jpg|jpeg)$/i.test(name)] *)
Definition isLogoFileName (name : string) : bool :=
  endsWithCI ".png" name || endsWithCI ".jpg" name || endsWithCI ".jpeg" name.

Definition targetWidths : list Z := [90; 120; 150; 190; 230]%Z.

Definition sumEdges (edges : list Z) : Z := fold_left Z.add edges 0%Z.

(** The body of the loop over target widths (processor.js:198-215). *)
Definition addVariant (dir : RefDir) (file : string) (templates : list Template)
    (targetWidth : Z) : Result (list Template) :=
  rbind (resizedRaw dir file targetWidth) (fun variantRaw =>
    let '(w, h, data) := variantRaw in
    if (w =? 0)%Z || (h =? 0)%Z || (w <? 40)%Z || (h <? 12)%Z then Ok templates
    else
      let edges := computeEdgeMap data w h defaultEdgeThreshold in
      let edgeCount := sumEdges edges in
      if (edgeCount <? 40)%Z then Ok templates
      else Ok (templates ++ [mkTemplate file w h edges])).

(** The body of the loop over files (processor.js:193-216). *)
Definition addFile (dir : RefDir) (templates : list Template) (file : string)
    : Result (list Template) :=
  rbind (trimmedMeta dir file) (fun baseMeta =>
    let '(bw, bh) := baseMeta in
    if (bw =? 0)%Z || (bh =? 0)%Z then Ok templates
    else rfold (addVariant dir file) targetWidths templates).

(** processor.js:181.  A file is named by its name in the directory. *)
Definition loadLogoTemplates (logoRefsDir : string) (dir : RefDir) : Result (list Template) :=
  rbind (readdir dir) (fun names =>
    let files := filter isLogoFileName names in
    match files with
    | [] => Throw ("No logo references found in " ++ logoRefsDir)
    | _ :: _ =>
        rbind (rfold (addFile dir) files []) (fun templates =>
          match templates with
          | [] => Throw "No usable template variants could be built"
          | _ :: _ => Ok templates
          end)
    end).

Record LogoRef : Type := mkLogoRef {
  ref_name : string;
  ref_base64 : string
}.

(** processor.js:226 *)
Definition loadLogoReferenceImages (logoRefsDir : string) (dir : RefDir)
    : Result (list LogoRef) :=
  rbind (readdir dir) (fun names =>
    let files := filter isLogoFileName names in
    match files with
    | [] => Throw ("No logo references found in " ++ logoRefsDir)
    | _ :: _ =>
        rfold (fun refs file =>
                 rbind (resizedPng dir file) (fun png => Ok (refs ++ [mkLogoRef file png])))
              files []
    end).

(** A variant is discarded (processor.js:206 and 212). *)
Definition variantDiscarded (variantRaw : Z * Z * list Z) : bool :=
  let '(w, h, data) := variantRaw in
  (w =? 0)%Z || (h =? 0)%Z || (w <? 40)%Z || (h <? 12)%Z
  || (sumEdges (computeEdgeMap data w h defaultEdgeThreshold) <? 40)%Z.

(** ** Configuration, job and collaborators of [processPdf] *)

Record FormatProfile : Type := mkFormatProfile {
  bannerPath : string;
  footerRatio : num;
  bannerFit : string;
  fillBackground : bool;
  bottomOffsetPx : num
}.

(** The fields of [config] the processor reads.  The page limits are what
    [Number] makes of the environment: any number, [NaN] included. *)
Record Config : Type := mkConfig {
  logoRefsDir : string;
  maxPagesPerJob : num;
  aiMaxPagesPerJob : num;
  aiPageLimit : num;
  detectorMode : string;
  matchAutoThreshold : num;
  matchReviewThreshold : num;
  debugDrawBoxes : bool;
  forceFooterBanner : bool;
  style_a : FormatProfile;
  style_b : FormatProfile;
  style_c : FormatProfile
}.

(** [jobData.settings]; an absent field is [None]. *)
Record Settings : Type := mkSettings {
  set_autoThreshold : option num;
  set_reviewThreshold : option num;
  set_formatKey : option string;
  set_mode : option string
}.

Record Color : Type := mkColor {
  col_r : num;
  col_g : num;
  col_b : num
}.

(** processor.js:19 *)
Definition SOLID_FOOTER_COLOR : Color :=
  {| col_r := Fin (110 / 255); col_g := Fin (31 / 255); col_b := Fin (93 / 255) |}.

(** What [fetch] and [response.json()] give for one page. *)
Inductive FetchOutcome : Type :=
| FetchThrows (msg : string)
| HttpError (status : Z) (body : string)
| HttpOk (json : Result jsval).

(** One page as its collaborators present it: the render (width, height of
    the bitmap, the floors of the sides of the viewport; a viewport whose
    sides are not numbers is outside this model), the bitmap's bytes without
    alpha with their channel count (0 when sharp reports none), the metadata
    sharp reports for the PNG (width, height, channels; 0 for a value it
    does not report), its grayscale bytes, the classifier's answer, and the
    page size in the document.  The metadata describes the PNG as it is
    stored: its channel count includes an alpha channel that the bytes no
    longer have. *)
Record PageWorld : Type := mkPageWorld {
  pw_render : Result (Z * Z);
  pw_rgb : list Z * Z;
  pw_meta : Z * Z * Z;
  pw_gray : list Z;
  pw_fetch : FetchOutcome;
  pw_pageSize : Size
}.

(** The collaborators of one job: the engine, the reference directory, the
    loading of the input by pdf-lib and by pdf.js (their page counts), the
    replacement banner [loadReplacementBannerForPdf] gives for the job's
    profile (its size when it could be embedded), the pages by page number,
    and the two writes at the end. *)
Record World : Type := mkWorld {
  w_engine : Engine;
  w_refDir : RefDir;
  w_pdfLibLoad : Result Z;
  w_pdfJsLoad : Result Z;
  w_banner : option Size;
  w_page : Z -> PageWorld;
  w_writeOutput : Result unit;
  w_writeAudit : Result unit
}.

(** ** The document being edited *)

Inductive DrawOp : Type :=
| DrawFilledRectangle (pageIndex : Z) (rect : Rect) (color : Color)
| DrawImage (pageIndex : Z) (rect : Rect)
| DrawBorderRectangle (pageIndex : Z) (rect : Rect).

(** What a job has done so far: the pages rendered, by page number, and the
    operations drawn on the document, oldest first. *)
Record Doc : Type := mkDoc {
  doc_rendered : list Z;
  doc_draws : list DrawOp
}.

Definition emptyDoc : Doc := {| doc_rendered := []; doc_draws := [] |}.

(** A step of the job: from the document so far to an outcome and the
    document after it (kept when the step fails). *)
Definition M (A : Type) : Type := Doc -> Result A * Doc.

Definition mret (A : Type) (a : A) : M A := fun d => (Ok a, d).

Definition mbind (A B : Type) (m : M A) (k : A -> M B) : M B :=
  fun d =>
    match m d with
    | (Ok a, d') => k a d'
    | (Throw msg, d') => (Throw msg, d')
    | (Hang, d') => (Hang, d')
    end.

Definition mlift (A : Type) (r : Result A) : M A := fun d => (r, d).

Definition drawRect (op : DrawOp) : Rect :=
  match op with
  | DrawFilledRectangle _ rect _ | DrawImage _ rect | DrawBorderRectangle _ rect => rect
  end.

(** pdf-lib checks what it is asked to draw: [options.x], [options.y],
    [options.width] and [options.height], in this order, must each be a
    number, which [NaN] is not (an infinity is).  The option that fails, if
    any. *)
Definition rejectedOption (rect : Rect) : option string :=
  if isNaN (rect_x rect) then Some "options.x"%string
  else if isNaN (rect_y rect) then Some "options.y"%string
  else if isNaN (rect_width rect) then Some "options.width"%string
  else if isNaN (rect_height rect) then Some "options.height"%string
  else None.

Definition pdfLibAccepts (op : DrawOp) : bool :=
  match rejectedOption (drawRect op) with
  | None => true
  | Some _ => false
  end.

(** [page.drawRectangle] and [page.drawImage]: the operation is added to
    the document, or pdf-lib throws and the document is as before. *)
Definition mdraw (op : DrawOp) : M unit :=
  fun d =>
    match rejectedOption (drawRect op) with
    | None =>
        (Ok tt, {| doc_rendered := doc_rendered d; doc_draws := doc_draws d ++ [op] |})
    | Some name =>
        (Throw ("`" ++ name ++ "` must be of type `number` or `undefined`, "
                ++ "but was actually of type `NaN`")%string, d)
    end.

Definition mrendered (pageNumber : Z) : M unit :=
  fun d => (Ok tt, {| doc_rendered := doc_rendered d ++ [pageNumber]; doc_draws := doc_draws d |}).

Declare Scope m_scope.
Delimit Scope m_scope with M.
Notation "x <- m ;; k" := (mbind m (fun x => k))
  (at level 61, m at next level, right associativity) : m_scope.
Notation "m ;;; k" := (mbind m (fun _ => k))
  (at level 61, right associativity) : m_scope.

Fixpoint mfold (A B : Type) (body : B -> A -> M B) (l : list A) (acc : B) : M B :=
  match l with
  | [] => mret acc
  | a :: rest => mbind (body acc a) (mfold body rest)
  end.

(** ** Vision probe adapter: the request *)

Definition isStringWithText (v : jsval) : bool :=
  match v with
  | JStr s => negb (String.eqb (trim s) "")
  | _ => false
  end.

Definition asArray (v : jsval) : list jsval :=
  match v with
  | JArr items => items
  | _ => []
  end.

Definition stringOf (v : jsval) : string :=
  match v with
  | JStr s => s
  | _ => ""
  end.

Fixpoint joinLines (chunks : list string) : string :=
  match chunks with
  | [] => ""
  | [c] => c
  | c :: rest => c ++ String (ascii_of_nat 10) (joinLines rest)
  end.

(** processor.js:41; reading a property of [null] throws. *)
Definition responseToText (json : jsval) : Result string :=
  match json with
  | JNull => Throw "Cannot read properties of null (reading 'output_text')"
  | JUndefined => Throw "Cannot read properties of undefined (reading 'output_text')"
  | _ =>
      if isStringWithText (get json "output_text") then Ok (stringOf (get json "output_text"))
      else
        let chunks :=
          flat_map
            (fun item =>
               flat_map
                 (fun part =>
                    if isStringWithText (get part "text") then [stringOf (get part "text")]
                    else if isStringWithText (get part "output_text")
                    then [stringOf (get part "output_text")]
                    else [])
                 (asArray (get item "content")))
            (asArray (get json "output")) in
        Ok (joinLines chunks)
  end.

(** processor.js:467 *)
Definition detectLogoWithVision (js : Engine) (outcome : FetchOutcome) : Result ProbeResult :=
  match outcome with
  | FetchThrows msg => Throw msg
  | HttpError status body =>
      Throw ("OpenAI request failed (" ++ stringOfZ status ++ "): " ++ substring 0 200 body)
  | HttpOk json =>
      rbind json (fun j =>
      rbind (responseToText j) (fun text => Ok (probeFromText js text)))
  end.

(** processor.js:551 *)
Definition isFooterLogoBboxValid (bbox : option Rect) : bool :=
  match bbox with
  | None => false
  | Some b =>
      let y := rect_y b in
      let w := rect_width b in
      let h := rect_height b in
      if (y <? Fin 0.72)%num then false
      else if (w <? Fin 0.06)%num || (w >? Fin 0.35)%num then false
      else if (h <? Fin 0.02)%num || (h >? Fin 0.15)%num then false
      else true
  end.

(** processor.js:566 *)
Definition isFooterStripCandidate (bbox : option Rect) : bool :=
  match bbox with
  | None => false
  | Some b =>
      (rect_y b >=? Fin 0.72)%num && (rect_width b >=? Fin 0.55)%num
      && (rect_height b >=? Fin 0.06)%num && (rect_height b <=? Fin 0.2)%num
  end.

(** ** Fill colour (processor.js:396)

    [sampleFillColor] on the bitmap as sharp presents it: the metadata of
    the PNG (width, height, channels; 0 for a value sharp does not report)
    and the raw bytes without alpha.  The pixel index is computed with the
    channel count of the metadata, whatever the layout of the bytes. *)

Record FillSums : Type := mkFillSums {
  sumR : Z;
  sumG : Z;
  sumB : Z;
  fill_count : Z
}.

Definition whiteFill : Color := mkColor (Fin 1) (Fin 1) (Fin 1).

(** [Math.floor(clamp(v, 0, hi))] as a loop bound: an integer, or [None]
    for [NaN], with which no loop test holds.  (A clamp between two finite
    bounds is finite or [NaN].) *)
Definition floorClamp (v : num) (hi : Z) : option Z :=
  match Math_floor (clamp v (Fin 0) (ofZ hi)) with
  | Fin q => Some (Qfloor q)
  | _ => None
  end.

(** [isBorder]: pixel [(x, y)] lies outside the box. *)
Definition isBorder (bboxPx : Rect) (x y : Z) : bool :=
  (ofZ x <? rect_x bboxPx)%num
  || (ofZ x >? rect_x bboxPx + rect_width bboxPx)%num
  || (ofZ y <? rect_y bboxPx)%num
  || (ofZ y >? rect_y bboxPx + rect_height bboxPx)%num.

(** The three channels read for pixel [(x, y)]: [raw[idx]],
    [raw[idx + 1] ?? raw[idx]] and [raw[idx + 2] ?? raw[idx]]. *)
Definition pixelAt (raw : list Z) (width channels x y : Z)
    : option Z * option Z * option Z :=
  let idx := ((y * width + x) * channels)%Z in
  (typedGet raw idx,
   orElse (typedGet raw (idx + 1)) (typedGet raw idx),
   orElse (typedGet raw (idx + 2)) (typedGet raw idx)).

(** The body of the inner loop; a channel that is [undefined] converts to
    [NaN] and the pixel is skipped. *)
Definition samplePixel (raw : list Z) (width channels : Z) (bboxPx : Rect) (y : Z)
    (acc : FillSums) (x : Z) : FillSums :=
  if negb (isBorder bboxPx x y) then acc
  else
    match pixelAt raw width channels x y with
    | (Some r, Some g, Some b) =>
        mkFillSums (sumR acc + r) (sumG acc + g) (sumB acc + b) (fill_count acc + 1)
    | _ => acc
    end.

(** The window sampled: the box grown by the margin of 10 pixels, cut to
    the bitmap. *)
Definition fillWindow (width height : Z) (bboxPx : Rect)
    : option Z * option Z * option Z * option Z :=
  let margin := Fin 10 in
  (floorClamp (rect_x bboxPx - margin)%num (width - 1),
   floorClamp (rect_y bboxPx - margin)%num (height - 1),
   floorClamp (rect_x bboxPx + rect_width bboxPx + margin)%num (width - 1),
   floorClamp (rect_y bboxPx + rect_height bboxPx + margin)%num (height - 1)).

(** The values of [for (v = lo; v <= hi; v += 1)]. *)
Definition loopTo (lo hi : option Z) : list Z :=
  match lo, hi with
  | Some a, Some b => zrange a (b + 1)
  | _, _ => []
  end.

Definition fillSums (raw : list Z) (width height channels : Z) (bboxPx : Rect) : FillSums :=
  let '(xLeft, yTop, xRight, yBottom) := fillWindow width height bboxPx in
  fold_left
    (fun acc y => fold_left (samplePixel raw width channels bboxPx y) (loopTo xLeft xRight) acc)
    (loopTo yTop yBottom)
    (mkFillSums 0 0 0 0).

Definition channelMean (sum count : Z) : num :=
  clamp ((ofZ sum / ofZ count) / Fin 255)%num (Fin 0) (Fin 1).

Definition sampleFillColor (meta : Z * Z * Z) (raw : list Z) (bboxPx : Rect) : Color :=
  let '(width, height, channels) := meta in
  if ((width =? 0) || (height =? 0) || (channels =? 0))%Z%bool then whiteFill
  else
    let s := fillSums raw width height channels bboxPx in
    if (fill_count s =? 0)%Z then whiteFill
    else {| col_r := channelMean (sumR s) (fill_count s);
            col_g := channelMean (sumG s) (fill_count s);
            col_b := channelMean (sumB s) (fill_count s) |}.

(** ** Replacement banner (processor.js:441)

    [fs.readFile] of the banner and pdf-lib's [embedPng] and [embedJpg] are
    inputs; an embedded image is carried as its size. *)
Definition loadReplacementBannerForPdf (bannerPath : string) (readFile : Result (list Z))
    (embedPng embedJpg : list Z -> Result Size) : Result (option (Size * string)) :=
  let attempt :=
    rbind readFile (fun bytes =>
      if endsWithCI ".png" bannerPath
      then rbind (embedPng bytes) (fun img => Ok (img, "png"%string))
      else if endsWithCI ".jpg" bannerPath || endsWithCI ".jpeg" bannerPath
      then rbind (embedJpg bytes) (fun img => Ok (img, "jpg"%string))
      else
        match embedPng bytes with
        | Ok img => Ok (img, "png"%string)
        | Throw _ => rbind (embedJpg bytes) (fun img => Ok (img, "jpg"%string))
        | Hang => Hang
        end) in
  match attempt with
  | Ok banner => Ok (Some banner)
  | Throw _ => Ok None
  | Hang => Hang
  end.

(** ** Decision and audit engine *)

Inductive Action : Type :=
| ActNone
| ActRemoved
| ActRemovedFooterStrip
| ActReplacedFooterBanner
| ActReview.

Record AiProbeAudit : Type := mkAiProbeAudit {
  ai_found : bool;
  ai_confidence : num;
  ai_bbox : option Rect;
  ai_rawText : option string
}.

(** An entry of [auditPages]. *)
Record AuditPage : Type := mkAuditPage {
  pageNumber : Z;
  detectionScore : num;
  audit_matchedReference : jsval;
  aiProbe : option AiProbeAudit;
  footerZone : option Zone;
  audit_bboxPx : option Rect;
  pdfRect : option Rect;
  debugPreviewRect : option Rect;
  audit_plausible : bool;
  action : Action
}.

Record Summary : Type := mkSummary {
  totalPages : num;
  totalPagesInPdf : Z;
  sum_removed : Z;
  sum_review : Z;
  sum_none : Z;
  statusHint : string
}.

(** The audit document, without its timestamp. *)
Record Audit : Type := mkAudit {
  audit_mode : string;
  detector : string;
  audit_formatKey : string;
  audit_formatProfile : FormatProfile;
  thresholds : num * num;
  pages : list AuditPage;
  summary : Summary
}.

(** The value [processPdf] resolves to. *)
Record JobResult : Type := mkJobResult {
  pagesTotal : num;
  pagesProcessed : num;
  progress : Z;
  hasReview : bool;
  removedCount : Z;
  reviewCount : Z
}.

(** What one page's detection hands to the decision (processor.js:613-676). *)
Record Detection : Type := mkDetection {
  det_footerZone : option Zone;
  det_match : Match;
  det_plausible : bool;
  det_aiProbe : option ProbeResult;
  det_wideFooterStrip : bool
}.

Definition useAiDetector (cfg : Config) : bool :=
  String.eqb (detectorMode cfg) "ai-probe" || String.eqb (detectorMode cfg) "ai-cut".

(** The property names every object inherits from [Object.prototype].
    Looked up in [config.formatProfiles], each gives a function or an
    object: a truthy value that has none of a profile's properties. *)
Definition inheritedKeys : list string :=
  ["constructor"; "hasOwnProperty"; "isPrototypeOf"; "propertyIsEnumerable";
   "toLocaleString"; "toString"; "valueOf"; "__proto__";
   "__defineGetter__"; "__defineSetter__"; "__lookupGetter__"; "__lookupSetter__"]%string.

(** A profile whose properties are all [undefined]: the ratio converts to
    [NaN], the fit is not "cover", no background is asked for, and the
    offset counts as 0. *)
Definition undefinedProfile : FormatProfile :=
  {| bannerPath := ""; footerRatio := NaN; bannerFit := "";
     fillBackground := false; bottomOffsetPx := NaN |}.

(** [config.formatProfiles[formatKey] || config.formatProfiles.style_a] *)
Definition formatProfileOf (cfg : Config) (formatKey : string) : FormatProfile :=
  if String.eqb formatKey "style_a" then style_a cfg
  else if String.eqb formatKey "style_b" then style_b cfg
  else if String.eqb formatKey "style_c" then style_c cfg
  else if existsb (String.eqb formatKey) inheritedKeys then undefinedProfile
  else style_a cfg.

(** [detectFooterBand] as a call. *)
Definition footerBandOf (rgb : list Z * Z) (width height : Z) : Result (option Zone) :=
  let '(data, channels) := rgb in
  match detectFooterBand data width height (if (channels =? 0)%Z then 3%Z else channels) with
  | Some zone => Ok zone
  | None => Hang
  end.

(** processor.js:619-639 *)
Definition detectForced (pw : PageWorld) (width height : Z) : Result Detection :=
  rbind (footerBandOf (pw_rgb pw) width height) (fun zone =>
    let fallbackY0 := Qfloor (inject_Z height * 0.885) in
    let fallbackY1 := (height - 1)%Z in
    let y0' := match zone with Some z => y0 z | None => fallbackY0 end in
    let y1' := match zone with Some z => y1 z | None => fallbackY1 end in
    Ok {| det_footerZone := zone;
          det_match :=
            {| score := Fin 1;
               bboxPx := Some (rectZ 0 y0' width (Z.max 1 (y1' - y0')));
               matchedReference := JStr "footer-banner" |};
          det_plausible := true;
          det_aiProbe := None;
          det_wideFooterStrip := true |}).

(** processor.js:640-662 *)
Definition detectWithAi (js : Engine) (pw : PageWorld) (width height : Z) : Result Detection :=
  rbind (detectLogoWithVision js (pw_fetch pw)) (fun probe =>
    let validFooterBox := probe_found probe && isFooterLogoBboxValid (probe_bbox probe) in
    let wideFooterStrip := probe_found probe && isFooterStripCandidate (probe_bbox probe) in
    let none := {| det_footerZone := None; det_match := noMatch; det_plausible := false;
                   det_aiProbe := Some probe; det_wideFooterStrip := wideFooterStrip |} in
    if probe_found probe then
      match probe_bbox probe with
      | Some b =>
          let bboxPx :=
            {| rect_x := Math_round (rect_x b * ofZ width);
               rect_y := Math_round (rect_y b * ofZ height);
               rect_width := Math_max (Fin 1) (Math_round (rect_width b * ofZ width));
               rect_height := Math_max (Fin 1) (Math_round (rect_height b * ofZ height)) |} in
          let geometricOk := isBboxPlausible (Some bboxPx) (ofZ width) (ofZ height) in
          let ok := wideFooterStrip || (validFooterBox && geometricOk) in
          Ok {| det_footerZone := None;
                det_match :=
                  {| score := if ok then probe_confidence probe else Fin 0;
                     bboxPx := Some bboxPx;
                     matchedReference := probe_matchedReference probe |};
                det_plausible := ok;
                det_aiProbe := Some probe;
                det_wideFooterStrip := wideFooterStrip |}
      | None => Ok none
      end
    else Ok none).

(** processor.js:663-676 *)
Definition detectDeterministic (templates : list Template) (pw : PageWorld)
    (width height : Z) : Result Detection :=
  rbind (footerBandOf (pw_rgb pw) width height) (fun zone =>
    let pageEdges := computeEdgeMap (pw_gray pw) width height defaultEdgeThreshold in
    let m := detectLogoByTemplateMatch pageEdges width height templates zone in
    Ok {| det_footerZone := zone;
          det_match := m;
          det_plausible := isBboxPlausible (bboxPx m) (ofZ width) (ofZ height);
          det_aiProbe := None;
          det_wideFooterStrip := false |}).

Definition detectPage (cfg : Config) (js : Engine) (templates : list Template)
    (pw : PageWorld) (width height : Z) : Result Detection :=
  if forceFooterBanner cfg then detectForced pw width height
  else if useAiDetector cfg then detectWithAi js pw width height
  else detectDeterministic templates pw width height.

(** processor.js:347: the background, when asked for, and the fitted image. *)
Definition drawBannerFitted (pageIndex : Z) (bannerSize : Size) (targetRect : Rect)
    (profile : FormatProfile) : M unit :=
  let fitCover := String.eqb (bannerFit profile) "cover" in
  let imageAspect := (size_width bannerSize / size_height bannerSize)%num in
  let targetAspect := (rect_width targetRect / rect_height targetRect)%num in
  let wider := (imageAspect >? targetAspect)%num in
  let drawWidth :=
    if Bool.eqb fitCover wider then (rect_height targetRect * imageAspect)%num
    else rect_width targetRect in
  let drawHeight :=
    if Bool.eqb fitCover wider then rect_height targetRect
    else (rect_width targetRect / imageAspect)%num in
  let drawX := (rect_x targetRect + (rect_width targetRect - drawWidth) / Fin 2)%num in
  let offset := match bottomOffsetPx profile with NaN => Fin 0 | v => v end in
  let drawY :=
    (rect_y targetRect + (rect_height targetRect - drawHeight) / Fin 2 - offset)%num in
  ((if fillBackground profile
    then mdraw (DrawFilledRectangle pageIndex targetRect SOLID_FOOTER_COLOR)
    else mret tt) ;;;
   mdraw (DrawImage pageIndex (mkRect drawX drawY drawWidth drawHeight)))%M.

(** The outcome of the decision for one page: the action, the rectangle
    redacted and the debug rectangle. *)
Record Decision : Type := mkDecision {
  dec_action : Action;
  dec_pdfRect : option Rect;
  dec_debugPreviewRect : option Rect
}.

(** A redaction: a filled rectangle or a banner image on the page. *)
Definition isRedaction (op : DrawOp) : bool :=
  match op with
  | DrawFilledRectangle _ _ _ | DrawImage _ _ => true
  | DrawBorderRectangle _ _ => false
  end.

Definition drawPage (op : DrawOp) : Z :=
  match op with
  | DrawFilledRectangle i _ _ | DrawImage i _ | DrawBorderRectangle i _ => i
  end.

Definition isRemovedAction (a : Action) : bool :=
  match a with
  | ActRemoved | ActRemovedFooterStrip | ActReplacedFooterBanner => true
  | _ => false
  end.

Definition isReviewAction (a : Action) : bool :=
  match a with
  | ActReview => true
  | _ => false
  end.

(** processor.js:678-727: the threshold policy of one page, its redaction
    and its debug box.  The colours handed to [rgb] are the footer colour,
    the two debug colours and a colour of [sampleFillColor]: their channels
    lie in [0, 1], which is all [rgb] asks. *)
Definition decidePage (cfg : Config) (w : World) (profile : FormatProfile)
    (autoThreshold reviewThreshold : num) (i : Z) (pw : PageWorld)
    (width height : Z) (det : Detection) : M Decision :=
  let m := det_match det in
  let plausible := det_plausible det in
  let wideFooterStrip := det_wideFooterStrip det in
  let renderSize := mkSize (ofZ width) (ofZ height) in
  (applied <-
     (if negb (String.eqb (detectorMode cfg) "ai-probe") && plausible
         && (score m >=? autoThreshold)%num
      then
        let pageSize := pw_pageSize pw in
        let bannerReplacementMode := String.eqb (detectorMode cfg) "ai-cut" && wideFooterStrip in
        rect <- (if bannerReplacementMode
                 then mret (getStableFooterPdfRect pageSize (footerRatio profile))
                 else match bboxPx m with
                      | Some b => mret (imageBboxToPdfRect b renderSize pageSize)
                      | None => mlift (Throw "Cannot read properties of null (reading 'x')")
                      end) ;;
        drawColor <- (if bannerReplacementMode then mret SOLID_FOOTER_COLOR
                      else match bboxPx m with
                           | Some b =>
                               mret (sampleFillColor (pw_meta pw) (fst (pw_rgb pw)) b)
                           | None =>
                               mlift (Throw "Cannot read properties of null (reading 'x')")
                           end) ;;
        let drawColor' :=
          if debugDrawBoxes cfg && negb wideFooterStrip
          then mkColor (Fin 1) (Fin 0) (Fin 0) else drawColor in
        (match bannerReplacementMode, w_banner w with
         | true, Some bannerSize => drawBannerFitted i bannerSize rect profile
         | _, _ => mdraw (DrawFilledRectangle i rect drawColor')
         end) ;;;
        mret (if wideFooterStrip then ActReplacedFooterBanner else ActRemoved, Some rect)
      else if plausible && (score m >=? reviewThreshold)%num
      then mret (ActReview, None)
      else mret (ActNone, None)) ;;
   let '(action, pdfRect) := applied in
   match debugDrawBoxes cfg && negb (isRemovedAction action), bboxPx m with
   | true, Some b =>
       let debugPreviewRect := imageBboxToPdfRect b renderSize (pw_pageSize pw) in
       mdraw (DrawBorderRectangle i debugPreviewRect) ;;;
       mret (mkDecision action pdfRect (Some debugPreviewRect))
   | _, _ => mret (mkDecision action pdfRect None)
   end)%M.

(** The body of the page loop (processor.js:606-745). *)
Definition processPage (cfg : Config) (w : World) (profile : FormatProfile)
    (templates : list Template) (autoThreshold reviewThreshold : num)
    (auditPages : list AuditPage) (i : Z) : M (list AuditPage) :=
  let pageNumber := (i + 1)%Z in
  let pw := w_page w pageNumber in
  (size <- mlift (pw_render pw) ;;
   mrendered pageNumber ;;;
   let '(width, height) := size in
   det <- mlift (detectPage cfg (w_engine w) templates pw width height) ;;
   dec <- decidePage cfg w profile autoThreshold reviewThreshold i pw width height det ;;
   mret (auditPages ++
         [{| pageNumber := pageNumber;
             detectionScore := toFixed4 (score (det_match det));
             audit_matchedReference := matchedReference (det_match det);
             aiProbe :=
               option_map
                 (fun p => {| ai_found := probe_found p;
                              ai_confidence := probe_confidence p;
                              ai_bbox := probe_bbox p;
                              ai_rawText := if String.eqb (probe_rawText p) "" then None
                                            else Some (probe_rawText p) |})
                 (det_aiProbe det);
             footerZone := det_footerZone det;
             audit_bboxPx := bboxPx (det_match det);
             pdfRect := dec_pdfRect dec;
             debugPreviewRect := dec_debugPreviewRect dec;
             audit_plausible := det_plausible det;
             action := dec_action dec |}]))%M.

Definition countActions (f : Action -> bool) (auditPages : list AuditPage) : Z :=
  Z.of_nat (List.length (filter (fun p => f (action p)) auditPages)).

Definition needsReview (review removed : Z) : bool :=
  (0 <? review)%Z || (removed =? 0)%Z.

(** processor.js:599-601.  [Math.min] of three arguments is [NaN] as soon
    as one of them is. *)
Definition pagesToProcessOf (cfg : Config) (pdfLibPages pdfJsPages : Z) : num :=
  let totalPagesInPdf := Z.min pdfLibPages pdfJsPages in
  let totalPages :=
    Math_min (Math_min (ofZ totalPagesInPdf) (maxPagesPerJob cfg)) (aiMaxPagesPerJob cfg) in
  if (aiPageLimit cfg >? Fin 0)%num then Math_min totalPages (aiPageLimit cfg) else totalPages.

(** The values of [i] in [for (let i = 0; i < n; i += 1)] for a number
    [n]: none when [n] is [NaN] or not positive, and [0 .. ceil(n) - 1] for
    a finite [n].  ([Infinity], on which the loop would not stop by itself,
    is no value of [pagesToProcessOf], which is at most the page count.) *)
Definition pagesLoop (n : num) : list Z :=
  match n with
  | Fin q => zrange 0 (Qceiling q)
  | _ => []
  end.

(** processor.js:579-580 *)
Definition autoThresholdOf (cfg : Config) (settings : Settings) : num :=
  match set_autoThreshold settings with
  | Some v => v
  | None => matchAutoThreshold cfg
  end.

Definition reviewThresholdOf (cfg : Config) (settings : Settings) : num :=
  match set_reviewThreshold settings with
  | Some v => v
  | None => matchReviewThreshold cfg
  end.

(** processor.js:574.  The job is its settings; the audit is returned with
    the job result. *)
Definition processPdf (cfg : Config) (w : World) (settings : Settings) : M (JobResult * Audit) :=
  let formatKey := match set_formatKey settings with
                   | Some k => if String.eqb k "" then "style_a"%string else k
                   | None => "style_a"%string
                   end in
  let formatProfile := formatProfileOf cfg formatKey in
  let autoThreshold := autoThresholdOf cfg settings in
  let reviewThreshold := reviewThresholdOf cfg settings in
  (templates <- mlift (if useAiDetector cfg then Ok []
                       else loadLogoTemplates (logoRefsDir cfg) (w_refDir w)) ;;
   logoRefs <- mlift (if useAiDetector cfg
                      then loadLogoReferenceImages (logoRefsDir cfg) (w_refDir w)
                      else Ok []) ;;
   pdfLibPages <- mlift (w_pdfLibLoad w) ;;
   pdfJsPages <- mlift (w_pdfJsLoad w) ;;
   let totalPagesInPdf := Z.min pdfLibPages pdfJsPages in
   let pagesToProcess := pagesToProcessOf cfg pdfLibPages pdfJsPages in
   auditPages <- mfold (processPage cfg w formatProfile templates autoThreshold reviewThreshold)
                       (pagesLoop pagesToProcess) [] ;;
   mlift (w_writeOutput w) ;;;
   let removed := countActions isRemovedAction auditPages in
   let review := countActions isReviewAction auditPages in
   let none := (Z.of_nat (List.length auditPages) - removed - review)%Z in
   let audit :=
     {| audit_mode := match set_mode settings with
                      | Some m => if String.eqb m "" then "overlay"%string else m
                      | None => "overlay"%string
                      end;
        detector := if String.eqb (detectorMode cfg) "ai-probe" then "ai-probe-v1"%string
                    else if String.eqb (detectorMode cfg) "ai-cut" then "ai-cut-v1"%string
                    else "template-match-v2"%string;
        audit_formatKey := formatKey;
        audit_formatProfile := formatProfile;
        thresholds := (autoThreshold, reviewThreshold);
        pages := auditPages;
        summary :=
          {| totalPages := pagesToProcess;
             totalPagesInPdf := totalPagesInPdf;
             sum_removed := removed;
             sum_review := review;
             sum_none := none;
             statusHint := if needsReview review removed
                           then "needs_review"%string else "completed"%string |} |} in
   mlift (w_writeAudit w) ;;;
   mret ({| pagesTotal := pagesToProcess;
            pagesProcessed := pagesToProcess;
            progress := 100;
            hasReview := needsReview review removed;
            removedCount := removed;
            reviewCount := review |}, audit))%M.

(** *** Vocabulary for the properties of the job *)

(** From [d] to [d'] the step drew a redaction, and drew on page [i] only. *)
Definition redactedOn (i : Z) (d d' : Doc) : Prop :=
  doc_rendered d' = doc_rendered d /\
  exists new, doc_draws d' = doc_draws d ++ new /\
              existsb isRedaction new = true /\
              forallb (fun op => (drawPage op =? i)%Z) new = true.

(** From [d] to [d'] the step drew no redaction (a debug border at most). *)
Definition notRedacted (i : Z) (d d' : Doc) : Prop :=
  doc_rendered d' = doc_rendered d /\
  exists new, doc_draws d' = doc_draws d ++ new /\
              existsb isRedaction new = false /\
              forallb (fun op => (drawPage op =? i)%Z) new = true.

(** The page numbers the loop visits for the cap [n]: [1 .. n] for a
    positive integer [n]. *)
Definition pageNumbers (n : num) : list Z := map (fun i => (i + 1)%Z) (pagesLoop n).

(** * The jobs API: [job-store.js] and the routes of [index.js] *)

(** ** Job store (job-store.js)

    An object is the list of its own properties, a [Map] the list of its
    entries, both in insertion order (no property name of these objects is
    an array index, which an object would list first). *)

Fixpoint fieldOf (V : Type) (key : string) (o : list (string * V)) : option V :=
  match o with
  | [] => None
  | (k, v) :: rest => if String.eqb k key then Some v else fieldOf key rest
  end.

(** [o[key] = v] and [map.set(key, v)]: an existing key keeps its place. *)
Fixpoint setField (V : Type) (key : string) (v : V) (o : list (string * V))
    : list (string * V) :=
  match o with
  | [] => [(key, v)]
  | (k, v') :: rest =>
      if String.eqb k key then (k, v) :: rest else (k, v') :: setField key v rest
  end.

(** [{ ...existing, ...data }] *)
Definition spread (V : Type) (existing data : list (string * V)) : list (string * V) :=
  fold_left (fun o kv => setField (fst kv) (snd kv) o) data existing.

Definition JobStore (V : Type) : Type := list (string * list (string * V)).

(** job-store.js:4; [null] is [None]. *)
Definition getJob (V : Type) (jobs : JobStore V) (jobId : string) : option (list (string * V)) :=
  fieldOf jobId jobs.

(** job-store.js:8 *)
Definition setJob (V : Type) (jobs : JobStore V) (jobId : string) (data : list (string * V))
    : JobStore V :=
  let existing := match fieldOf jobId jobs with
                  | Some job => job
                  | None => []
                  end in
  setField jobId (spread existing data) jobs.

(** job-store.js:13 *)
Definition updateJob (V : Type) (jobs : JobStore V) (jobId : string) (data : list (string * V))
    : JobStore V :=
  setJob jobs jobId data.

(** ** Routes (index.js)

    Every property of a job and of a JSON reply of these routes is a
    string. *)

Definition Job : Type := list (string * string).

Inductive ReplyBody : Type :=
| BodyJson (fields : list (string * string))
| BodyFile (bytes : list Z)
| BodyValue (v : jsval).

Record Reply : Type := mkReply {
  reply_code : Z;
  reply_headers : list (string * string);
  reply_body : ReplyBody
}.

Definition replyJson (code : Z) (fields : list (string * string)) : Reply :=
  mkReply code [] (BodyJson fields).

(** [hay.includes(needle)] *)
Fixpoint includes (needle hay : string) : bool :=
  prefix needle hay
  || match hay with
     | EmptyString => false
     | String _ rest => includes needle rest
     end.

(** The uploaded part: [file.mimetype], when it has one. *)
Record Upload : Type := mkUpload {
  up_mimetype : option string
}.

(** A request to [POST /v1/jobs]: the values given for [format] in the
    query string (none, one, or several) and what [request.file()] gives. *)
Record PostRequest : Type := mkPostRequest {
  req_format : list string;
  req_file : Result (option Upload)
}.

(** [String(request.query?.format || "style_a")]; several values make an
    array, which converts to its elements joined by commas. *)
Definition formatOf (values : list string) : string :=
  match values with
  | [] => "style_a"
  | [v] => if String.eqb v "" then "style_a" else v
  | _ => String.concat "," values
  end.

Definition allowedFormats : list string := ["style_a"; "style_b"; "style_c"]%string.

Definition isAllowedFormat (format : string) : bool :=
  existsb (String.eqb format) allowedFormats.

(** What the route reads besides the request: [config.autoThreshold] and
    [config.reviewThreshold], the environment variables
    [MATCH_AUTO_THRESHOLD] and [MATCH_REVIEW_THRESHOLD], the identifier
    [uuidv4()] returns, the two readings of the clock, and the outcome of
    [saveUploadedFile]. *)
Record ApiContext : Type := mkApiContext {
  api_autoThreshold : num;
  api_reviewThreshold : num;
  env_matchAutoThreshold : option string;
  env_matchReviewThreshold : option string;
  api_uuid : string;
  api_startedAt : string;
  api_finishedAt : string;
  api_saveUpload : Result unit
}.

(** [Number(process.env.NAME || fallback)] for a number [fallback]. *)
Definition envNumberOr (js : Engine) (value : option string) (fallback : num) : num :=
  match value with
  | Some s => if String.eqb s "" then fallback else StringToNumber js s
  | None => fallback
  end.

(** The settings of the job (index.js:62-69), as far as the processor
    reads them. *)
Definition settingsOf (js : Engine) (api : ApiContext) (format : string) : Settings :=
  {| set_autoThreshold :=
       Some (envNumberOr js (env_matchAutoThreshold api) (api_autoThreshold api));
     set_reviewThreshold :=
       Some (envNumberOr js (env_matchReviewThreshold api) (api_reviewThreshold api));
     set_formatKey := Some format;
     set_mode := Some "overlay"%string |}.

(** The job as stored before processing starts (index.js:43-53). *)
Definition initialJob (jobId now : string) : Job :=
  [("jobId", jobId); ("status", "processing"); ("progress", "10");
   ("pagesProcessed", "0"); ("pagesTotal", "0"); ("createdAt", now);
   ("updatedAt", now); ("startedAt", now); ("error", "")]%string.

(** [result.hasReview || Number(result.removedCount || 0) === 0] *)
Definition shouldReview (result : JobResult) : bool :=
  hasReview result || (removedCount result =? 0)%Z.

Definition statusOf (result : JobResult) : string :=
  if shouldReview result then "needs_review" else "completed".

(** [POST /v1/jobs] (index.js:20).  The reply, or the error the handler
    lets escape, and the job store afterwards. *)
Definition postJob (cfg : Config) (w : World) (api : ApiContext) (req : PostRequest)
    (jobs : JobStore string) : Result Reply * JobStore string :=
  let format := formatOf (req_format req) in
  if negb (isAllowedFormat format)
  then (Ok (replyJson 400 [("error", "Invalid format. Use style_a, style_b, or style_c.")]%string),
        jobs)
  else
    match req_file req with
    | Throw msg => (Throw msg, jobs)
    | Hang => (Hang, jobs)
    | Ok None => (Ok (replyJson 400 [("error", "Missing file")]%string), jobs)
    | Ok (Some file) =>
        let contentType := match up_mimetype file with
                           | Some m => m
                           | None => ""%string
                           end in
        if negb (includes "pdf" contentType)
        then (Ok (replyJson 400 [("error", "Only PDF uploads are allowed")]%string), jobs)
        else
          let jobId := api_uuid api in
          match api_saveUpload api with
          | Throw msg => (Throw msg, jobs)
          | Hang => (Hang, jobs)
          | Ok _ =>
              let jobs1 := setJob jobs jobId (initialJob jobId (api_startedAt api)) in
              match fst (processPdf cfg w (settingsOf (w_engine w) api format) emptyDoc) with
              | Ok (result, _) =>
                  let status := statusOf result in
                  (Ok (replyJson 200 [("jobId", jobId); ("status", status)]%string),
                   updateJob jobs1 jobId
                     [("status", status);
                      ("progress", stringOfZ (progress result));
                      ("pagesProcessed", stringOfNum (w_engine w) (pagesProcessed result));
                      ("pagesTotal", stringOfNum (w_engine w) (pagesTotal result));
                      ("finishedAt", api_finishedAt api)]%string)
              | Throw msg =>
                  (Ok (replyJson 500 [("jobId", jobId); ("status", "failed"); ("error", msg)]%string),
                   updateJob jobs1 jobId
                     [("status", "failed"); ("progress", "100"); ("error", msg);
                      ("finishedAt", api_finishedAt api)]%string)
              | Hang => (Hang, jobs1)
              end
          end
    end.

(** [GET /v1/jobs/:jobId] (index.js:103) *)
Definition getJobRoute (jobs : JobStore string) (jobId : string) : Reply :=
  match getJob jobs jobId with
  | None => replyJson 404 [("error", "Job not found")]%string
  | Some job => replyJson 200 job
  end.

(** [GET /v1/jobs/:jobId/download] (index.js:114); [access] and [readFile]
    are [fs.access] and [fs.readFile] of the output path. *)
Definition downloadRoute (jobs : JobStore string) (jobId : string)
    (access : Result unit) (readFile : Result (list Z)) : Result Reply :=
  match getJob jobs jobId with
  | None => Ok (replyJson 404 [("error", "Job not found")]%string)
  | Some job =>
      let status := fieldOf "status" job in
      let shown := match status with
                   | Some s => s
                   | None => "undefined"%string
                   end in
      let ready := match status with
                   | Some s => existsb (String.eqb s) ["completed"; "needs_review"]%string
                   | None => false
                   end in
      if negb ready
      then Ok (replyJson 409 [("error", "Job status is " ++ shown)]%string)
      else
        match access with
        | Hang => Hang
        | Throw _ => Ok (replyJson 404 [("error", "Output file not found")]%string)
        | Ok _ =>
            rbind readFile (fun bytes =>
              Ok (mkReply 200
                    [("Content-Type", "application/pdf");
                     ("Content-Disposition", "attachment; filename=cleaned-" ++ jobId ++ ".pdf")]%string
                    (BodyFile bytes)))
        end
  end.

(** [GET /v1/jobs/:jobId/audit] (index.js:138): the job store is not
    consulted; [readFile] is [fs.readFile] of the audit path. *)
Definition auditRoute (js : Engine) (readFile : Result string) : Result Reply :=
  match readFile with
  | Hang => Hang
  | Throw _ => Ok (replyJson 404 [("error", "Audit not found")]%string)
  | Ok text =>
      match JSON_parse js text with
      | Some v => Ok (mkReply 200 [("Content-Type", "application/json")]%string (BodyValue v))
      | None => Ok (replyJson 404 [("error", "Audit not found")]%string)
      end
  end.

(** ** Sample inputs *)

(** A 40x12 template variant: edges along its top row and left column (69
    edge pixels; like every edge map, none in the last row and column). *)
Definition sampleTemplate : Template :=
  mkTemplate "logo.png" 40 12
    (map (fun idx =>
            let y := (idx / 40)%Z in
            let x := (idx mod 40)%Z in
            if ((y <? 11) && (x <? 39) && ((y =? 0) || (x =? 0)))%Z%bool then 1%Z else 0%Z)
         (zrange 0 480)).

(** The same edges in a variant three columns wider. *)
Definition sampleTemplateWide : Template :=
  mkTemplate "logo-wide.png" 43 12
    (map (fun idx =>
            let y := (idx / 43)%Z in
            let x := (idx mod 43)%Z in
            if ((y <? 11) && (x <? 39) && ((y =? 0) || (x =? 0)))%Z%bool then 1%Z else 0%Z)
         (zrange 0 516)).

(** Another 40x12 template: one horizontal line of edges, in its sixth
    row. *)
Definition sampleTemplateBar : Template :=
  mkTemplate "rule.png" 40 12
    (map (fun idx =>
            let y := (idx / 40)%Z in
            let x := (idx mod 40)%Z in
            if ((y =? 5) && (x <? 39))%Z%bool then 1%Z else 0%Z)
         (zrange 0 480)).

(** A search zone covering a whole 60x30 page. *)
Definition sampleZone : Zone := mkZone 0 0 60 30.

(** [s] with every apostrophe turned into a double quote, to write JSON
    texts. *)
Fixpoint dq (s : string) : string :=
  match s with
  | EmptyString => EmptyString
  | String c rest => String (if Ascii.eqb c "'"%char then quoteChar else c) (dq rest)
  end.

Definition jsNum (q : Q) : jsval := JNum (Fin q).

Definition jsBox (x y w h : Q) : jsval :=
  JObj [("x", jsNum x); ("y", jsNum y); ("width", jsNum w); ("height", jsNum h)]%string.

(** A reply whose confidence is a word, and the value [JSON.parse] gives
    for it. *)
Definition wordyReply : string :=
  dq "{'found':true,'confidence':'high','bbox':{'x':0.6,'y':0.8,'width':0.2,'height':0.1}}".

Definition wordyItem : jsval :=
  JObj [("found", JBool true); ("confidence", JStr "high");
        ("bbox", jsBox 0.6 0.8 0.2 0.1)]%string.

(** A reply with two candidates, the first with a word for confidence. *)
Definition twoReply : string :=
  dq ("[{'found':true,'confidence':'high','bbox':{'x':0.1,'y':0.8,'width':0.2,'height':0.1}},"
      ++ "{'found':true,'confidence':0.9,'bbox':{'x':0.5,'y':0.8,'width':0.2,'height':0.1}}]").

Definition twoItems : list jsval :=
  [JObj [("found", JBool true); ("confidence", JStr "high");
         ("bbox", jsBox 0.1 0.8 0.2 0.1)]%string;
   JObj [("found", JBool true); ("confidence", jsNum 0.9);
         ("bbox", jsBox 0.5 0.8 0.2 0.1)]%string].

(** A reply locating a logo in the footer with confidence 0.9, one
    locating a wide footer strip, and one finding nothing. *)
Definition logoReply : string :=
  dq "{'found':true,'confidence':0.9,'bbox':{'x':0.7,'y':0.85,'width':0.2,'height':0.08},'matchedReference':'logo.png'}".

Definition logoItem : jsval :=
  JObj [("found", JBool true); ("confidence", jsNum 0.9);
        ("bbox", jsBox 0.7 0.85 0.2 0.08); ("matchedReference", JStr "logo.png")]%string.

Definition stripReply : string :=
  dq "{'found':true,'confidence':0.95,'bbox':{'x':0,'y':0.88,'width':1,'height':0.1},'matchedReference':null}".

Definition stripItem : jsval :=
  JObj [("found", JBool true); ("confidence", jsNum 0.95);
        ("bbox", jsBox 0 0.88 1 0.1); ("matchedReference", JNull)]%string.

Definition nothingReply : string :=
  dq "{'found':false,'confidence':0,'bbox':null,'matchedReference':null}".

Definition nothingItem : jsval :=
  JObj [("found", JBool false); ("confidence", jsNum 0);
        ("bbox", JNull); ("matchedReference", JNull)]%string.

(** The decimal rendering of the fractions the samples print. *)
Definition sampleNumberToString (q : Q) : string :=
  if Qeq_bool q 2.5 then "2.5" else "".

(** An engine that behaves as JavaScript on the sample replies: it parses
    them to the values above and rejects every other text, and converts no
    string or object to a number. *)
Definition sampleEngine : Engine :=
  {| JSON_parse := fun s =>
       if String.eqb s wordyReply then Some wordyItem
       else if String.eqb s twoReply then Some (JArr twoItems)
       else if String.eqb s logoReply then Some logoItem
       else if String.eqb s stripReply then Some stripItem
       else if String.eqb s nothingReply then Some nothingItem
       else None;
     StringToNumber := fun _ => NaN;
     ObjectToNumber := fun _ => NaN;
     NumberToString := sampleNumberToString |}.

Definition sampleProfile : FormatProfile :=
  {| bannerPath := "samples/footer-banner.png";
     footerRatio := Fin 0.112;
     bannerFit := "contain";
     fillBackground := true;
     bottomOffsetPx := Fin 0 |}.

(** The default configuration, for a detector mode. *)
Definition sampleConfig (mode : string) : Config :=
  {| logoRefsDir := "samples/logo-refs";
     maxPagesPerJob := Fin 200;
     aiMaxPagesPerJob := Fin 100;
     aiPageLimit := Fin 0;
     detectorMode := mode;
     matchAutoThreshold := Fin 0.62;
     matchReviewThreshold := Fin 0.48;
     debugDrawBoxes := false;
     forceFooterBanner := false;
     style_a := sampleProfile;
     style_b := sampleProfile;
     style_c := sampleProfile |}.

(** The classifier answering [reply], as [output_text] of a 200 response. *)
Definition replyOutcome (reply : string) : FetchOutcome :=
  HttpOk (Ok (JObj [("output_text"%string, JStr reply)])).

(** A page rendered at 100x100 pixels from a 600x600 page, on which the
    classifier answers [reply]; its bytes are left out. *)
Definition samplePage (reply : string) : PageWorld :=
  {| pw_render := Ok (100, 100)%Z;
     pw_rgb := ([], 3%Z);
     pw_meta := (100, 100, 4)%Z;
     pw_gray := [];
     pw_fetch := replyOutcome reply;
     pw_pageSize := finSize 600 600 |}.

Definition sampleRefDir : RefDir :=
  {| readdir := Ok ["logo.png"; "notes.txt"]%string;
     trimmedMeta := fun _ => Ok (300, 100)%Z;
     resizedRaw := fun _ targetWidth => Ok (targetWidth, 30%Z, []);
     resizedPng := fun _ => Ok "iVBORw0KGgo"%string |}.

(** A three-page document: a wide footer strip on page 1, a logo on
    page 2, nothing on page 3. *)
Definition sampleWorld : World :=
  {| w_engine := sampleEngine;
     w_refDir := sampleRefDir;
     w_pdfLibLoad := Ok 3%Z;
     w_pdfJsLoad := Ok 3%Z;
     w_banner := Some (finSize 1200 134);
     w_page := fun pageNumber =>
       if (pageNumber =? 1)%Z then samplePage stripReply
       else if (pageNumber =? 2)%Z then samplePage logoReply
       else samplePage nothingReply;
     w_writeOutput := Ok tt;
     w_writeAudit := Ok tt |}.

Definition sampleSettings : Settings :=
  {| set_autoThreshold := Some (Fin 0.75);
     set_reviewThreshold := Some (Fin 0.45);
     set_formatKey := Some "style_a"%string;
     set_mode := Some "overlay"%string |}.

(** The detection of page 2 of the sample document by the classifier. *)
Definition logoDetection : Detection :=
  {| det_footerZone := None;
     det_match := {| score := Fin 0.9;
                     bboxPx := Some (finRect 70 85 20 8);
                     matchedReference := JStr "logo.png" |};
     det_plausible := true;
     det_aiProbe :=
       Some {| probe_found := true;
               probe_confidence := Fin 0.9;
               probe_bbox := Some (finRect 0.7 0.85 0.2 0.08);
               probe_matchedReference := JStr "logo.png";
               probe_rawText := logoReply |};
     det_wideFooterStrip := false |}.

(** The sample job in ai-cut mode, run. *)
Definition sampleJob : Result (JobResult * Audit) * Doc :=
  Eval vm_compute in processPdf (sampleConfig "ai-cut") sampleWorld sampleSettings emptyDoc.

(** The sample configuration with [FORCE_FOOTER_BANNER] set. *)
Definition forcedConfig (mode : string) : Config :=
  {| logoRefsDir := "samples/logo-refs";
     maxPagesPerJob := Fin 200;
     aiMaxPagesPerJob := Fin 100;
     aiPageLimit := Fin 0;
     detectorMode := mode;
     matchAutoThreshold := Fin 0.62;
     matchReviewThreshold := Fin 0.48;
     debugDrawBoxes := false;
     forceFooterBanner := true;
     style_a := sampleProfile;
     style_b := sampleProfile;
     style_c := sampleProfile |}.

(** A three-page document rendered at 40x40 pixels with no footer-colored
    pixel. *)
Definition plainWorld : World :=
  {| w_engine := sampleEngine;
     w_refDir := sampleRefDir;
     w_pdfLibLoad := Ok 3%Z;
     w_pdfJsLoad := Ok 3%Z;
     w_banner := Some (finSize 1200 134);
     w_page := fun _ =>
       {| pw_render := Ok (40, 40)%Z;
          pw_rgb := ([], 3%Z);
          pw_meta := (40, 40, 4)%Z;
          pw_gray := [];
          pw_fetch := replyOutcome nothingReply;
          pw_pageSize := finSize 600 600 |};
     w_writeOutput := Ok tt;
     w_writeAudit := Ok tt |}.

(** A fenced reply cut off inside its array: one complete object, and two
    complete objects followed by the beginning of a third. *)
Definition newline : string := String (ascii_of_nat 10) EmptyString.

Definition cutReply : string :=
  fence ++ "json" ++ newline ++ "[" ++ logoReply ++ ",".

Definition cutReply2 : string :=
  fence ++ "json" ++ newline ++ "[" ++ logoReply ++ "," ++ stripReply ++ ","
  ++ dq "{'found':tr".

(** The audit record of a page, from its detection and its decision
    (processor.js:731-744). *)
Definition auditRecord (pageNumber : Z) (det : Detection) (dec : Decision) : AuditPage :=
  {| pageNumber := pageNumber;
     detectionScore := toFixed4 (score (det_match det));
     audit_matchedReference := matchedReference (det_match det);
     aiProbe :=
       option_map
         (fun p => {| ai_found := probe_found p;
                      ai_confidence := probe_confidence p;
                      ai_bbox := probe_bbox p;
                      ai_rawText := if String.eqb (probe_rawText p) "" then None
                                    else Some (probe_rawText p) |})
         (det_aiProbe det);
     footerZone := det_footerZone det;
     audit_bboxPx := bboxPx (det_match det);
     pdfRect := dec_pdfRect dec;
     debugPreviewRect := dec_debugPreviewRect dec;
     audit_plausible := det_plausible det;
     action := dec_action dec |}.

(** A reply locating something in the title area of the page, the engine
    that parses it, and a one-page document on which the classifier gives
    it. *)
Definition titleReply : string :=
  dq "{'found':true,'confidence':0.97,'bbox':{'x':0.3,'y':0.05,'width':0.3,'height':0.08},'matchedReference':'logo.png'}".

Definition titleItem : jsval :=
  JObj [("found", JBool true); ("confidence", jsNum 0.97);
        ("bbox", jsBox 0.3 0.05 0.3 0.08); ("matchedReference", JStr "logo.png")]%string.

Definition titleEngine : Engine :=
  {| JSON_parse := fun s => if String.eqb s titleReply then Some titleItem else None;
     StringToNumber := fun _ => NaN;
     ObjectToNumber := fun _ => NaN;
     NumberToString := sampleNumberToString |}.

Definition titleWorld : World :=
  {| w_engine := titleEngine;
     w_refDir := sampleRefDir;
     w_pdfLibLoad := Ok 1%Z;
     w_pdfJsLoad := Ok 1%Z;
     w_banner := Some (finSize 1200 134);
     w_page := fun _ => samplePage titleReply;
     w_writeOutput := Ok tt;
     w_writeAudit := Ok tt |}.

(** A reply with four candidates, one of them not found, and the engine
    that parses it.  The keys [confidence + 0.1 * bbox.x] of the three that
    are found are 0.61, 0.97 and 0.93. *)
Definition rankedReply : string :=
  dq ("[{'found':true,'confidence':0.6,'bbox':{'x':0.1,'y':0.8,'width':0.2,'height':0.1}},"
      ++ "{'found':false,'confidence':0.99,'bbox':{'x':0.9,'y':0.8,'width':0.1,'height':0.1}},"
      ++ "{'found':true,'confidence':0.9,'bbox':{'x':0.7,'y':0.85,'width':0.2,'height':0.08}},"
      ++ "{'found':true,'confidence':0.92,'bbox':{'x':0.1,'y':0.9,'width':0.3,'height':0.05}}]").

Definition rankedItems : list jsval :=
  [JObj [("found", JBool true); ("confidence", jsNum 0.6);
         ("bbox", jsBox 0.1 0.8 0.2 0.1)]%string;
   JObj [("found", JBool false); ("confidence", jsNum 0.99);
         ("bbox", jsBox 0.9 0.8 0.1 0.1)]%string;
   JObj [("found", JBool true); ("confidence", jsNum 0.9);
         ("bbox", jsBox 0.7 0.85 0.2 0.08)]%string;
   JObj [("found", JBool true); ("confidence", jsNum 0.92);
         ("bbox", jsBox 0.1 0.9 0.3 0.05)]%string].

Definition rankedEngine : Engine :=
  {| JSON_parse := fun s => if String.eqb s rankedReply then Some (JArr rankedItems) else None;
     StringToNumber := fun _ => NaN;
     ObjectToNumber := fun _ => NaN;
     NumberToString := sampleNumberToString |}.

(** A configuration with another value of [MAX_PAGES_PER_JOB]. *)
Definition withMaxPages (cfg : Config) (limit : num) : Config :=
  {| logoRefsDir := logoRefsDir cfg;
     maxPagesPerJob := limit;
     aiMaxPagesPerJob := aiMaxPagesPerJob cfg;
     aiPageLimit := aiPageLimit cfg;
     detectorMode := detectorMode cfg;
     matchAutoThreshold := matchAutoThreshold cfg;
     matchReviewThreshold := matchReviewThreshold cfg;
     debugDrawBoxes := debugDrawBoxes cfg;
     forceFooterBanner := forceFooterBanner cfg;
     style_a := style_a cfg;
     style_b := style_b cfg;
     style_c := style_c cfg |}.

(** A one-page document rendered at 80x34 pixels, every pixel of the grey
    128. *)
Definition greyWorld : World :=
  {| w_engine := sampleEngine;
     w_refDir := sampleRefDir;
     w_pdfLibLoad := Ok 1%Z;
     w_pdfJsLoad := Ok 1%Z;
     w_banner := None;
     w_page := fun _ =>
       {| pw_render := Ok (80, 34)%Z;
          pw_rgb := (repeat 128%Z (Z.to_nat 8160), 3%Z);
          pw_meta := (80, 34, 4)%Z;
          pw_gray := repeat 128%Z 2720;
          pw_fetch := replyOutcome nothingReply;
          pw_pageSize := finSize 600 255 |};
     w_writeOutput := Ok tt;
     w_writeAudit := Ok tt |}.

(** Settings whose thresholds are not numbers. *)
Definition nanSettings : Settings :=
  {| set_autoThreshold := Some NaN;
     set_reviewThreshold := Some NaN;
     set_formatKey := Some "style_a"%string;
     set_mode := Some "overlay"%string |}.

(** The sample document with a reference directory that holds no image. *)
Definition noRefsWorld : World :=
  {| w_engine := sampleEngine;
     w_refDir := {| readdir := Ok ["README.md"; "logo.svg"]%string;
                    trimmedMeta := fun _ => Ok (300, 100)%Z;
                    resizedRaw := fun _ targetWidth => Ok (targetWidth, 30%Z, []);
                    resizedPng := fun _ => Ok "iVBORw0KGgo"%string |};
     w_pdfLibLoad := Ok 3%Z;
     w_pdfJsLoad := Ok 3%Z;
     w_banner := None;
     w_page := fun _ => samplePage logoReply;
     w_writeOutput := Ok tt;
     w_writeAudit := Ok tt |}.

(** A reference directory whose one image gives, at every target width, a
    40x12 variant of alternating black and white rows. *)
Definition stripedRefDir : RefDir :=
  {| readdir := Ok ["logo.png"; "notes.txt"]%string;
     trimmedMeta := fun _ => Ok (300, 100)%Z;
     resizedRaw := fun _ _ =>
       Ok (40%Z, 12%Z,
           map (fun idx => if Z.even (idx / 40) then 0%Z else 255%Z) (zrange 0 480));
     resizedPng := fun _ => Ok "iVBORw0KGgo"%string |}.

(** A request uploading a PDF for the format [style_b], and the context of
    the route. *)
Definition samplePost : PostRequest :=
  {| req_format := ["style_b"]%string;
     req_file := Ok (Some {| up_mimetype := Some "application/pdf"%string |}) |}.

Definition sampleApi : ApiContext :=
  {| api_autoThreshold := Fin 0.75;
     api_reviewThreshold := Fin 0.45;
     env_matchAutoThreshold := None;
     env_matchReviewThreshold := None;
     api_uuid := "0b9f5c1e-7a43-4d2f-9f0e-3c1a5be7d210";
     api_startedAt := "2025-01-01T10:00:00.000Z";
     api_finishedAt := "2025-01-01T10:00:07.000Z";
     api_saveUpload := Ok tt |}.

(** A store holding one earlier job. *)
Definition sampleJobs : JobStore string :=
  [("6f1d2c3b-0000-4000-8000-000000000001",
    [("jobId", "6f1d2c3b-0000-4000-8000-000000000001"); ("status", "completed")])]%string.

(** * Properties *)

(** ** Numbers *)

Lemma Qltb_true (a b : Q) : Qltb a b = true <-> (a < b)%Q.
Proof.
  unfold Qltb. rewrite negb_true_iff.
  split; intro H.
  - apply Qnot_le_lt. intro Hle. apply Qle_bool_iff in Hle. congruence.
  - destruct (Qle_bool b a) eqn:E; [|reflexivity].
    apply Qle_bool_iff in E. exfalso. apply (Qlt_not_le _ _ H E).
Qed.

Lemma Qltb_false (a b : Q) : Qltb a b = false <-> (b <= a)%Q.
Proof.
  unfold Qltb. rewrite negb_false_iff. apply Qle_bool_iff.
Qed.

Lemma Qle_bool_false (a b : Q) : Qle_bool a b = false <-> (b < a)%Q.
Proof.
  rewrite <- Qltb_true. unfold Qltb. now rewrite negb_true_iff.
Qed.

Lemma Qeq_bool_false_pos (q : Q) : (0 < q)%Q -> Qeq_bool q 0 = false.
Proof.
  intro H. destruct (Qeq_bool q 0) eqn:E; [|reflexivity].
  apply Qeq_bool_iff in E. rewrite E in H. exfalso. apply (Qlt_irrefl 0 H).
Qed.

Lemma num_div_Fin (p q : Q) : (0 < q)%Q -> num_div (Fin p) (Fin q) = Fin (p / q).
Proof. intro H. simpl. now rewrite Qeq_bool_false_pos. Qed.

(** The clamp of finite values, as a rational. *)
Lemma clamp_Fin (v lo hi : Q) :
  exists c : Q,
    clamp (Fin v) (Fin lo) (Fin hi) = Fin c /\
    (lo <= c)%Q /\
    ((lo <= hi)%Q -> (c <= hi)%Q) /\
    ((lo <= v)%Q -> (v <= hi)%Q -> c == v).
Proof.
  unfold clamp, Math_min, Math_max, num_ltb.
  destruct (Qltb v hi) eqn:E1; destruct (Qltb lo v) eqn:E2;
    destruct (Qltb lo hi) eqn:E3;
    repeat match goal with
           | H : Qltb _ _ = true |- _ => apply Qltb_true in H
           | H : Qltb _ _ = false |- _ => apply Qltb_false in H
           end;
    eexists; (split; [reflexivity|]); repeat split; intros; try lra.
Qed.

Lemma num_within_eq (tol p q : Q) :
  (0 <= tol)%Q -> p == q -> num_within tol (Fin p) (Fin q) = true.
Proof.
  intros Ht E. unfold num_within. apply Qle_bool_iff.
  assert (Z0 : (p - q == 0)%Q) by (rewrite E; ring).
  rewrite Z0. exact Ht.
Qed.

(** ** Deterministic matcher (C2) *)

Lemma in_zrange (lo hi v : Z) : In v (zrange lo hi) <-> (lo <= v < hi)%Z.
Proof.
  unfold zrange. rewrite in_map_iff. split.
  - intros (k & <- & Hk). apply in_seq in Hk. lia.
  - intros H. exists (Z.to_nat (v - lo)). split; [lia|]. apply in_seq. lia.
Qed.

Lemma in_zrange3 (lo hi v : Z) :
  In v (zrange3 lo hi) <-> (exists k : Z, 0 <= k /\ v = lo + 3 * k /\ v <= hi)%Z.
Proof.
  unfold zrange3. rewrite in_map_iff. split.
  - intros (k & <- & Hk). apply in_seq in Hk. exists (Z.of_nat k).
    split; [lia|]. split; [reflexivity|].
    destruct (Z_lt_le_dec (hi - lo) 0) as [Hn|Hp].
    + assert ((hi - lo) / 3 < 0)%Z by (apply Z.div_lt_upper_bound; lia). lia.
    + pose proof (Z.mul_div_le (hi - lo) 3 ltac:(lia)). lia.
  - intros (k & Hk & -> & Hle). exists (Z.to_nat k). split; [lia|].
    apply in_seq.
    assert (k <= (hi - lo) / 3)%Z by (apply Z.div_le_lower_bound; lia). lia.
Qed.

Lemma typedGet_map_zrange (f : Z -> Z) (n i : Z) :
  typedGet (map f (zrange 0 n)) i =
  if ((0 <=? i) && (i <? n))%Z%bool then Some (f i) else None.
Proof.
  unfold typedGet, zrange.
  destruct (Z.ltb_spec i 0) as [Hneg|Hpos].
  - destruct (Z.leb_spec 0 i); [lia|reflexivity].
  - destruct (Z.leb_spec 0 i); [|lia]. simpl.
    rewrite map_map, nth_error_map, nth_error_seq.
    destruct (Z.ltb_spec i n) as [Hlt|Hge].
    + destruct (Nat.ltb_spec (Z.to_nat i) (Z.to_nat (n - 0))); [|lia].
      simpl. f_equal. f_equal. lia.
    + destruct (Nat.ltb_spec (Z.to_nat i) (Z.to_nat (n - 0))); [lia|reflexivity].
Qed.

(** Every element read from an array of one value is that value. *)
Lemma typedGet_repeat (g : Z) (n : nat) (i v : Z) :
  typedGet (repeat g n) i = Some v -> v = g.
Proof.
  unfold typedGet. destruct (i <? 0)%Z; [discriminate|].
  intro H. apply nth_error_In in H. apply repeat_spec in H. exact H.
Qed.

(** Nested loops visit the pairs of [list_prod] in order. *)
Lemma fold_left_list_prod (A B C : Type) (g : B -> A -> C -> A)
    (rows : list B) (cols : list C) (a : A) :
  fold_left (fun acc r => fold_left (g r) cols acc) rows a =
  fold_left (fun acc rc => g (fst rc) acc (snd rc)) (list_prod rows cols) a.
Proof.
  revert a. induction rows as [|r rows IH]; intro a; simpl; [reflexivity|].
  rewrite fold_left_app, IH. f_equal.
  clear IH. revert a. induction cols as [|c cols IHc]; intro a; simpl; [reflexivity|].
  apply IHc.
Qed.

Section Window.
Variables (pageEdges : list Z) (pageWidth x y : Z) (template : Template).

Let pageAt (off : Z * Z) : bool :=
  truthyElem (typedGet pageEdges ((y + fst off) * pageWidth + x + snd off)).
Let templateAt (off : Z * Z) : bool :=
  truthyElem (typedGet (t_edges template) (fst off * t_width template + snd off)).
Let cnt (wantPage wantTemplate : bool) (l : list (Z * Z)) : Z :=
  Z.of_nat (List.length
              (filter (fun off => Bool.eqb (pageAt off) wantPage
                                  && Bool.eqb (templateAt off) wantTemplate) l)).

Lemma countPixel_fold (l : list (Z * Z)) (c : Counts) :
  fold_left (fun acc rc => countPixel pageEdges pageWidth x y template (fst rc) acc (snd rc)) l c =
  mkCounts (tp c + cnt true true l) (fp c + cnt true false l) (fn c + cnt false true l).
Proof.
  revert c. induction l as [|off l IH]; intro c.
  - simpl. unfold cnt. simpl. destruct c; simpl. f_equal; lia.
  - simpl fold_left. rewrite IH. unfold cnt. simpl filter.
    unfold countPixel. fold (pageAt off). fold (templateAt off).
    destruct (pageAt off), (templateAt off); simpl;
      rewrite ?Nat2Z.inj_succ; f_equal; lia.
Qed.

(** The counters of the loops are the overlap counts of the window. *)
Lemma countWindow_overlap :
  countWindow pageEdges pageWidth x y template =
  mkCounts (overlapCount true true pageEdges pageWidth x y template)
           (overlapCount true false pageEdges pageWidth x y template)
           (overlapCount false true pageEdges pageWidth x y template).
Proof.
  unfold countWindow.
  rewrite (fold_left_list_prod
             (fun ty c tx => countPixel pageEdges pageWidth x y template ty c tx)).
  rewrite countPixel_fold. simpl tp. simpl fp. simpl fn.
  unfold cnt, overlapCount, pageAt, templateAt.
  f_equal; rewrite Z.add_0_l; do 2 f_equal; apply filter_ext; intros [ty tx]; reflexivity.
Qed.

End Window.

Lemma overlapCount_nonneg (a b : bool) pageEdges pageWidth x y template :
  (0 <= overlapCount a b pageEdges pageWidth x y template)%Z.
Proof. unfold overlapCount. lia. Qed.

Section Scores.
Variable c : Counts.
Hypothesis Htp : (0 <= tp c)%Z.
Hypothesis Hfp : (0 <= fp c)%Z.
Hypothesis Hfn : (0 <= fn c)%Z.

Let denom : Q := (inject_Z (tp c) + 0.65 * inject_Z (fp c) + 1.25 * inject_Z (fn c))%Q.

Lemma denom_bounds :
  (0 <= inject_Z (tp c) /\ 0 <= inject_Z (fp c) /\ 0 <= inject_Z (fn c))%Q.
Proof.
  repeat split; rewrite <- (Zle_Qle 0); assumption.
Qed.

Lemma scoreOfCounts_range : (0 <= scoreOfCounts c <= 1)%Q.
Proof.
  destruct denom_bounds as (H1 & H2 & H3).
  unfold scoreOfCounts. fold denom.
  destruct (Qltb 0 denom) eqn:E; [|lra].
  apply Qltb_true in E.
  assert (Hle : (inject_Z (tp c) <= denom)%Q) by (unfold denom; lra).
  split.
  - apply Qle_shift_div_l; [assumption|lra].
  - apply Qle_shift_div_r; [assumption|lra].
Qed.

Lemma scoreOfCounts_perfect :
  (0 < tp c)%Z -> fp c = 0%Z -> fn c = 0%Z -> scoreOfCounts c == 1.
Proof.
  intros Hpos Hf0 Hn0.
  assert (Hq : (0 < inject_Z (tp c))%Q) by (rewrite <- (Zlt_Qlt 0); assumption).
  unfold scoreOfCounts. rewrite Hf0, Hn0.
  assert (E : (inject_Z (tp c) + 0.65 * inject_Z 0 + 1.25 * inject_Z 0 == inject_Z (tp c))%Q)
    by (unfold inject_Z; lra).
  destruct (Qltb 0 _) eqn:D.
  - rewrite E. field. lra.
  - apply Qltb_false in D. lra.
Qed.

Lemma scoreOfCounts_miss : (1 <= fn c)%Z -> (scoreOfCounts c < 1)%Q.
Proof.
  intros Hn.
  destruct denom_bounds as (H1 & H2 & _).
  assert (H3 : (1 <= inject_Z (fn c))%Q) by (rewrite <- (Zle_Qle 1); assumption).
  unfold scoreOfCounts. fold denom.
  assert (Hd : (inject_Z (tp c) < denom)%Q) by (unfold denom; lra).
  destruct (Qltb 0 denom) eqn:E; [|lra].
  apply Qltb_true in E.
  apply Qlt_shift_div_r; [assumption|lra].
Qed.

End Scores.

Section Scan.
Variables (pageEdges : list Z) (pageWidth : Z).

Local Abbreviation scansP := (scans pageEdges pageWidth).

Lemma scans_skip : scansP (fun best => best) (fun _ => False).
Proof.
  intros best q0 H. exists q0. split; [assumption|]. split; [lra|].
  split; [intros c []|left; reflexivity].
Qed.

Lemma scans_equiv (F : Match -> Match) (P P' : ScanCandidate -> Prop) :
  (forall c, P c <-> P' c) -> scansP F P -> scansP F P'.
Proof.
  intros E HF best q0 H. destruct (HF best q0 H) as (q & H1 & H2 & H3 & H4).
  exists q. split; [assumption|]. split; [assumption|]. split.
  - intros c Hc. apply H3, E, Hc.
  - destruct H4 as [H4|(Hlt & c & Hc & H4)]; [left; assumption|].
    right. split; [assumption|]. exists c. split; [apply E, Hc|assumption].
Qed.

Lemma scans_tryPosition (template : Template) (x y : Z) :
  scansP (fun best => tryPosition pageEdges pageWidth template y best x)
         (fun c => c = (template, x, y)).
Proof.
  intros best q0 H. unfold tryPosition, num_gtb. rewrite H. simpl num_ltb.
  destruct (Qltb q0 _) eqn:E.
  - apply Qltb_true in E.
    exists (scoreTemplateAt pageEdges pageWidth x y template).
    split; [reflexivity|]. split; [lra|]. split.
    + intros c ->. simpl. lra.
    + right. split; [assumption|]. exists (template, x, y). split; reflexivity.
  - apply Qltb_false in E. exists q0. split; [assumption|]. split; [lra|]. split.
    + intros c ->. simpl. assumption.
    + left. reflexivity.
Qed.

Lemma scans_fold (A : Type) (f : Match -> A -> Match) (P : A -> ScanCandidate -> Prop)
    (l : list A) :
  (forall a, In a l -> scansP (fun best => f best a) (P a)) ->
  scansP (fun best => fold_left f l best) (fun c => exists a, In a l /\ P a c).
Proof.
  induction l as [|a l IH]; intros Hl.
  - simpl. apply (scans_equiv (P := fun _ => False)); [|apply scans_skip].
    intros c. split; [intros []|intros (a & [] & _)].
  - intros best q0 H. simpl fold_left.
    destruct (Hl a (or_introl eq_refl) best q0 H) as (q1 & S1 & L1 & U1 & R1).
    destruct (IH (fun a' Ha' => Hl a' (or_intror Ha')) (f best a) q1 S1)
      as (q2 & S2 & L2 & U2 & R2).
    exists q2. split; [assumption|]. split; [lra|]. split.
    + intros c (a' & [<-|Ha'] & Hc).
      * specialize (U1 c Hc). lra.
      * apply U2. exists a'. split; assumption.
    + destruct R2 as [R2|(Hlt2 & c & (a' & Ha' & Hc) & R2)].
      * assert (E : q2 = q1) by (rewrite R2, S1 in S2; injection S2 as <-; reflexivity).
        subst q2. rewrite R2.
        destruct R1 as [R1|(Hlt1 & c & Hc & R1)]; [left; assumption|].
        right. split; [assumption|].
        exists c. split; [|assumption]. exists a. split; [left; reflexivity|assumption].
      * right. split; [lra|].
        exists c. split; [|assumption]. exists a'. split; [right; assumption|assumption].
Qed.

Lemma scans_scanZone (template : Template) (zone : Zone) :
  scansP (fun best => scanZone pageEdges pageWidth template best zone)
         (fun c => exists x y, c = (template, x, y) /\ onGrid zone template x y).
Proof.
  unfold scanZone, onGrid.
  destruct (Z.leb_spec (x1 zone - t_width template) (x0 zone)) as [Hx|Hx]; simpl orb.
  { apply (scans_equiv (P := fun _ => False)); [|apply scans_skip].
    intros c. split; [intros []|intros (x & y & _ & H & _); lia]. }
  destruct (Z.leb_spec (y1 zone - t_height template) (y0 zone)) as [Hy|Hy].
  { apply (scans_equiv (P := fun _ => False)); [|apply scans_skip].
    intros c. split; [intros []|intros (x & y & _ & _ & H & _); lia]. }
  eapply scans_equiv; [|apply scans_fold; intros y _; apply scans_fold; intros x _;
                        apply scans_tryPosition].
  intros c. split.
  - intros (y & Hy' & x & Hx' & ->). exists x, y. tauto.
  - intros (x & y & -> & _ & _ & Hx' & Hy'). exists y. split; [assumption|].
    exists x. split; [assumption|reflexivity].
Qed.

Lemma scans_detect (pageHeight : Z) (templates : list Template) (searchZone : option Zone) :
  scansP
    (fun best =>
       fold_left
         (fun b template =>
            fold_left (scanZone pageEdges pageWidth template)
                      [effectiveZone pageWidth pageHeight searchZone] b)
         templates best)
    (fun c => exists template x y,
         c = (template, x, y) /\ In template templates /\
         onGrid (effectiveZone pageWidth pageHeight searchZone) template x y).
Proof.
  eapply scans_equiv; [|apply scans_fold; intros template _; apply scans_fold;
                        intros zone _; apply scans_scanZone].
  intros c. split.
  - intros (template & Ht & zone & [<-|[]] & x & y & -> & Hg).
    exists template, x, y. tauto.
  - intros (template & x & y & -> & Ht & Hg). exists template. split; [assumption|].
    eexists. split; [left; reflexivity|]. exists x, y. tauto.
Qed.

End Scan.

Lemma filter_none (A : Type) (f : A -> bool) (l : list A) :
  (forall a, In a l -> f a = false) -> filter f l = [].
Proof.
  induction l as [|a l IH]; intro H; simpl; [reflexivity|].
  rewrite (H a (or_introl eq_refl)). apply IH. intros b Hb. apply H. right. exact Hb.
Qed.

Lemma linear_index_unique (w r r' a b : Z) :
  (0 <= a < w)%Z -> (0 <= b < w)%Z -> (r * w + a = r' * w + b)%Z -> r = r' /\ a = b.
Proof.
  intros Ha Hb E.
  assert (r = r') as ->.
  { destruct (Z.lt_trichotomy r r') as [L|[L|L]]; [exfalso|assumption|exfalso].
    - assert (0 <= (r' - r - 1) * w)%Z by (apply Z.mul_nonneg_nonneg; lia). lia.
    - assert (0 <= (r - r' - 1) * w)%Z by (apply Z.mul_nonneg_nonneg; lia). lia. }
  split; [reflexivity|lia].
Qed.

Section Embedded.
Variables (pageWidth pageHeight px py : Z) (template : Template).
Hypothesis HtW : (0 < t_width template)%Z.
Hypothesis HtH : (0 < t_height template)%Z.
Hypothesis Hpx : (0 <= px /\ px + t_width template <= pageWidth)%Z.
Hypothesis Hpy : (0 <= py /\ py + t_height template <= pageHeight)%Z.

Let page := embedTemplate pageWidth pageHeight px py template.
Let tAt (ty tx : Z) : bool :=
  truthyElem (typedGet (t_edges template) (ty * t_width template + tx)).
Let inBox (ty tx : Z) : Prop :=
  (0 <= ty < t_height template /\ 0 <= tx < t_width template)%Z.

(** The page has an edge exactly where the embedded template has one. *)
Lemma embedTemplate_at (i : Z) :
  truthyElem (typedGet page i) = true <->
  exists ty tx, inBox ty tx /\ tAt ty tx = true /\ i = ((py + ty) * pageWidth + px + tx)%Z.
Proof.
  unfold page, embedTemplate. rewrite typedGet_map_zrange.
  assert (HW : (0 < pageWidth)%Z) by lia.
  split.
  - destruct (Z.leb_spec 0 i); [|discriminate].
    destruct (Z.ltb_spec i (pageWidth * pageHeight)); [|discriminate].
    simpl andb. cbv zeta.
    destruct (Z.leb_spec px (i mod pageWidth)); [|discriminate].
    destruct (Z.ltb_spec (i mod pageWidth) (px + t_width template)); [|discriminate].
    destruct (Z.leb_spec py (i / pageWidth)); [|discriminate].
    destruct (Z.ltb_spec (i / pageWidth) (py + t_height template)); [|discriminate].
    simpl andb.
    destruct (truthyElem (typedGet (t_edges template) _)) eqn:E; [|discriminate].
    intros _. exists (i / pageWidth - py)%Z, (i mod pageWidth - px)%Z.
    split; [unfold inBox; lia|]. split; [exact E|].
    pose proof (Z.div_mod i pageWidth ltac:(lia)). lia.
  - intros (ty & tx & [Hty Htx] & Ht & ->).
    assert (Hd : (((py + ty) * pageWidth + px + tx) / pageWidth = py + ty)%Z).
    { symmetry. apply (Z.div_unique_pos _ _ _ (px + tx)); lia. }
    assert (Hm : (((py + ty) * pageWidth + px + tx) mod pageWidth = px + tx)%Z).
    { symmetry. apply (Z.mod_unique_pos _ _ (py + ty)); lia. }
    rewrite Hd, Hm.
    destruct (Z.leb_spec 0 ((py + ty) * pageWidth + px + tx)); [|nia].
    destruct (Z.ltb_spec ((py + ty) * pageWidth + px + tx) (pageWidth * pageHeight)); [|nia].
    simpl andb. cbv zeta.
    destruct (Z.leb_spec px (px + tx)); [|lia].
    destruct (Z.ltb_spec (px + tx) (px + t_width template)); [|lia].
    destruct (Z.leb_spec py (py + ty)); [|lia].
    destruct (Z.ltb_spec (py + ty) (py + t_height template)); [|lia].
    simpl andb.
    replace (py + ty - py)%Z with ty by lia. replace (px + tx - px)%Z with tx by lia.
    unfold tAt in Ht. rewrite Ht. reflexivity.
Qed.

(** A window that starts at linear offset [d] from the embedded position. *)
Lemma embedTemplate_shift (x y ty tx : Z) :
  ((y + ty) * pageWidth + x + tx =
   (py + ty) * pageWidth + px + tx + ((y - py) * pageWidth + (x - px)))%Z.
Proof. ring. Qed.

Lemma embedTemplate_window_same (ty tx : Z) :
  inBox ty tx ->
  truthyElem (typedGet page ((py + ty) * pageWidth + px + tx)) = tAt ty tx.
Proof.
  intros Hb. destruct (tAt ty tx) eqn:E.
  - apply embedTemplate_at. exists ty, tx. tauto.
  - destruct (truthyElem _) eqn:P; [|reflexivity].
    apply embedTemplate_at in P. destruct P as (ty' & tx' & [Hy' Hx'] & Ht' & Heq).
    destruct Hb as [Hy Hx].
    assert (py + ty = py + ty' /\ px + tx = px + tx')%Z as [E1 E2]
      by (apply (linear_index_unique (w := pageWidth)); lia).
    assert (ty' = ty) as -> by lia. assert (tx' = tx) as -> by lia.
    congruence.
Qed.

Hypothesis Hedge : exists ty tx, inBox ty tx /\ tAt ty tx = true.

Lemma in_offsets (ty tx : Z) :
  In (ty, tx) (list_prod (zrange 0 (t_height template)) (zrange 0 (t_width template)))
  <-> inBox ty tx.
Proof. rewrite in_prod_iff, !in_zrange. unfold inBox. tauto. Qed.

(** At the embedded position every window pixel agrees with the template. *)
Lemma embedTemplate_counts_at_position :
  (0 < overlapCount true true page pageWidth px py template)%Z /\
  overlapCount true false page pageWidth px py template = 0%Z /\
  overlapCount false true page pageWidth px py template = 0%Z.
Proof.
  unfold overlapCount. split; [|split].
  - destruct Hedge as (ty & tx & Hb & Ht).
    assert (Hin : In (ty, tx)
              (filter (fun off : Z * Z => let (ty, tx) := off in
                         Bool.eqb (truthyElem (typedGet page ((py + ty) * pageWidth + px + tx))) true
                         && Bool.eqb (truthyElem (typedGet (t_edges template)
                                                    (ty * t_width template + tx))) true)
                      (list_prod (zrange 0 (t_height template)) (zrange 0 (t_width template))))).
    { apply filter_In. split; [apply in_offsets, Hb|].
      rewrite embedTemplate_window_same by assumption. fold (tAt ty tx). rewrite Ht. reflexivity. }
    destruct (filter _ _); [destruct Hin|simpl; lia].
  - rewrite filter_none; [reflexivity|].
    intros [ty tx] Hin. apply in_offsets in Hin.
    rewrite embedTemplate_window_same by assumption.
    fold (tAt ty tx). destruct (tAt ty tx); reflexivity.
  - rewrite filter_none; [reflexivity|].
    intros [ty tx] Hin. apply in_offsets in Hin.
    rewrite embedTemplate_window_same by assumption.
    fold (tAt ty tx). destruct (tAt ty tx); reflexivity.
Qed.

Lemma embedTemplate_score_at_position :
  scoreTemplateAt page pageWidth px py template == 1.
Proof.
  unfold scoreTemplateAt. rewrite countWindow_overlap.
  destruct embedTemplate_counts_at_position as (H1 & H2 & H3).
  apply scoreOfCounts_perfect; simpl; assumption || lia.
Qed.

Lemma inBox_linear_bound (ty tx : Z) :
  inBox ty tx -> (0 <= ty * pageWidth + tx < t_height template * pageWidth)%Z.
Proof.
  intros [Hy Hx].
  assert (0 <= ty * pageWidth)%Z by (apply Z.mul_nonneg_nonneg; lia).
  assert (0 <= (t_height template - 1 - ty) * pageWidth)%Z
    by (apply Z.mul_nonneg_nonneg; lia).
  lia.
Qed.

(** Any other window misses an edge pixel of the template: otherwise the
    template's edge pixels would be closed under a non-zero shift. *)
Lemma embedTemplate_miss_elsewhere (x y : Z) :
  ((y - py) * pageWidth + (x - px) <> 0)%Z ->
  (1 <= overlapCount false true page pageWidth x y template)%Z.
Proof.
  intros Hd. unfold overlapCount.
  match goal with |- context [filter ?f ?l] => destruct (filter f l) eqn:F end;
    [exfalso|simpl; lia].
  set (d := ((y - py) * pageWidth + (x - px))%Z) in *.
  assert (Hstep : forall ty tx, inBox ty tx -> tAt ty tx = true ->
            exists ty' tx', inBox ty' tx' /\ tAt ty' tx' = true /\
                            (ty' * pageWidth + tx' = ty * pageWidth + tx + d)%Z).
  { intros ty tx Hb Ht.
    destruct (truthyElem (typedGet page ((y + ty) * pageWidth + x + tx))) eqn:P.
    - apply embedTemplate_at in P. destruct P as (ty' & tx' & Hb' & Ht' & E).
      exists ty', tx'. split; [assumption|]. split; [assumption|]. unfold d. lia.
    - exfalso.
      assert (Hin : In (ty, tx) []).
      { rewrite <- F. apply filter_In. split; [apply in_offsets, Hb|].
        rewrite P. fold (tAt ty tx). rewrite Ht. reflexivity. }
      destruct Hin. }
  destruct Hedge as (ty0 & tx0 & Hb0 & Ht0).
  assert (Hiter : forall n : nat,
            exists ty tx, inBox ty tx /\ tAt ty tx = true /\
                          (ty * pageWidth + tx = ty0 * pageWidth + tx0 + Z.of_nat n * d)%Z).
  { induction n as [|n (ty & tx & Hb & Ht & E)].
    - exists ty0, tx0. split; [assumption|]. split; [assumption|]. lia.
    - destruct (Hstep ty tx Hb Ht) as (ty' & tx' & Hb' & Ht' & E').
      exists ty', tx'. split; [assumption|]. split; [assumption|]. lia. }
  destruct (Hiter (Z.to_nat (t_height template * pageWidth))) as (ty & tx & Hb & _ & E).
  pose proof (inBox_linear_bound Hb) as B.
  pose proof (inBox_linear_bound Hb0) as B0.
  rewrite Z2Nat.id in E by lia.
  destruct (Z.lt_trichotomy d 0) as [L|[L|L]]; [|lia|].
  - assert (t_height template * pageWidth * d <= t_height template * pageWidth * (-1))%Z
      by (apply Z.mul_le_mono_nonneg_l; lia). lia.
  - assert (t_height template * pageWidth * 1 <= t_height template * pageWidth * d)%Z
      by (apply Z.mul_le_mono_nonneg_l; lia). lia.
Qed.

Lemma embedTemplate_score_elsewhere (x y : Z) :
  (0 <= x < pageWidth)%Z -> (x, y) <> (px, py) ->
  (scoreTemplateAt page pageWidth x y template < 1)%Q.
Proof.
  intros Hx Hne. unfold scoreTemplateAt. rewrite countWindow_overlap.
  apply scoreOfCounts_miss; simpl; try apply overlapCount_nonneg.
  apply embedTemplate_miss_elsewhere. intro E. apply Hne.
  assert (y = py /\ x = px) as [-> ->]
    by (apply (linear_index_unique (w := pageWidth)); lia).
  reflexivity.
Qed.

End Embedded.

(** The score of a window is the stated ratio of its overlap counts. *)
Lemma scoreTemplateAt_formula (pageEdges : list Z) (pageWidth x y : Z) (template : Template) :
  let tp := inject_Z (overlapCount true true pageEdges pageWidth x y template) in
  let fp := inject_Z (overlapCount true false pageEdges pageWidth x y template) in
  let fn := inject_Z (overlapCount false true pageEdges pageWidth x y template) in
  let denom := (tp + 0.65 * fp + 1.25 * fn)%Q in
  (Qltb 0 denom = true /\ scoreTemplateAt pageEdges pageWidth x y template = (tp / denom)%Q) \/
  (Qltb 0 denom = false /\ scoreTemplateAt pageEdges pageWidth x y template = 0%Q).
Proof.
  cbv zeta. unfold scoreTemplateAt. rewrite countWindow_overlap.
  unfold scoreOfCounts. simpl tp. simpl fp. simpl fn.
  destruct (Qltb 0 _); [left|right]; split; reflexivity.
Qed.

Lemma scoreTemplateAt_range (pageEdges : list Z) (pageWidth x y : Z) (template : Template) :
  (0 <= scoreTemplateAt pageEdges pageWidth x y template <= 1)%Q.
Proof.
  unfold scoreTemplateAt. rewrite countWindow_overlap.
  apply scoreOfCounts_range; simpl; apply overlapCount_nonneg.
Qed.

(** The templates are scanned in order, each from the best match so far. *)
Lemma detectLogoByTemplateMatch_app (pageEdges : list Z) (pageWidth pageHeight : Z)
    (before after : list Template) (template : Template) (searchZone : option Zone) :
  let zone := effectiveZone pageWidth pageHeight searchZone in
  let scanAll := fold_left (fun b t => fold_left (scanZone pageEdges pageWidth t) [zone] b) in
  detectLogoByTemplateMatch pageEdges pageWidth pageHeight (before ++ template :: after)
                            searchZone
  = scanAll after (scanZone pageEdges pageWidth template (scanAll before noMatch) zone).
Proof.
  cbv zeta. unfold detectLogoByTemplateMatch, effectiveZone.
  destruct searchZone; rewrite fold_left_app; reflexivity.
Qed.

(** C2 (as amended).  Let the page edge map hold exactly the edge pixels of
    [template] (which has at least one) with its corner at [(px, py)], where
    [(px, py)] is a window the scan visits: the zone lies inside the page,
    is strictly larger than the template, and [px], [py] are a multiple of
    the stride 3 away from the zone's origin.  Then
    [detectLogoByTemplateMatch] returns score 1 whenever [template] is among
    the templates, and it returns that template's bounding box and name
    unless a template loaded before it also scores 1 at a window of the
    scan: templates loaded after it, and earlier templates that score less
    than 1 everywhere, do not change the result.  At every window the score
    is [tp / (tp + 0.65 fp + 1.25 fn)] of the window's overlap counts (and 0
    when that denominator is 0). *)
Theorem detectLogoByTemplateMatch_embedded :
  forall (templates : list Template) (template : Template)
         (pageWidth pageHeight px py ty tx : Z) (searchZone : option Zone),
    let zone := effectiveZone pageWidth pageHeight searchZone in
    let page := embedTemplate pageWidth pageHeight px py template in
    In template templates ->
    (0 <= ty < t_height template)%Z -> (0 <= tx < t_width template)%Z ->
    truthyElem (typedGet (t_edges template) (ty * t_width template + tx)) = true ->
    (0 <= x0 zone)%Z -> (x1 zone <= pageWidth)%Z ->
    (0 <= y0 zone)%Z -> (y1 zone <= pageHeight)%Z ->
    onGrid zone template px py ->
    let r := detectLogoByTemplateMatch page pageWidth pageHeight templates searchZone in
    num_within 0 (score r) (Fin 1) = true /\
    (forall before after : list Template,
        templates = before ++ template :: after ->
        (forall t x y, In t before -> onGrid zone t x y ->
                       (scoreTemplateAt page pageWidth x y t < 1)%Q) ->
        bboxPx r = Some (rectZ px py (t_width template) (t_height template)) /\
        matchedReference r = JStr (refName template)) /\
    (forall (pageEdges : list Z) (t : Template) (x y : Z),
        let tp := inject_Z (overlapCount true true pageEdges pageWidth x y t) in
        let fp := inject_Z (overlapCount true false pageEdges pageWidth x y t) in
        let fn := inject_Z (overlapCount false true pageEdges pageWidth x y t) in
        let denom := (tp + 0.65 * fp + 1.25 * fn)%Q in
        (Qltb 0 denom = true /\ scoreTemplateAt pageEdges pageWidth x y t = (tp / denom)%Q) \/
        (Qltb 0 denom = false /\ scoreTemplateAt pageEdges pageWidth x y t = 0%Q)).
Proof.
  intros templates template pageWidth pageHeight px py ty tx searchZone zone page
         Hin Hty Htx Hedge Hzx0 Hzx1 Hzy0 Hzy1 Hgrid r.
  assert (Hgrid' := Hgrid). destruct Hgrid' as (Gx & Gy & Gpx & Gpy).
  apply in_zrange3 in Gpx. destruct Gpx as (kx & Hkx & Epx & Lpx).
  apply in_zrange3 in Gpy. destruct Gpy as (ky & Hky & Epy & Lpy).
  assert (HtW : (0 < t_width template)%Z) by lia.
  assert (HtH : (0 < t_height template)%Z) by lia.
  assert (Hpx : (0 <= px /\ px + t_width template <= pageWidth)%Z) by lia.
  assert (Hpy : (0 <= py /\ py + t_height template <= pageHeight)%Z) by lia.
  assert (He : exists ty tx, ((0 <= ty < t_height template /\ 0 <= tx < t_width template)%Z) /\
                truthyElem (typedGet (t_edges template) (ty * t_width template + tx)) = true)
    by (exists ty, tx; tauto).
  assert (Hone : scoreTemplateAt page pageWidth px py template == 1)
    by (apply embedTemplate_score_at_position; assumption).
  assert (Helse : forall x y, (0 <= x < pageWidth)%Z -> (x, y) <> (px, py) ->
                    (scoreTemplateAt page pageWidth x y template < 1)%Q)
    by (intros; apply embedTemplate_score_elsewhere; assumption).
  split; [|split].
  - assert (Hr : r = fold_left
                   (fun b t => fold_left (scanZone page pageWidth t) [zone] b)
                   templates noMatch).
    { unfold r, detectLogoByTemplateMatch, zone, effectiveZone.
      destruct searchZone; reflexivity. }
    destruct (scans_detect page pageWidth pageHeight templates searchZone
                noMatch (q0 := 0) eq_refl) as (q & Sq & Lq & Uq & Rq).
    fold zone in Sq, Uq, Rq. rewrite <- Hr in Sq, Rq.
    assert (Hq1 : (1 <= q)%Q).
    { rewrite <- Hone. apply (Uq (template, px, py)).
      exists template, px, py. tauto. }
    rewrite Sq. apply num_within_eq; [apply Qle_refl|].
    apply Qle_antisym; [|assumption].
    destruct Rq as [Rq|(_ & c & (t & x & y & -> & _) & Rc)].
    + rewrite Rq in Sq. simpl in Sq. injection Sq as <-. discriminate.
    + rewrite Rc in Sq. simpl in Sq. injection Sq as <-. apply scoreTemplateAt_range.
  - intros before after -> Hbefore.
    unfold r. rewrite detectLogoByTemplateMatch_app. cbv zeta. fold zone.
    (* the templates loaded before: the best so far scores less than 1 *)
    destruct (scans_detect page pageWidth pageHeight before searchZone
                noMatch (q0 := 0) eq_refl) as (q1 & S1 & _ & _ & R1).
    fold zone in S1, R1.
    set (b1 := fold_left (fun b t => fold_left (scanZone page pageWidth t) [zone] b)
                         before noMatch) in *.
    assert (Hq1 : (q1 < 1)%Q).
    { destruct R1 as [R1|(_ & c & (t & x & y & -> & Ht & Hg) & R1)].
      - rewrite R1 in S1. simpl in S1. injection S1 as <-. reflexivity.
      - rewrite R1 in S1. simpl in S1. injection S1 as <-. apply Hbefore; assumption. }
    (* the embedded template: its own window wins *)
    destruct (scans_scanZone page pageWidth template zone b1 S1) as (q2 & S2 & _ & U2 & R2).
    set (b2 := scanZone page pageWidth template b1 zone) in *.
    assert (Hq2 : (1 <= q2)%Q).
    { rewrite <- Hone. apply (U2 (template, px, py)). exists px, py. tauto. }
    assert (Hb2 : b2 = candMatch page pageWidth (template, px, py)).
    { destruct R2 as [R2|(_ & c & (x & y & -> & Hg) & R2)].
      - exfalso. rewrite R2, S1 in S2. injection S2 as <-. lra.
      - assert (Eq : q2 = scoreTemplateAt page pageWidth x y template)
          by (rewrite R2 in S2; simpl in S2; injection S2 as <-; reflexivity).
        destruct Hg as (_ & _ & Gx' & _).
        apply in_zrange3 in Gx'. destruct Gx' as (k & Hk & Ex & Lx).
        destruct (Z.eq_dec x px) as [->|Nx]; [destruct (Z.eq_dec y py) as [->|Ny]|].
        + exact R2.
        + exfalso. apply (Qlt_not_le _ _ (Helse px y ltac:(lia) ltac:(congruence))).
          rewrite <- Eq. assumption.
        + exfalso. apply (Qlt_not_le _ _ (Helse x y ltac:(lia) ltac:(congruence))).
          rewrite <- Eq. assumption. }
    (* the templates loaded after: none scores more *)
    destruct (scans_detect page pageWidth pageHeight after searchZone b2 S2)
      as (q3 & S3 & _ & _ & R3).
    fold zone in S3, R3.
    destruct R3 as [R3|(Hlt & c & (t & x & y & -> & _) & R3)].
    + rewrite R3, Hb2. split; reflexivity.
    + exfalso. rewrite R3 in S3. simpl in S3. injection S3 as <-.
      pose proof (scoreTemplateAt_range page pageWidth x y t). lra.
  - intros. apply scoreTemplateAt_formula.
Qed.

(** The sample template embedded at (6, 3), a window of the scan of the
    60x30 sample zone, matched against three templates: a template of
    another shape, which scores less than 1 at each of its 49 windows, the
    sample template, and its wider variant, which scores 1 as well but is
    loaded after it. *)
Lemma detectLogoByTemplateMatch_embedded_witness :
  let page := embedTemplate 60 30 6 3 sampleTemplate in
  let r := detectLogoByTemplateMatch page 60 30
             [sampleTemplateBar; sampleTemplate; sampleTemplateWide] (Some sampleZone) in
  num_within 0 (score r) (Fin 1) = true /\
  bboxPx r = Some (rectZ 6 3 40 12) /\
  matchedReference r = JStr "logo.png".
Proof.
  cbv zeta.
  destruct (@detectLogoByTemplateMatch_embedded
              [sampleTemplateBar; sampleTemplate; sampleTemplateWide] sampleTemplate
              60 30 6 3 0 0 (Some sampleZone)) as (Hs & Hb & _).
  - right; left; reflexivity.
  - simpl; lia.
  - simpl; lia.
  - reflexivity.
  - simpl; lia.
  - simpl; lia.
  - simpl; lia.
  - simpl; lia.
  - unfold onGrid. simpl. repeat split; try lia; tauto.
  - split; [exact Hs|].
    apply (Hb [sampleTemplateBar] [sampleTemplateWide]); [reflexivity|].
    intros t x y [<-|[]] (_ & _ & Hx & Hy).
    assert (Hall : forallb
              (fun x => forallb
                 (fun y => Qltb (scoreTemplateAt (embedTemplate 60 30 6 3 sampleTemplate)
                                                 60 x y sampleTemplateBar) 1)
                 (zrange3 0 18))
              (zrange3 0 20) = true) by (vm_compute; reflexivity).
    rewrite forallb_forall in Hall. specialize (Hall x Hx).
    rewrite forallb_forall in Hall. specialize (Hall y Hy).
    apply Qltb_true. exact Hall.
Defined.

(** C2 as stated fails for a position off the stride-3 grid: with the sample
    template embedded at (7, 3), inside the zone, no visited window is
    aligned with it; the best window is (9, 3), with score 37/52.  And with
    several templates the box returned can be another template's: the page
    holding the wide variant at (6, 3) matches the narrow one there, which
    is scanned first. *)
Lemma detectLogoByTemplateMatch_offgrid_counterexample :
  (let page := embedTemplate 60 30 7 3 sampleTemplate in
   let r := detectLogoByTemplateMatch page 60 30 [sampleTemplate] (Some sampleZone) in
   num_within 0 (score r) (Fin 1) = false /\
   num_within 0 (score r) (Fin (37 # 52)) = true /\
   bboxPx r = Some (rectZ 9 3 40 12)) /\
  (let page := embedTemplate 60 30 6 3 sampleTemplateWide in
   let r := detectLogoByTemplateMatch page 60 30 [sampleTemplate; sampleTemplateWide]
                                      (Some sampleZone) in
   num_within 0 (score r) (Fin 1) = true /\
   bboxPx r = Some (rectZ 6 3 40 12) /\
   matchedReference r = JStr "logo.png").
Proof. vm_compute. repeat split. Qed.

(** ** Geometry mapper (C3) *)

Section Geometry.
Variables bx by_ bw bh rw rh pw ph : Q.
Hypothesis Hrw : (0 < rw)%Q.
Hypothesis Hrh : (0 < rh)%Q.
Hypothesis Hpw : (0 < pw)%Q.
Hypothesis Hph : (0 < ph)%Q.

Let renderSize := finSize rw rh.
Let pageSize := finSize pw ph.
Let bbox := finRect bx by_ bw bh.

(** The components of the mapped rectangle are finite clamps. *)
Lemma imageBboxToPdfRect_Fin :
  exists x y w h : Q,
    imageBboxToPdfRect bbox renderSize pageSize = finRect x y w h /\
    ((0 <= x <= pw) /\ (0 <= y <= ph) /\ 1 <= w /\ 1 <= h)%Q /\
    ((0 <= bx <= rw)%Q -> x == bx / rw * pw) /\
    ((0 <= by_)%Q -> (0 <= bh)%Q -> (by_ + bh <= rh)%Q ->
       y == ph - by_ / rh * ph - bh / rh * ph) /\
    ((rw <= bw * pw)%Q -> (bw <= rw)%Q -> w == bw / rw * pw) /\
    ((rh <= bh * ph)%Q -> (bh <= rh)%Q -> h == bh / rh * ph).
Proof.
  unfold imageBboxToPdfRect, bbox, renderSize, pageSize, finRect, finSize; simpl rect_x;
    simpl rect_y; simpl rect_width; simpl rect_height; simpl size_width; simpl size_height.
  rewrite !num_div_Fin by assumption.
  unfold num_sub, num_mul, num_add, num_neg.
  destruct (clamp_Fin (bx / rw * pw) 0 pw) as (x & -> & Hx0 & Hx1 & Hx).
  destruct (clamp_Fin (ph + - (by_ / rh * ph) + - (bh / rh * ph)) 0 ph) as (y & -> & Hy0 & Hy1 & Hy).
  destruct (clamp_Fin (bw / rw * pw) 1 pw) as (w & -> & Hw0 & Hw1 & Hw).
  destruct (clamp_Fin (bh / rh * ph) 1 ph) as (h & -> & Hh0 & Hh1 & Hh).
  exists x, y, w, h. split; [reflexivity|].
  assert (Hdiv : forall a b c : Q, (0 < b)%Q -> (0 < c)%Q ->
            ((0 <= a -> 0 <= a / b * c) /\ (a <= b -> a / b * c <= c) /\
             (b <= a * c -> 1 <= a / b * c))%Q).
  { intros a b c Hb Hc.
    assert (Hib : (0 < / b)%Q) by now apply Qinv_lt_0_compat.
    unfold Qdiv. repeat split; intro Ha.
    - apply Qmult_le_0_compat; [apply Qmult_le_0_compat|]; lra.
    - assert (E : (c == b * / b * c)%Q) by (field; lra).
      rewrite E at 2.
      apply Qmult_le_compat_r; [|lra].
      apply Qmult_le_compat_r; lra.
    - assert (E : (1 == b * / b)%Q) by (field; lra).
      rewrite E.
      setoid_replace (a * / b * c)%Q with (a * c * / b)%Q by ring.
      apply Qmult_le_compat_r; lra. }
  split; [|repeat split].
  - repeat split; try assumption; try (apply Hx1; lra); try (apply Hy1; lra).
  - intros [H0 H1]. apply Hx; apply Hdiv; assumption.
  - intros H0 H1 H2.
    pose proof (Hdiv by_ rh ph Hrh Hph) as (Ha & _ & _).
    pose proof (Hdiv bh rh ph Hrh Hph) as (Hb & _ & _).
    pose proof (Hdiv (by_ + bh)%Q rh ph Hrh Hph) as (_ & Hc & _).
    specialize (Ha H0). specialize (Hb H1). specialize (Hc H2).
    assert (E : ((by_ + bh) / rh * ph == by_ / rh * ph + bh / rh * ph)%Q) by (field; lra).
    rewrite E in Hc.
    setoid_replace (ph - by_ / rh * ph - bh / rh * ph)%Q
      with (ph + - (by_ / rh * ph) + - (bh / rh * ph))%Q by ring.
    apply Hy; lra.
  - intros H0 H1. apply Hw; apply Hdiv; assumption.
  - intros H0 H1. apply Hh; apply Hdiv; assumption.
Qed.

End Geometry.

(** Without clamping the inverse map undoes [imageBboxToPdfRect] exactly. *)
Lemma imageBboxToPdfRect_inverse (tol bx by_ bw bh rw rh pw ph : Q) :
  (0 <= tol)%Q ->
  (0 < rw)%Q -> (0 < rh)%Q -> (0 < pw)%Q -> (0 < ph)%Q ->
  (0 <= bx)%Q -> (0 <= by_)%Q -> (0 <= bw)%Q -> (0 <= bh)%Q ->
  (bx + bw <= rw)%Q -> (by_ + bh <= rh)%Q ->
  (rw <= bw * pw)%Q -> (rh <= bh * ph)%Q ->
  rect_within tol
    (pdfRectToImageBbox
       (imageBboxToPdfRect (finRect bx by_ bw bh) (finSize rw rh) (finSize pw ph))
       (finSize rw rh) (finSize pw ph))
    (finRect bx by_ bw bh) = true.
Proof.
  intros Ht Hrw Hrh Hpw Hph Hbx Hby Hbw Hbh Hxw Hyh Hw1 Hh1.
  destruct (imageBboxToPdfRect_Fin bx by_ bw bh Hrw Hrh Hpw Hph)
    as (x & y & w & h & -> & _ & Hx & Hy & Hw & Hh).
  specialize (Hx ltac:(lra)). specialize (Hy Hby Hbh Hyh).
  specialize (Hw Hw1 ltac:(lra)). specialize (Hh Hh1 ltac:(lra)).
  unfold pdfRectToImageBbox, rect_within, finRect, finSize; simpl rect_x; simpl rect_y;
    simpl rect_width; simpl rect_height; simpl size_width; simpl size_height.
  unfold num_sub, num_add, num_neg.
  rewrite !Qeq_bool_false_pos by assumption.
  unfold num_mul.
  rewrite !andb_true_iff. repeat split; apply num_within_eq; try assumption.
  - rewrite Hx. field. split; lra.
  - rewrite Hy, Hh. field. split; lra.
  - rewrite Hw. field. split; lra.
  - rewrite Hh. field. split; lra.
Qed.

(** The bounds and the round trip, on finite values. *)
Lemma imageBboxToPdfRect_finite (bx by_ bw bh rw rh pw ph : Q) :
  (0 < rw)%Q -> (0 < rh)%Q -> (0 < pw)%Q -> (0 < ph)%Q ->
  let renderSize := finSize rw rh in
  let pageSize := finSize pw ph in
  let bbox := finRect bx by_ bw bh in
  let rect := imageBboxToPdfRect bbox renderSize pageSize in
  (num_between (Fin 0) (Fin pw) (rect_x rect) = true /\
   num_between (Fin 0) (Fin ph) (rect_y rect) = true /\
   num_leb (Fin 1) (rect_width rect) = true /\
   num_leb (Fin 1) (rect_height rect) = true) /\
  ((0 <= bx)%Q -> (0 <= by_)%Q -> (0 <= bw)%Q -> (0 <= bh)%Q ->
   (bx + bw <= rw)%Q -> (by_ + bh <= rh)%Q ->
   (rw <= bw * pw)%Q -> (rh <= bh * ph)%Q ->
   rect_within 1 (pdfRectToImageBbox rect renderSize pageSize) bbox = true).
Proof.
  intros Hrw Hrh Hpw Hph. cbv zeta. split.
  - destruct (imageBboxToPdfRect_Fin bx by_ bw bh Hrw Hrh Hpw Hph)
      as (x & y & w & h & -> & ((Hx0 & Hx1) & (Hy0 & Hy1) & Hw & Hh) & _).
    unfold num_between, finRect; simpl.
    rewrite !andb_true_iff, !Qle_bool_iff. tauto.
  - intros. apply imageBboxToPdfRect_inverse; assumption || lra.
Qed.

(** C3 (as amended).  For a pixel box whose four coordinates are finite
    numbers, and render and page sizes that are finite and positive, the
    rectangle returned by [imageBboxToPdfRect] has its x and y inside the
    page and a width and height of at least 1; and when the pixel box lies
    inside the render area and its mapped width and height are at least one
    unit (so that no clamp is active), mapping it to document space and back
    with the inverse linear map reproduces it within 1 unit per
    coordinate. *)
Theorem imageBboxToPdfRect_bounds_roundtrip :
  forall (bbox : Rect) (renderSize pageSize : Size),
    rectFinite bbox = true ->
    sizePositive renderSize = true ->
    sizePositive pageSize = true ->
    let rect := imageBboxToPdfRect bbox renderSize pageSize in
    (num_between (Fin 0) (size_width pageSize) (rect_x rect) = true /\
     num_between (Fin 0) (size_height pageSize) (rect_y rect) = true /\
     num_leb (Fin 1) (rect_width rect) = true /\
     num_leb (Fin 1) (rect_height rect) = true) /\
    ((Fin 0 <=? rect_x bbox)%num = true ->
     (Fin 0 <=? rect_y bbox)%num = true ->
     (Fin 0 <=? rect_width bbox)%num = true ->
     (Fin 0 <=? rect_height bbox)%num = true ->
     (rect_x bbox + rect_width bbox <=? size_width renderSize)%num = true ->
     (rect_y bbox + rect_height bbox <=? size_height renderSize)%num = true ->
     (size_width renderSize <=? rect_width bbox * size_width pageSize)%num = true ->
     (size_height renderSize <=? rect_height bbox * size_height pageSize)%num = true ->
     rect_within 1 (pdfRectToImageBbox rect renderSize pageSize) bbox = true).
Proof.
  intros [bx by_ bw bh] [rw rh] [pw ph] Hb Hr Hp.
  unfold rectFinite, sizePositive, sizeFinite in Hb, Hr, Hp.
  cbn [rect_x rect_y rect_width rect_height size_width size_height] in *.
  destruct bx as [| |bx|], by_ as [| |by_|], bw as [| |bw|], bh as [| |bh|];
    try discriminate Hb.
  destruct rw as [| |rw|], rh as [| |rh|]; try discriminate Hr.
  destruct pw as [| |pw|], ph as [| |ph|]; try discriminate Hp.
  cbn [isFinite andb num_ltb] in Hr, Hp.
  apply andb_true_iff in Hr. destruct Hr as [Hrw Hrh].
  apply andb_true_iff in Hp. destruct Hp as [Hpw Hph].
  apply Qltb_true in Hrw, Hrh, Hpw, Hph.
  destruct (@imageBboxToPdfRect_finite bx by_ bw bh rw rh pw ph Hrw Hrh Hpw Hph)
    as [Hbounds Hround].
  cbv zeta. split; [exact Hbounds|].
  cbn [num_leb num_add num_mul].
  intros H1 H2 H3 H4 H5 H6 H7 H8.
  apply Qle_bool_iff in H1, H2, H3, H4, H5, H6, H7, H8.
  apply Hround; assumption.
Qed.

(** A 150x95 box at (300,400) of a 734x950 render of a 612x792 page. *)
Lemma imageBboxToPdfRect_bounds_roundtrip_witness :
  let renderSize := finSize 734 950 in
  let pageSize := finSize 612 792 in
  let bbox := finRect 300 400 150 95 in
  let rect := imageBboxToPdfRect bbox renderSize pageSize in
  (num_between (Fin 0) (Fin 612) (rect_x rect) = true /\
   num_between (Fin 0) (Fin 792) (rect_y rect) = true /\
   num_leb (Fin 1) (rect_width rect) = true /\
   num_leb (Fin 1) (rect_height rect) = true) /\
  rect_within 1 (pdfRectToImageBbox rect renderSize pageSize) bbox = true.
Proof.
  cbv zeta.
  destruct (@imageBboxToPdfRect_bounds_roundtrip (finRect 300 400 150 95)
              (finSize 734 950) (finSize 612 792)) as [Hb Hr]; try reflexivity.
  split; [exact Hb|].
  apply Hr; reflexivity.
Defined.

(** C3 as stated fails: a box the vision path can produce (normalized
    y = 0.95, height = 0.1 on a 734x950 render, so it overhangs the bottom
    edge) is clamped to y = 0, and the inverse map returns y = 855 instead
    of 903.  And a box whose x is not a number, which the vision path
    produces from a reply whose [bbox.x] is a word, is mapped to a rectangle
    whose x is not a number either, outside every page. *)
Lemma imageBboxToPdfRect_roundtrip_counterexample :
  let renderSize := finSize 734 950 in
  let pageSize := finSize 612 792 in
  (let bbox := finRect 500 903 150 95 in
   let rect := imageBboxToPdfRect bbox renderSize pageSize in
   rect_y rect = Fin 0 /\
   num_within 0 (rect_y (pdfRectToImageBbox rect renderSize pageSize)) (Fin 855) = true /\
   rect_within 1 (pdfRectToImageBbox rect renderSize pageSize) bbox = false) /\
  (let bbox := mkRect NaN (Fin 400) (Fin 150) (Fin 95) in
   let rect := imageBboxToPdfRect bbox renderSize pageSize in
   rect_x rect = NaN /\
   num_between (Fin 0) (Fin 612) (rect_x rect) = false).
Proof. vm_compute. repeat split. Qed.

(** ** Vision probe adapter (C4, C7, C10) *)

Section Sorting.
Variables (A : Type) (cmp : A -> A -> num).

Lemma insertSorted_In (x y : A) (l : list A) :
  In y (insertSorted cmp x l) <-> y = x \/ In y l.
Proof.
  induction l as [|z l IH]; cbn [insertSorted In].
  - intuition congruence.
  - destruct (cmp x z >? Fin 0)%num; cbn [In]; [rewrite IH|]; intuition congruence.
Qed.

Lemma sortArray_In (y : A) (l : list A) : In y (sortArray cmp l) <-> In y l.
Proof.
  induction l as [|x l IH]; cbn [sortArray fold_right In]; [tauto|].
  fold (sortArray cmp l). rewrite insertSorted_In, IH. intuition congruence.
Qed.

End Sorting.

(** The values [clamp(v, 0, 1)] can take: [NaN] passes through. *)
Lemma clamp_unit (v : num) :
  clamp v (Fin 0) (Fin 1) = NaN \/
  exists q, clamp v (Fin 0) (Fin 1) = Fin q /\ (0 <= q <= 1)%Q.
Proof.
  destruct v as [| |q|].
  - left. reflexivity.
  - right. exists 0%Q. split; [reflexivity|lra].
  - right. destruct (clamp_Fin q 0 1) as (c & E & H0 & H1 & _).
    exists c. split; [exact E|]. split; [exact H0|apply H1; lra].
  - right. exists 1%Q. split; [reflexivity|lra].
Qed.

Lemma clamp_unit_NaN (v : num) : clamp v (Fin 0) (Fin 1) = NaN <-> v = NaN.
Proof.
  destruct v as [| |q|]; split; intro H; try reflexivity; try discriminate.
  destruct (clamp_Fin q 0 1) as (c & E & _). congruence.
Qed.



(** A reply that is a JSON object, or a JSON array, parses directly. *)
Lemma parseVisionDetections_object (js : Engine) (text : string) (fields : list (string * jsval)) :
  String.eqb (cleanModelJsonText text) "" = false ->
  JSON_parse js (cleanModelJsonText text) = Some (JObj fields) ->
  parseVisionDetections js text = [JObj fields].
Proof.
  intros E H. unfold parseVisionDetections. cbv zeta. rewrite E, H. reflexivity.
Qed.

Lemma parseVisionDetections_array (js : Engine) (text : string) (items : list jsval) :
  String.eqb (cleanModelJsonText text) "" = false ->
  JSON_parse js (cleanModelJsonText text) = Some (JArr items) ->
  parseVisionDetections js text = items.
Proof.
  intros E H. unfold parseVisionDetections. cbv zeta. rewrite E, H. reflexivity.
Qed.

Lemma cleanModelJsonText_samples :
  cleanModelJsonText wordyReply = wordyReply /\
  cleanModelJsonText twoReply = twoReply /\
  cleanModelJsonText logoReply = logoReply /\
  cleanModelJsonText stripReply = stripReply /\
  cleanModelJsonText nothingReply = nothingReply.
Proof. vm_compute. repeat split. Qed.

Lemma detectLogoWithVision_reply (js : Engine) (reply : string) :
  String.eqb (trim reply) "" = false ->
  detectLogoWithVision js (replyOutcome reply) = Ok (probeFromText js reply).
Proof.
  intro H. unfold detectLogoWithVision, replyOutcome, responseToText, isStringWithText.
  cbn [rbind get lookup String.eqb Ascii.eqb Bool.eqb]. cbn. rewrite H. reflexivity.
Qed.

Lemma trim_samples :
  String.eqb (trim wordyReply) "" = false /\
  String.eqb (trim twoReply) "" = false /\
  String.eqb (trim logoReply) "" = false.
Proof. vm_compute. repeat split. Qed.

(** C4, at a reply whose confidence is the word "high": the reply parses,
    [Number("high")] is [NaN], [clamp] lets it through, and the probe
    returned is [found = true] with a confidence outside [0, 1]. *)
Theorem detectLogoWithVision_wordy_confidence :
  forall js : Engine,
    JSON_parse js wordyReply = Some wordyItem ->
    StringToNumber js "high" = NaN ->
    exists r,
      detectLogoWithVision js (replyOutcome wordyReply) = Ok r /\
      probe_found r = true /\
      probe_confidence r = NaN /\
      num_between (Fin 0) (Fin 1) (probe_confidence r) = false.
Proof.
  intros js H1 H2.
  destruct cleanModelJsonText_samples as (C & _).
  destruct trim_samples as (T & _).
  exists (probeFromText js wordyReply).
  split; [apply detectLogoWithVision_reply, T|].
  unfold probeFromText. unfold wordyItem in H1.
  erewrite parseVisionDetections_object;
    [|rewrite C; vm_compute; reflexivity|rewrite C; exact H1].
  cbn [map]. unfold toCandidate. cbv zeta.
  change (get (JObj _) "confidence") with (JStr "high").
  cbn [nullish Number]. rewrite H2.
  vm_compute. repeat split.
Qed.

Lemma detectLogoWithVision_wordy_confidence_witness :
  exists r,
    detectLogoWithVision sampleEngine (replyOutcome wordyReply) = Ok r /\
    probe_found r = true /\
    probe_confidence r = NaN /\
    num_between (Fin 0) (Fin 1) (probe_confidence r) = false.
Proof.
  apply (@detectLogoWithVision_wordy_confidence sampleEngine); vm_compute; reflexivity.
Defined.

(** C7, at a reply with two candidates of which the first has the word
    "high" for confidence: both survive the filter, every comparison is
    [NaN], the order is kept, and the candidate returned is the first, whose
    key is [NaN], although the second has the key 0.95. *)
Theorem detectLogoWithVision_unordered_candidates :
  forall js : Engine,
    JSON_parse js twoReply = Some (JArr twoItems) ->
    StringToNumber js "high" = NaN ->
    let candidates :=
      filter keepCandidate (map (toCandidate js) (parseVisionDetections js twoReply)) in
    exists r,
      detectLogoWithVision js (replyOutcome twoReply) = Ok r /\
      map quality candidates = [NaN; Fin (0.9 + 0.5 * 0.1)] /\
      probe_found r = true /\
      probe_confidence r = NaN /\
      probe_bbox r = Some (finRect 0.1 0.8 0.2 0.1).
Proof.
  intros js H1 H2. cbv zeta.
  destruct cleanModelJsonText_samples as (_ & C & _).
  destruct trim_samples as (_ & T & _).
  exists (probeFromText js twoReply).
  split; [apply detectLogoWithVision_reply, T|].
  unfold probeFromText.
  erewrite parseVisionDetections_array;
    [|rewrite C; vm_compute; reflexivity|rewrite C; exact H1].
  unfold twoItems. cbn [map]. unfold toCandidate. cbv zeta.
  change (get (JObj (("found"%string, JBool true)
                     :: ("confidence"%string, JStr "high") :: _)) "confidence")
    with (JStr "high").
  cbn [nullish Number]. rewrite H2.
  vm_compute. repeat split.
Qed.

Lemma detectLogoWithVision_unordered_candidates_witness :
  let candidates :=
    filter keepCandidate
           (map (toCandidate sampleEngine) (parseVisionDetections sampleEngine twoReply)) in
  exists r,
    detectLogoWithVision sampleEngine (replyOutcome twoReply) = Ok r /\
    map quality candidates = [NaN; Fin (0.9 + 0.5 * 0.1)] /\
    probe_found r = true /\
    probe_confidence r = NaN /\
    probe_bbox r = Some (finRect 0.1 0.8 0.2 0.1).
Proof.
  apply (@detectLogoWithVision_unordered_candidates sampleEngine); vm_compute; reflexivity.
Defined.

(** *** What does hold of the adapter *)

Lemma num_gtb_sub_Fin (p q : Q) :
  ((Fin q - Fin p)%num >? Fin 0)%num = Qltb p q.
Proof.
  unfold num_gtb, num_sub, num_neg, num_add, num_ltb, Qltb.
  destruct (Qle_bool q p) eqn:E1, (Qle_bool (q + - p) 0) eqn:E2; try reflexivity; exfalso.
  - apply Qle_bool_iff in E1. apply Qle_bool_false in E2. lra.
  - apply Qle_bool_false in E1. apply Qle_bool_iff in E2. lra.
Qed.

Section SortedHead.
Variable key : Candidate -> Q.

(** The head of the list has the largest key. *)
Let headMax (l : list Candidate) : Prop :=
  match l with
  | [] => True
  | best :: _ => forall c, In c l -> (key c <= key best)%Q
  end.

Lemma insertSorted_headMax (x : Candidate) (l : list Candidate) :
  (forall c, In c (x :: l) -> quality c = Fin (key c)) ->
  headMax l -> headMax (insertSorted compareCandidates x l).
Proof.
  intros Hk Hl. destruct l as [|y rest]; cbn [insertSorted].
  - intros c [<-|[]]. apply Qle_refl.
  - unfold compareCandidates.
    rewrite (Hk x (or_introl eq_refl)), (Hk y (or_intror (or_introl eq_refl))).
    rewrite num_gtb_sub_Fin. destruct (Qltb (key x) (key y)) eqn:E; unfold headMax.
    + apply Qltb_true in E. intros c Hc. cbn [In] in Hc.
      destruct Hc as [<-|Hc]; [apply Qle_refl|].
      apply insertSorted_In in Hc. destruct Hc as [->|Hc]; [lra|].
      apply Hl. right. exact Hc.
    + apply Qltb_false in E. intros c [<-|Hc]; [apply Qle_refl|].
      apply Qle_trans with (y := key y); [apply Hl, Hc|exact E].
Qed.

Lemma sortArray_headMax (l : list Candidate) :
  (forall c, In c l -> quality c = Fin (key c)) ->
  headMax (sortArray compareCandidates l).
Proof.
  induction l as [|x l IH]; intro Hk; [exact I|].
  cbn [sortArray fold_right]. fold (sortArray compareCandidates l).
  apply insertSorted_headMax.
  - intros c [<-|Hc]; [apply Hk; left; reflexivity|].
    apply Hk. right. apply (sortArray_In compareCandidates). exact Hc.
  - apply IH. intros c Hc. apply Hk. right. exact Hc.
Qed.

End SortedHead.

(** When every surviving candidate has a number for its key
    [confidence + 0.1 * bbox.x], the probe returns a surviving candidate
    whose key is the largest. *)
Theorem probeFromText_maximal_quality :
  forall (js : Engine) (text : string) (key : Candidate -> Q),
    let candidates :=
      filter keepCandidate (map (toCandidate js) (parseVisionDetections js text)) in
    (forall c, In c candidates -> quality c = Fin (key c)) ->
    candidates <> [] ->
    exists best,
      In best candidates /\
      probe_found (probeFromText js text) = true /\
      probe_confidence (probeFromText js text) = c_confidence best /\
      probe_bbox (probeFromText js text) = c_bbox best /\
      probe_matchedReference (probeFromText js text) = c_matchedReference best /\
      forall c, In c candidates -> (quality c <=? quality best)%num = true.
Proof.
  intros js text key candidates Hk Hne.
  unfold probeFromText. fold candidates.
  destruct candidates as [|c0 kept] eqn:F; [congruence|].
  pose proof (sortArray_headMax key (c0 :: kept) Hk) as Hmax.
  destruct (sortArray compareCandidates (c0 :: kept)) as [|best rest] eqn:S.
  - exfalso. assert (Hin : In c0 (sortArray compareCandidates (c0 :: kept)))
      by (apply sortArray_In; left; reflexivity).
    rewrite S in Hin. destruct Hin.
  - assert (Hb : In best (c0 :: kept)).
    { apply (sortArray_In compareCandidates). rewrite S. left. reflexivity. }
    exists best. repeat split; try assumption.
    intros c Hc. rewrite (Hk c Hc), (Hk best Hb). simpl. apply Qle_bool_iff.
    apply Hmax. rewrite <- S. apply sortArray_In. exact Hc.
Qed.

(** A reply with three surviving candidates: the one returned is the
    second of them, whose key 0.97 is the largest, although the third has
    the larger confidence. *)
Lemma probeFromText_maximal_quality_witness :
  let candidates :=
    filter keepCandidate
      (map (toCandidate rankedEngine) (parseVisionDetections rankedEngine rankedReply)) in
  map (fun c => match quality c with Fin q => Qred q | _ => 0 end) candidates
  = [0.61; 0.97; 0.93] /\
  probe_confidence (probeFromText rankedEngine rankedReply) = Fin 0.9 /\
  exists best,
    In best candidates /\
    probe_found (probeFromText rankedEngine rankedReply) = true /\
    probe_confidence (probeFromText rankedEngine rankedReply) = c_confidence best /\
    probe_bbox (probeFromText rankedEngine rankedReply) = c_bbox best /\
    probe_matchedReference (probeFromText rankedEngine rankedReply) = c_matchedReference best /\
    forall c, In c candidates -> (quality c <=? quality best)%num = true.
Proof.
  cbv zeta. split; [vm_compute; reflexivity|]. split; [vm_compute; reflexivity|].
  apply (@probeFromText_maximal_quality rankedEngine rankedReply
           (fun c => match quality c with Fin q => q | _ => 0 end)).
  - vm_compute. intros c [<-|[<-|[<-|[]]]]; reflexivity.
  - vm_compute. discriminate.
Defined.

(** Every number of a candidate is [NaN] or lies in [0, 1]; it is [NaN]
    only when the reply's value does not convert to a number. *)
Theorem toCandidate_unit_or_NaN :
  forall (js : Engine) (item : jsval),
    let unitOrNaN (n : num) := n = NaN \/ exists q, n = Fin q /\ (0 <= q <= 1)%Q in
    let c := toCandidate js item in
    unitOrNaN (c_confidence c) /\
    (forall b, c_bbox c = Some b ->
               unitOrNaN (rect_x b) /\ unitOrNaN (rect_y b) /\
               unitOrNaN (rect_width b) /\ unitOrNaN (rect_height b)) /\
    (forall text, parseVisionDetections js text = [] ->
                  probeFromText js text = notFound text).
Proof.
  intros js item unitOrNaN c. split; [|split].
  - apply clamp_unit.
  - unfold c, toCandidate. cbv zeta. intros b Hb.
    destruct (truthy (get item "bbox")); [|discriminate].
    injection Hb as <-. simpl. repeat split; apply clamp_unit.
  - intros text H. unfold probeFromText. rewrite H. reflexivity.
Qed.

(** ** Salvaging a reply that was cut off *)

Lemma cleanModelJsonText_cut :
  cleanModelJsonText cutReply = ("[" ++ logoReply ++ ",")%string /\
  cleanModelJsonText cutReply2
  = ("[" ++ logoReply ++ "," ++ stripReply ++ "," ++ dq "{'found':tr")%string.
Proof. vm_compute. split; reflexivity. Qed.

(** A fenced reply that is cut off after the first object of its array
    yields that one object: the text is not JSON as a whole, and the text
    from its first opening brace to its last closing brace is the object. *)
Theorem parseVisionDetections_cut_reply :
  forall js : Engine,
    JSON_parse js (cleanModelJsonText cutReply) = None ->
    JSON_parse js logoReply = Some logoItem ->
    parseVisionDetections js cutReply = [logoItem].
Proof.
  intros js Hnone Hobj.
  unfold parseVisionDetections. cbv zeta. rewrite Hnone.
  assert (He : extractJsonObject js (cleanModelJsonText cutReply) = logoItem).
  { vm_compute in Hobj |- *. rewrite Hobj. reflexivity. }
  rewrite He.
  replace (String.eqb (cleanModelJsonText cutReply) "") with false
    by (vm_compute; reflexivity).
  reflexivity.
Qed.

Lemma parseVisionDetections_cut_reply_witness :
  JSON_parse sampleEngine (cleanModelJsonText cutReply) = None /\
  parseVisionDetections sampleEngine cutReply = [logoItem].
Proof.
  split; [reflexivity|].
  apply (@parseVisionDetections_cut_reply sampleEngine); reflexivity.
Defined.

(** A reply cut off inside the third object of its array: neither the whole
    text nor the text between its first opening and last closing brace is
    JSON, and the scan salvages the two complete objects, in order. *)
Theorem parseVisionDetections_salvage :
  forall js : Engine,
    JSON_parse js (cleanModelJsonText cutReply2) = None ->
    JSON_parse js (logoReply ++ "," ++ stripReply) = None ->
    JSON_parse js logoReply = Some logoItem ->
    JSON_parse js stripReply = Some stripItem ->
    parseVisionDetections js cutReply2 = [logoItem; stripItem].
Proof.
  intros js Hnone Hslice Hlogo Hstrip.
  unfold parseVisionDetections. cbv zeta. rewrite Hnone.
  assert (He : extractJsonObject js (cleanModelJsonText cutReply2) = JNull).
  { vm_compute in Hslice |- *. rewrite Hslice. reflexivity. }
  rewrite He. cbn [truthy andb].
  replace (String.eqb (cleanModelJsonText cutReply2) "") with false
    by (vm_compute; reflexivity).
  vm_compute in Hlogo, Hstrip |- *. rewrite Hlogo, Hstrip. reflexivity.
Qed.

Lemma parseVisionDetections_salvage_witness :
  JSON_parse sampleEngine (cleanModelJsonText cutReply2) = None /\
  parseVisionDetections sampleEngine cutReply2 = [logoItem; stripItem].
Proof.
  split; [reflexivity|].
  apply (@parseVisionDetections_salvage sampleEngine); reflexivity.
Defined.

(** ** Footer band locator (C6) *)

Lemma count_fold (A : Type) (f : A -> bool) (l : list A) (c : Z) :
  fold_left (fun count x => if f x then (count + 1)%Z else count) l c =
  (c + Z.of_nat (List.length (filter f l)))%Z.
Proof.
  revert c. induction l as [|a l IH]; intro c; simpl.
  - lia.
  - rewrite IH. destruct (f a); simpl List.length; lia.
Qed.

Lemma length_zrange (lo hi : Z) : List.length (zrange lo hi) = Z.to_nat (hi - lo).
Proof. unfold zrange. now rewrite length_map, length_seq. Qed.

Lemma filter_all (A : Type) (f : A -> bool) (l : list A) :
  (forall a, In a l -> f a = true) -> filter f l = l.
Proof.
  induction l as [|a l IH]; intro H; simpl; [reflexivity|].
  rewrite (H a (or_introl eq_refl)). f_equal. apply IH. intros b Hb. apply H. right. exact Hb.
Qed.

Section RowRatio.
Variables (raw : list Z) (width channels : Z).
Hypothesis Hwidth : (0 < width)%Z.

Lemma purpleCount_range (y : Z) : (0 <= purpleCount raw width channels y <= width)%Z.
Proof.
  unfold purpleCount. rewrite count_fold.
  pose proof (filter_length_le (fun x => purpleAt raw width channels x y) (zrange 0 width)) as H.
  rewrite length_zrange in H. lia.
Qed.

Lemma purpleCount_full (y : Z) :
  (forall x, (0 <= x < width)%Z -> purpleAt raw width channels x y = true) ->
  purpleCount raw width channels y = width.
Proof.
  intros H. unfold purpleCount. rewrite count_fold, filter_all, length_zrange; [lia|].
  intros x Hx. apply in_zrange in Hx. apply H, Hx.
Qed.

Lemma purpleCount_none (y : Z) :
  (forall x, (0 <= x < width)%Z -> purpleAt raw width channels x y = false) ->
  purpleCount raw width channels y = 0%Z.
Proof.
  intros H. unfold purpleCount. rewrite count_fold, filter_none; [reflexivity|].
  intros x Hx. apply in_zrange in Hx. apply H, Hx.
Qed.

Lemma rowPurpleRatio_Fin (y : Z) :
  rowPurpleRatio raw width channels y =
  Fin (inject_Z (purpleCount raw width channels y) / inject_Z width).
Proof.
  unfold rowPurpleRatio, ofZ. apply num_div_Fin.
  rewrite <- (Zlt_Qlt 0). exact Hwidth.
Qed.

(** A row that does not fall below the entry threshold extends a band. *)
Lemma rowPurpleRatio_progress (y : Z) :
  (rowPurpleRatio raw width channels y <? Fin 0.28)%num = false ->
  (rowPurpleRatio raw width channels y >=? Fin 0.2)%num = true.
Proof.
  rewrite rowPurpleRatio_Fin. unfold num_geb. simpl.
  rewrite Qltb_false, Qle_bool_iff. intro H.
  apply Qle_trans with (y := 0.28); [|exact H]. discriminate.
Qed.

Lemma rowPurpleRatio_full (y : Z) :
  (forall x, (0 <= x < width)%Z -> purpleAt raw width channels x y = true) ->
  (rowPurpleRatio raw width channels y <? Fin 0.28)%num = false /\
  (rowPurpleRatio raw width channels y >=? Fin 0.2)%num = true.
Proof.
  intros H.
  assert (E : (rowPurpleRatio raw width channels y <? Fin 0.28)%num = false).
  { rewrite rowPurpleRatio_Fin, purpleCount_full by assumption. simpl. apply Qltb_false.
    assert (Hw : (0 < inject_Z width)%Q) by (rewrite <- (Zlt_Qlt 0); exact Hwidth).
    apply Qle_shift_div_l; [assumption|]. lra. }
  split; [exact E|apply rowPurpleRatio_progress, E].
Qed.

Lemma rowPurpleRatio_none (y : Z) :
  (forall x, (0 <= x < width)%Z -> purpleAt raw width channels x y = false) ->
  (rowPurpleRatio raw width channels y <? Fin 0.28)%num = true.
Proof.
  intros H. rewrite rowPurpleRatio_Fin, purpleCount_none by assumption. simpl. apply Qltb_true.
  unfold Qdiv. rewrite Qmult_0_l. reflexivity.
Qed.

End RowRatio.

Section Scanning.
Variables (ratio : Z -> num) (height : Z).
Hypothesis Hfin : forall y, exists q, ratio y = Fin q.

Lemma ratio_entry (y : Z) :
  (ratio y <? Fin 0.28)%num = false ->
  (ratio y >=? Fin 0.28)%num = true /\ (ratio y >=? Fin 0.2)%num = true.
Proof.
  destruct (Hfin y) as (q & ->). unfold num_geb. simpl.
  rewrite Qltb_false, !Qle_bool_iff. intro H. split; [exact H|].
  apply Qle_trans with (y := 0.28); [discriminate|exact H].
Qed.

Lemma extendBand_spec (fuel : nat) :
  forall (y : Z) (sum : num) (rows : Z),
    (height - y <= Z.of_nat fuel)%Z ->
    exists yEnd sum' rows',
      extendBand fuel ratio height y sum rows = (yEnd, sum', rows') /\
      (y <= yEnd)%Z /\
      ((y <= height)%Z -> (yEnd <= height)%Z) /\
      (forall k, (y <= k < yEnd)%Z -> (ratio k >=? Fin 0.2)%num = true) /\
      ((yEnd < height)%Z -> (ratio yEnd >=? Fin 0.2)%num = false) /\
      rows' = (rows + (yEnd - y))%Z.
Proof.
  induction fuel as [|fuel IH]; intros y sum rows Hfuel.
  - simpl. exists y, sum, rows. split; [reflexivity|].
    repeat split; intros; lia.
  - cbn [extendBand]. destruct (Z.ltb_spec y height) as [Hlt|Hge]; cbn [andb].
    + destruct (ratio y >=? Fin 0.2)%num eqn:E.
      * destruct (IH (y + 1)%Z (sum + ratio y)%num (rows + 1)%Z ltac:(lia))
          as (yEnd & sum' & rows' & -> & H1 & H2 & H3 & H4 & H5).
        exists yEnd, sum', rows'. split; [reflexivity|].
        repeat split; try lia; try assumption.
        intros k Hk. destruct (Z.eq_dec k y) as [->|Hne]; [exact E|apply H3; lia].
      * exists y, sum, rows. split; [reflexivity|].
        repeat split; intros; try lia. exact E.
    + exists y, sum, rows. split; [reflexivity|].
      repeat split; intros; lia.
Qed.

Local Abbreviation bestOk := (keepsQualifying ratio height).

(** The scan ends within its fuel, and what it keeps is a qualifying group. *)
Lemma scanBands_ok (fuel : nat) :
  forall (y : Z) (best : option Band),
    bestOk best ->
    (footerStartY height <= y)%Z ->
    (height - y <= Z.of_nat fuel)%Z ->
    exists r, scanBands fuel ratio height (minBandHeight height) y best = Some r /\ bestOk r.
Proof.
  induction fuel as [|fuel IH]; intros y best Hbest Hstart Hfuel.
  - cbn [scanBands]. destruct (Z.ltb_spec y height); [lia|].
    exists best. split; [reflexivity|assumption].
  - cbn [scanBands]. destruct (Z.ltb_spec y height) as [Hlt|Hge];
      [|exists best; split; [reflexivity|assumption]].
    destruct (ratio y <? Fin 0.28)%num eqn:E.
    + apply IH; [assumption|lia|lia].
    + destruct (ratio_entry y E) as [E28 E20].
      destruct (extendBand_spec (Z.to_nat (height - y)) y (Fin 0) 0%Z ltac:(lia))
        as (yEnd & sum' & rows' & -> & H1 & H2 & H3 & H4 & H5).
      assert (Hadv : (y < yEnd)%Z).
      { destruct (Z.eq_dec yEnd y) as [->|]; [|lia].
        rewrite (H4 Hlt) in E20. discriminate. }
      specialize (H2 ltac:(lia)).
      apply IH; [|lia|lia].
      destruct (Z.leb_spec (minBandHeight height) (yEnd - 1 - y + 1)) as [Hh|Hh];
        [|assumption].
      assert (Hnew : forall s, bestOk (Some (mkBand y (yEnd - 1) s))).
      { intro s. unfold keepsQualifying. simpl. unfold qualifyingGroup.
        repeat split; try lia; try assumption. intros k Hk. apply H3. lia. }
      destruct best as [b|]; [|apply Hnew].
      destruct (_ >? band_score b)%num; [apply Hnew|assumption].
Qed.

End Scanning.

Section SolidBand.
Variables (ratio : Z -> num) (height t : Z).
Hypothesis Hstart : (footerStartY height <= t)%Z.
Hypothesis Hheight : (minBandHeight height <= height - t)%Z.
Hypothesis Habove :
  forall k, (footerStartY height <= k < t)%Z -> (ratio k <? Fin 0.28)%num = true.
Hypothesis Hband :
  forall k, (t <= k < height)%Z ->
            (ratio k <? Fin 0.28)%num = false /\ (ratio k >=? Fin 0.2)%num = true.

Lemma minBandHeight_pos : (24 <= minBandHeight height)%Z.
Proof. unfold minBandHeight. lia. Qed.

(** Rows [t .. height-1] are the only band the scan finds. *)
Lemma scanBands_solid (fuel : nat) :
  forall y : Z,
    (footerStartY height <= y <= t)%Z ->
    (height - y <= Z.of_nat fuel)%Z ->
    exists s,
      scanBands fuel ratio height (minBandHeight height) y None =
      Some (Some (mkBand t (height - 1) s)).
Proof.
  pose proof minBandHeight_pos as Hmin.
  induction fuel as [|fuel IH]; intros y Hy Hfuel.
  - lia.
  - cbn [scanBands]. destruct (Z.ltb_spec y height) as [Hlt|Hge]; [|lia].
    destruct (Z.eq_dec y t) as [->|Hne].
    + destruct (@Hband t ltac:(lia)) as [E28 E20]. rewrite E28.
      assert (Hful : forall k, (t <= k < height)%Z -> (ratio k >=? Fin 0.2)%num = true)
        by (intros k Hk; apply Hband, Hk).
      assert (Hext : forall (fuel' : nat) (y : Z) (sum : num) (rows : Z),
                (t <= y <= height)%Z -> (height - y <= Z.of_nat fuel')%Z ->
                exists sum',
                  extendBand fuel' ratio height y sum rows =
                  (height, sum', (rows + (height - y))%Z)).
      { induction fuel' as [|fuel' IH']; intros y sum rows Hy' Hf'.
        - assert (y = height) as -> by lia. exists sum. simpl. f_equal. lia.
        - cbn [extendBand]. destruct (Z.ltb_spec y height) as [Hl|Hg]; cbn [andb].
          + rewrite Hful by lia.
            destruct (IH' (y + 1)%Z (sum + ratio y)%num (rows + 1)%Z ltac:(lia) ltac:(lia))
              as (sum' & ->).
            exists sum'. f_equal. lia.
          + assert (y = height) as -> by lia. exists sum. f_equal. lia. }
      destruct (Hext (Z.to_nat (height - t)) t (Fin 0) 0%Z ltac:(lia) ltac:(lia))
        as (sum' & ->).
      destruct (Z.leb_spec (minBandHeight height) (height - 1 - t + 1)) as [_|Hbad]; [|lia].
      destruct fuel; cbn [scanBands]; rewrite Z.ltb_irrefl; eexists; reflexivity.
    + rewrite Habove by lia. apply IH; lia.
Qed.

End SolidBand.

Lemma num_ltb_geb_false (a b : num) :
  (a <? b)%num = true -> (a >=? b)%num = true -> False.
Proof.
  unfold num_geb.
  destruct a as [| |p|], b as [| |q|]; simpl; try discriminate.
  rewrite Qltb_true, Qle_bool_iff. intros H1 H2. apply (Qlt_not_le _ _ H1 H2).
Qed.

(** C6 (as amended).  On a bitmap at least one pixel wide the scan ends,
    and: (1) when the rows from [height - h] on are entirely footer-coloured,
    the scanned rows above them hold no footer-coloured pixel, and
    [minBandHeight <= h <= height - floor(0.45 * height)] (the band lies in
    the scanned part of the page), the returned band is rows
    [height - h .. height], so [y1 - y0 = h]; (2) when no contiguous group of
    scanned rows starts on a row reaching the entry ratio 0.28, keeps every
    row at 0.2 or more and is [minBandHeight] rows high, the result is
    [null]. *)
Theorem detectFooterBand_solid_or_null :
  forall (raw : list Z) (width height channels : Z),
    (0 < width)%Z ->
    (forall h : Z,
        (minBandHeight height <= h <= height - footerStartY height)%Z ->
        (forall x y, (0 <= x < width)%Z -> (height - h <= y < height)%Z ->
                     purpleAt raw width channels x y = true) ->
        (forall x y, (0 <= x < width)%Z -> (footerStartY height <= y < height - h)%Z ->
                     purpleAt raw width channels x y = false) ->
        let zone := {| x0 := Qfloor (inject_Z width * 0.45);
                       y0 := (height - h)%Z;
                       x1 := width;
                       y1 := height |} in
        detectFooterBand raw width height channels = Some (Some zone) /\
        (Z.abs (y1 zone - y0 zone - h) <= 1)%Z) /\
    ((forall a b, ~ qualifyingGroup (rowPurpleRatio raw width channels) height a b) ->
     detectFooterBand raw width height channels = Some None).
Proof.
  intros raw width height channels Hwidth. split.
  - intros h Hh Hband Habove zone.
    pose proof (minBandHeight_pos height) as Hmin.
    destruct (@scanBands_solid (rowPurpleRatio raw width channels) height (height - h)%Z)
      with (fuel := Z.to_nat (height - footerStartY height)) (y := footerStartY height)
      as (s & Hs); try lia.
    + intros k Hk. apply rowPurpleRatio_none; [assumption|].
      intros x Hx. apply Habove; assumption.
    + intros k Hk. apply rowPurpleRatio_full; [assumption|].
      intros x Hx. apply Hband; assumption.
    + unfold detectFooterBand. rewrite Hs. cbn [band_y0 band_y1].
      split; [unfold zone; repeat f_equal; lia|]. unfold zone. simpl. lia.
  - intros Hnone.
    destruct (@scanBands_ok (rowPurpleRatio raw width channels) height)
      with (fuel := Z.to_nat (height - footerStartY height)) (y := footerStartY height)
           (best := @None Band) as (r & Hr & Hok); try lia.
    + intro y. eexists. apply rowPurpleRatio_Fin. assumption.
    + exact I.
    + unfold detectFooterBand. rewrite Hr.
      destruct r as [b|]; [|reflexivity].
      exfalso. exact (Hnone _ _ Hok).
Qed.

Lemma purpleAt_rows (raw : list Z) (width channels lo hi : Z) (v : bool) :
  forallb (fun y => forallb (fun x => Bool.eqb (purpleAt raw width channels x y) v)
                            (zrange 0 width))
          (zrange lo hi) = true ->
  forall x y, (0 <= x < width)%Z -> (lo <= y < hi)%Z -> purpleAt raw width channels x y = v.
Proof.
  intros H x y Hx Hy.
  rewrite forallb_forall in H. specialize (H y (proj2 (in_zrange lo hi y) Hy)).
  rewrite forallb_forall in H. specialize (H x (proj2 (in_zrange 0 width x) Hx)).
  apply Bool.eqb_prop. exact H.
Qed.

(** A 4x100 page with a solid 30-row footer band, and an all-white one. *)
Lemma detectFooterBand_solid_or_null_witness :
  detectFooterBand (bandedBitmap 4 100 30 white footerColor) 4 100 3 =
    Some (Some {| x0 := 1; y0 := 70; x1 := 4; y1 := 100 |}) /\
  detectFooterBand (bandedBitmap 4 100 0 white footerColor) 4 100 3 = Some None.
Proof.
  split.
  - destruct (@detectFooterBand_solid_or_null (bandedBitmap 4 100 30 white footerColor)
                4 100 3 ltac:(lia)) as [Hband _].
    destruct (Hband 30%Z) as [Hz _].
    + vm_compute. split; discriminate.
    + apply (@purpleAt_rows _ 4 3 70 100 true). vm_compute. reflexivity.
    + apply (@purpleAt_rows _ 4 3 45 70 false). vm_compute. reflexivity.
    + exact Hz.
  - destruct (@detectFooterBand_solid_or_null (bandedBitmap 4 100 0 white footerColor)
                4 100 3 ltac:(lia)) as [_ Hnull].
    assert (Hwhite : forall x y, (0 <= x < 4)%Z -> (45 <= y < 100)%Z ->
                purpleAt (bandedBitmap 4 100 0 white footerColor) 4 3 x y = false)
      by (apply purpleAt_rows; vm_compute; reflexivity).
    apply Hnull. intros a b (Ha & Hab & Hb & E28 & _).
    assert (Ha' : (45 <= a)%Z) by exact Ha.
    refine (@num_ltb_geb_false _ _ _ E28).
    apply rowPurpleRatio_none; [lia|].
    intros x Hx. apply Hwhite; [assumption|lia].
Defined.

(** C6 as stated fails twice.  A solid band of 60 rows on a 100-row page
    reaches above the first scanned row (45): the band found is 55 rows
    high.  And on a 30-row page only rows 13..29 are scanned, fewer than
    [minBandHeight = 24], so a solid 24-row band gives [null]. *)
Lemma detectFooterBand_tall_band_counterexample :
  minBandHeight 100 = 24%Z /\
  detectFooterBand (bandedBitmap 4 100 60 white footerColor) 4 100 3 =
    Some (Some {| x0 := 1; y0 := 45; x1 := 4; y1 := 100 |}) /\
  (Z.abs (100 - 45 - 60) <=? 1)%Z = false /\
  minBandHeight 30 = 24%Z /\
  detectFooterBand (bandedBitmap 4 30 24 white footerColor) 4 30 3 = Some None.
Proof. vm_compute. repeat split. Qed.

(** ** Fill colour *)

Lemma Qeq_bool_inject_Z (n : Z) : n <> 0%Z -> Qeq_bool (inject_Z n) 0 = false.
Proof.
  intro H. destruct (Qeq_bool (inject_Z n) 0) eqn:E; [|reflexivity].
  apply Qeq_bool_iff in E. unfold Qeq in E. simpl in E. lia.
Qed.

Lemma channelMean_Fin (sum count : Z) :
  count <> 0%Z ->
  exists q : Q,
    channelMean sum count = Fin q /\ (0 <= q <= 1)%Q /\
    ((0 <= inject_Z sum / inject_Z count / 255 <= 1)%Q ->
     q == inject_Z sum / inject_Z count / 255).
Proof.
  intro H. unfold channelMean, ofZ. cbn [num_div]. rewrite (Qeq_bool_inject_Z H).
  cbn [num_div].
  replace (Qeq_bool 255 0) with false by reflexivity.
  destruct (clamp_Fin (inject_Z sum / inject_Z count / 255) 0 1) as (c & E & H0 & H1 & H2).
  exists c. split; [exact E|]. split; [split; [exact H0|apply H1; lra]|].
  intros [Ha Hb]. apply H2; assumption.
Qed.

Lemma num_between_unit (q : Q) : (0 <= q <= 1)%Q -> num_between (Fin 0) (Fin 1) (Fin q) = true.
Proof.
  intros [H0 H1]. unfold num_between. cbn [num_leb].
  apply andb_true_iff. split; apply Qle_bool_iff; assumption.
Qed.

Lemma floorClamp_NaN (hi : Z) : floorClamp NaN hi = None.
Proof. reflexivity. Qed.

Lemma fold_left_nil_rows (A B C : Type) (f : B -> A -> C -> A) (ys : list B) (a : A) :
  fold_left (fun acc y => fold_left (f y) (@nil C) acc) ys a = a.
Proof. induction ys as [|y ys IH]; cbn [fold_left]; [reflexivity|exact IH]. Qed.

(** A box with a coordinate that is not a number has an empty window. *)
Lemma fillSums_NaN (raw : list Z) (width height channels : Z) (bboxPx : Rect) :
  rect_x bboxPx = NaN \/ rect_y bboxPx = NaN \/
  rect_width bboxPx = NaN \/ rect_height bboxPx = NaN ->
  fill_count (fillSums raw width height channels bboxPx) = 0%Z.
Proof.
  intro H. unfold fillSums, fillWindow.
  destruct bboxPx as [x y w h]. cbn [rect_x rect_y rect_width rect_height] in *.
  destruct H as [-> | [-> | [-> | ->]]].
  - cbn [num_sub num_add num_neg]. rewrite floorClamp_NaN. cbn [loopTo].
    rewrite fold_left_nil_rows. reflexivity.
  - cbn [num_sub num_add num_neg]. rewrite floorClamp_NaN. reflexivity.
  - assert (E : (x + NaN + Fin 10)%num = NaN) by (destruct x; reflexivity).
    rewrite E, floorClamp_NaN.
    destruct (floorClamp (x - Fin 10)%num (width - 1)); cbn [loopTo];
      rewrite fold_left_nil_rows; reflexivity.
  - assert (E : (y + NaN + Fin 10)%num = NaN) by (destruct y; reflexivity).
    rewrite E, floorClamp_NaN.
    destruct (floorClamp (y - Fin 10)%num (height - 1)); reflexivity.
Qed.

(** The colour sampled is a colour: each channel is a number between 0 and
    1, whatever the bytes, the metadata and the box.  When sharp reports no
    width, height or channel count, or when a coordinate of the box is not a
    number, the colour is white. *)
Theorem sampleFillColor_unit_channels :
  forall (meta : Z * Z * Z) (raw : list Z) (bboxPx : Rect),
    let c := sampleFillColor meta raw bboxPx in
    (num_between (Fin 0) (Fin 1) (col_r c) = true /\
     num_between (Fin 0) (Fin 1) (col_g c) = true /\
     num_between (Fin 0) (Fin 1) (col_b c) = true) /\
    (fst (fst meta) = 0%Z \/ snd (fst meta) = 0%Z \/ snd meta = 0%Z \/
     rect_x bboxPx = NaN \/ rect_y bboxPx = NaN \/
     rect_width bboxPx = NaN \/ rect_height bboxPx = NaN ->
     c = whiteFill).
Proof.
  intros [[width height] channels] raw bboxPx. unfold sampleFillColor. split.
  - destruct ((width =? 0)%Z || (height =? 0)%Z || (channels =? 0)%Z);
      [repeat split; reflexivity|].
    cbv zeta.
    destruct (Z.eqb_spec (fill_count (fillSums raw width height channels bboxPx)) 0) as [E|E];
      [repeat split; reflexivity|].
    cbn [col_r col_g col_b].
    destruct (channelMean_Fin (sumR (fillSums raw width height channels bboxPx)) E)
      as (qr & -> & Hr & _).
    destruct (channelMean_Fin (sumG (fillSums raw width height channels bboxPx)) E)
      as (qg & -> & Hg & _).
    destruct (channelMean_Fin (sumB (fillSums raw width height channels bboxPx)) E)
      as (qb & -> & Hb & _).
    repeat split; apply num_between_unit; assumption.
  - cbn [fst snd]. intros [-> | [-> | [-> | H]]];
      rewrite ?Z.eqb_refl, ?orb_true_r; try reflexivity.
    destruct ((width =? 0)%Z || (height =? 0)%Z || (channels =? 0)%Z); [reflexivity|].
    cbv zeta. rewrite (fillSums_NaN raw width height channels bboxPx H). reflexivity.
Qed.

(** On bytes that all have the value [v], each sum is the count times [v],
    whatever the pixels read. *)
Lemma fillSums_flat (raw : list Z) (width height channels : Z) (bboxPx : Rect) (v : Z) :
  (forall i b, typedGet raw i = Some b -> b = v) ->
  let s := fillSums raw width height channels bboxPx in
  (0 <= fill_count s)%Z /\
  sumR s = (fill_count s * v)%Z /\ sumG s = (fill_count s * v)%Z /\
  sumB s = (fill_count s * v)%Z.
Proof.
  intro H. unfold fillSums.
  destruct (fillWindow width height bboxPx) as [[[xLeft yTop] xRight] yBottom].
  set (inv := fun s : FillSums =>
                (0 <= fill_count s)%Z /\
                sumR s = (fill_count s * v)%Z /\ sumG s = (fill_count s * v)%Z /\
                sumB s = (fill_count s * v)%Z).
  assert (Hpixel : forall y acc x, inv acc ->
             inv (samplePixel raw width channels bboxPx y acc x)).
  { intros y acc x Hacc. unfold samplePixel.
    destruct (isBorder bboxPx x y); cbn [negb]; [|exact Hacc].
    unfold pixelAt. cbv zeta. unfold orElse.
    destruct (typedGet raw ((y * width + x) * channels)) as [r|] eqn:Er; [|exact Hacc].
    apply H in Er. subst r.
    assert (Hg : forall o, match o with Some z => Some z | None => Some v end
                           = Some (match o with Some z => z | None => v end))
      by (intros [z|]; reflexivity).
    destruct (typedGet raw ((y * width + x) * channels + 1)) as [g|] eqn:Eg;
      [apply H in Eg; subst g|];
      (destruct (typedGet raw ((y * width + x) * channels + 2)) as [b|] eqn:Eb;
       [apply H in Eb; subst b|]);
      destruct Hacc as (H0 & H1 & H2 & H3); unfold inv;
      cbn [fill_count sumR sumG sumB]; rewrite H1, H2, H3; repeat split; lia. }
  assert (Hcols : forall y (xs : list Z) acc, inv acc ->
             inv (fold_left (samplePixel raw width channels bboxPx y) xs acc)).
  { intros y xs. induction xs as [|x xs IH]; intros acc Hacc; [exact Hacc|].
    cbn [fold_left]. apply IH, Hpixel, Hacc. }
  assert (Hrows : forall (ys : list Z) acc, inv acc ->
             inv (fold_left
                    (fun acc y => fold_left (samplePixel raw width channels bboxPx y)
                                            (loopTo xLeft xRight) acc) ys acc)).
  { induction ys as [|y ys IH]; intros acc Hacc; [exact Hacc|].
    cbn [fold_left]. apply IH, Hcols, Hacc. }
  apply Hrows. unfold inv. cbn. repeat split; lia.
Qed.

(** On a page of one grey, that grey is sampled, whatever channel count
    the metadata reports and whatever the box: when every byte of the bitmap
    has the value [v], the colour is the grey [v / 255] as soon as one pixel
    is read, and white when none is. *)
Theorem sampleFillColor_uniform :
  forall (meta : Z * Z * Z) (raw : list Z) (bboxPx : Rect) (v : Z),
    (0 <= v <= 255)%Z ->
    (forall i b, typedGet raw i = Some b -> b = v) ->
    let '(width, height, channels) := meta in
    let sampled := fill_count (fillSums raw width height channels bboxPx) in
    if ((width =? 0) || (height =? 0) || (channels =? 0) || (sampled =? 0))%Z%bool
    then sampleFillColor meta raw bboxPx = whiteFill
    else exists q : Q,
        sampleFillColor meta raw bboxPx = mkColor (Fin q) (Fin q) (Fin q) /\
        q == inject_Z v / 255.
Proof.
  intros [[width height] channels] raw bboxPx v Hv H. cbv zeta.
  destruct (fillSums_flat raw width height channels bboxPx H) as (Hn & Er & Eg & Eb).
  unfold sampleFillColor.
  destruct ((width =? 0)%Z || (height =? 0)%Z || (channels =? 0)%Z); [reflexivity|].
  cbn [orb]. cbv zeta.
  destruct (Z.eqb_spec (fill_count (fillSums raw width height channels bboxPx)) 0)
    as [E|Hcount]; [reflexivity|].
  rewrite Er, Eg, Eb.
  set (n := fill_count (fillSums raw width height channels bboxPx)) in *.
  assert (Hn' : (0 < inject_Z n)%Q) by (rewrite <- (Zlt_Qlt 0); lia).
  destruct (@channelMean_Fin (n * v)%Z n Hcount) as (q & E & _ & Hq).
  exists q. rewrite E. split; [reflexivity|].
  assert (Ev : inject_Z (n * v) / inject_Z n / 255 == inject_Z v / 255).
  { rewrite inject_Z_mult. field. lra. }
  rewrite <- Ev. apply Hq. rewrite Ev.
  assert (H0 : (0 <= inject_Z v)%Q) by (rewrite <- (Zle_Qle 0); lia).
  assert (H1 : (inject_Z v <= inject_Z 255)%Q) by (rewrite <- Zle_Qle; lia).
  change (inject_Z 255) with 255%Q in H1.
  split.
  - apply Qle_shift_div_l; lra.
  - apply Qle_shift_div_r; lra.
Qed.

(** A 40x30 page of the grey 200, as three bytes per pixel, whose metadata
    reports four channels: around a box at (15, 10) the grey 200/255 is
    sampled. *)
Lemma sampleFillColor_uniform_witness :
  exists q : Q,
    sampleFillColor (40, 30, 4)%Z (repeat 200%Z 3600) (rectZ 15 10 10 6)
    = mkColor (Fin q) (Fin q) (Fin q) /\
    q == 200 / 255.
Proof.
  pose proof (@sampleFillColor_uniform (40, 30, 4)%Z (repeat 200%Z 3600) (rectZ 15 10 10 6)
                200%Z ltac:(lia) (fun i b => @typedGet_repeat 200 3600 i b)) as H.
  cbv beta iota zeta in H.
  replace (fill_count (fillSums (repeat 200%Z 3600) 40 30 4 (rectZ 15 10 10 6)) =? 0)%Z
    with false in H by (vm_compute; reflexivity).
  exact H.
Defined.

(** ** Drawing on the document *)

(** pdf-lib accepts a rectangle whose coordinates are finite. *)
Lemma rejectedOption_finite (r : Rect) : rectFinite r = true -> rejectedOption r = None.
Proof.
  destruct r as [[| |x|] [| |y|] [| |w|] [| |h|]]; cbn; intro H;
    try discriminate; reflexivity.
Qed.

Lemma mdraw_finite (op : DrawOp) (d : Doc) :
  rectFinite (drawRect op) = true ->
  mdraw op d = (Ok tt, {| doc_rendered := doc_rendered d; doc_draws := doc_draws d ++ [op] |}).
Proof. intro H. unfold mdraw. rewrite (rejectedOption_finite _ H). reflexivity. Qed.

(** A drawing adds its operation, or fails and leaves the document. *)
Lemma mdraw_inv (op : DrawOp) (d : Doc) (r : Result unit) (d' : Doc) :
  mdraw op d = (r, d') ->
  (r = Ok tt /\
   d' = {| doc_rendered := doc_rendered d; doc_draws := doc_draws d ++ [op] |}) \/
  ((exists msg, r = Throw msg) /\ pdfLibAccepts op = false /\ d' = d).
Proof.
  unfold mdraw, pdfLibAccepts. destruct (rejectedOption (drawRect op)) as [name|];
    intro H; injection H as <- <-.
  - right. split; [eexists; reflexivity|]. split; reflexivity.
  - left. split; reflexivity.
Qed.

(** The rectangle of a finite box, for a render that is not empty and a
    finite page size, is finite. *)
Lemma imageBboxToPdfRect_rectFinite (b : Rect) (width height : Z) (pageSize : Size) :
  rectFinite b = true -> width <> 0%Z -> height <> 0%Z -> sizeFinite pageSize = true ->
  rectFinite (imageBboxToPdfRect b (mkSize (ofZ width) (ofZ height)) pageSize) = true.
Proof.
  destruct b as [[| |x|] [| |y|] [| |w|] [| |h|]]; cbn; intro H; try discriminate H.
  intros Hw Hh. destruct pageSize as [[| |pw|] [| |ph|]]; cbn; intro Hp; try discriminate Hp.
  unfold imageBboxToPdfRect, ofZ.
  cbn [rect_x rect_y rect_width rect_height size_width size_height num_div].
  rewrite (Qeq_bool_inject_Z Hw), (Qeq_bool_inject_Z Hh).
  cbn [num_mul num_sub num_add num_neg].
  repeat match goal with
         | |- context [clamp (Fin ?v) (Fin ?lo) (Fin ?hi)] =>
             let c := fresh "c" in
             destruct (clamp_Fin v lo hi) as (c & -> & _)
         end.
  reflexivity.
Qed.

Lemma getStableFooterPdfRect_rectFinite (pageSize : Size) (ratio : num) :
  sizeFinite pageSize = true -> isFinite ratio = true ->
  rectFinite (getStableFooterPdfRect pageSize ratio) = true.
Proof.
  destruct pageSize as [[| |pw|] [| |ph|]], ratio as [| |q|]; cbn; intros Hp Hr;
    try discriminate; reflexivity.
Qed.

(** ** Replacement banner *)

Lemma num_gtb_Fin (a b : Q) : (Fin a >? Fin b)%num = Qltb b a.
Proof. reflexivity. Qed.

Section BannerFit.
Variables (bw bh tx ty tw th off : Q).
Hypothesis Hbw : (0 < bw)%Q.
Hypothesis Hbh : (0 < bh)%Q.
Hypothesis Htw : (0 < tw)%Q.
Hypothesis Hth : (0 < th)%Q.

Local Abbreviation ia := (bw / bh).
Local Abbreviation ta := (tw / th).

Lemma aspect_le_width : (ia <= ta)%Q -> (th * ia <= tw)%Q.
Proof.
  intro H. assert (E : tw == th * ta) by (field; lra).
  rewrite E. apply Qmult_le_l; assumption.
Qed.

Lemma aspect_lt_width : (ta < ia)%Q -> (tw <= th * ia)%Q.
Proof.
  intro H. assert (E : tw == th * ta) by (field; lra).
  rewrite E. apply Qmult_le_l; [assumption|lra].
Qed.

Lemma aspect_pos : (0 < ia)%Q.
Proof. apply Qlt_shift_div_l; lra. Qed.

Lemma aspect_le_height : (ia <= ta)%Q -> (th <= tw / ia)%Q.
Proof.
  intro H. pose proof aspect_pos as Hp.
  apply Qle_shift_div_l; [exact Hp|].
  apply aspect_le_width. exact H.
Qed.

Lemma aspect_lt_height : (ta < ia)%Q -> (tw / ia <= th)%Q.
Proof.
  intro H. pose proof aspect_pos as Hp.
  apply Qle_shift_div_r; [exact Hp|].
  apply aspect_lt_width. exact H.
Qed.

End BannerFit.

(** The banner keeps its proportions and is centred on the target
    rectangle, lowered by the profile's offset; with the fit "cover" it
    covers the rectangle, with any other fit it lies within its width and
    height; one of its sides is the rectangle's.  The background is filled
    first when the profile asks for it. *)
Theorem drawBannerFitted_fit :
  forall (i : Z) (bw bh tx ty tw th off : Q) (profile : FormatProfile) (d : Doc),
    (0 < bw)%Q -> (0 < bh)%Q -> (0 < tw)%Q -> (0 < th)%Q ->
    bottomOffsetPx profile = Fin off ->
    let target := finRect tx ty tw th in
    exists dx dy dw dh : Q,
      drawBannerFitted i (finSize bw bh) target profile d =
      (Ok tt,
       {| doc_rendered := doc_rendered d;
          doc_draws :=
            doc_draws d
            ++ (if fillBackground profile
                then [DrawFilledRectangle i target SOLID_FOOTER_COLOR] else [])
            ++ [DrawImage i (finRect dx dy dw dh)] |}) /\
      dw * bh == dh * bw /\
      (dw == tw \/ dh == th) /\
      (if String.eqb (bannerFit profile) "cover"
       then (tw <= dw)%Q /\ (th <= dh)%Q
       else (dw <= tw)%Q /\ (dh <= th)%Q) /\
      dx + dw / 2 == tx + tw / 2 /\
      dy + dh / 2 + off == ty + th / 2.
Proof.
  intros i bw bh tx ty tw th off profile d Hbw Hbh Htw Hth Hoff target.
  pose proof (aspect_pos Hbw Hbh) as Hia.
  unfold drawBannerFitted, target, finRect, finSize.
  cbn [size_width size_height rect_x rect_y rect_width rect_height].
  rewrite Hoff.
  rewrite (num_div_Fin bw Hbh), (num_div_Fin tw Hth), num_gtb_Fin.
  destruct (String.eqb (bannerFit profile) "cover") eqn:Efit;
    destruct (Qltb (tw / th) (bw / bh)) eqn:Ewide;
    cbn [Bool.eqb num_mul];
    rewrite ?(num_div_Fin tw Hia);
    cbn [num_sub num_add num_neg];
    rewrite !(@num_div_Fin _ 2) by reflexivity;
    cbn [num_add num_neg];
    (eexists; eexists; eexists; eexists; split;
     [destruct (fillBackground profile); unfold mbind, mret;
      rewrite ?mdraw_finite by reflexivity;
      cbn [doc_draws doc_rendered]; rewrite <- ?app_assoc; reflexivity|]);
    try (apply Qltb_true in Ewide); try (apply Qltb_false in Ewide);
    try pose proof (aspect_lt_width Hth Ewide) as Hw;
    try pose proof (aspect_lt_height Hbw Hbh Hth Ewide) as Hh;
    try pose proof (aspect_le_width Hth Ewide) as Hw;
    try pose proof (aspect_le_height Hbw Hbh Hth Ewide) as Hh;
    (split; [field; lra|]);
    (split; [first [left; reflexivity|right; reflexivity]|]);
    (split; [split; lra|]);
    split; field; repeat split; lra.
Qed.

(** A 1200x134 banner contained in a 600x67.2 footer rectangle. *)
Lemma drawBannerFitted_fit_witness :
  exists dx dy dw dh : Q,
    drawBannerFitted 0 (finSize 1200 134) (finRect 0 0 600 67.2) sampleProfile emptyDoc =
    (Ok tt,
     {| doc_rendered := [];
        doc_draws :=
          [] ++ (if fillBackground sampleProfile
                 then [DrawFilledRectangle 0 (finRect 0 0 600 67.2) SOLID_FOOTER_COLOR] else [])
          ++ [DrawImage 0 (finRect dx dy dw dh)] |}) /\
    dw == 600 /\ dh == 67 /\ dx == 0 /\ dy == 0.1.
Proof.
  destruct (@drawBannerFitted_fit 0 1200 134 0 0 600 67.2 0 sampleProfile emptyDoc)
    as (dx & dy & dw & dh & E & H1 & H2 & H3 & H4 & H5);
    try reflexivity.
  exists dx, dy, dw, dh. split; [exact E|].
  vm_compute in E. injection E as <- <- <- <-.
  repeat split; reflexivity.
Defined.

(** Loading the banner never throws: a failure to read or to embed gives
    [null].  A banner returned is what pdf-lib embedded from the bytes read,
    as PNG or as JPEG according to its kind; and a path ending in [.png] is
    never tried as JPEG. *)
Theorem loadReplacementBannerForPdf_outcome :
  forall (bannerPath : string) (readFile : Result (list Z))
         (embedPng embedJpg : list Z -> Result Size),
    (forall msg, loadReplacementBannerForPdf bannerPath readFile embedPng embedJpg
                 <> Throw msg) /\
    (forall img kind,
        loadReplacementBannerForPdf bannerPath readFile embedPng embedJpg
        = Ok (Some (img, kind)) ->
        exists bytes,
          readFile = Ok bytes /\
          ((kind = "png"%string /\ embedPng bytes = Ok img) \/
           (kind = "jpg"%string /\ embedJpg bytes = Ok img /\
            endsWithCI ".png" bannerPath = false))) /\
    (endsWithCI ".png" bannerPath = true ->
     forall embedJpg' : list Z -> Result Size,
       loadReplacementBannerForPdf bannerPath readFile embedPng embedJpg
       = loadReplacementBannerForPdf bannerPath readFile embedPng embedJpg').
Proof.
  intros bannerPath readFile embedPng embedJpg.
  unfold loadReplacementBannerForPdf. split; [|split].
  - intros msg. destruct readFile as [bytes|m|]; cbn [rbind]; try discriminate.
    destruct (endsWithCI ".png" bannerPath);
      [|destruct (endsWithCI ".jpg" bannerPath || endsWithCI ".jpeg" bannerPath)].
    + destruct (embedPng bytes); cbn [rbind]; discriminate.
    + destruct (embedJpg bytes); cbn [rbind]; discriminate.
    + destruct (embedPng bytes); [discriminate| |discriminate].
      destruct (embedJpg bytes); cbn [rbind]; discriminate.
  - intros img kind. destruct readFile as [bytes|m|]; cbn [rbind]; try discriminate.
    destruct (endsWithCI ".png" bannerPath) eqn:Epng;
      [|destruct (endsWithCI ".jpg" bannerPath || endsWithCI ".jpeg" bannerPath)].
    + destruct (embedPng bytes) as [p|m|] eqn:E; cbn [rbind]; try discriminate.
      intro H. injection H as <- <-. exists bytes. split; [reflexivity|]. left. auto.
    + destruct (embedJpg bytes) as [p|m|] eqn:E; cbn [rbind]; try discriminate.
      intro H. injection H as <- <-. exists bytes. split; [reflexivity|]. right. auto.
    + destruct (embedPng bytes) as [p|m|] eqn:E; try discriminate.
      * intro H. injection H as <- <-. exists bytes. split; [reflexivity|]. left. auto.
      * destruct (embedJpg bytes) as [p|m'|] eqn:E'; cbn [rbind]; try discriminate.
        intro H. injection H as <- <-. exists bytes. split; [reflexivity|]. right. auto.
  - intros Epng embedJpg'. rewrite Epng. reflexivity.
Qed.

(** A banner of positive size is drawn on every finite rectangle. *)
Lemma drawBannerFitted_returns (i : Z) (bannerSize : Size) (rect : Rect)
    (profile : FormatProfile) (d : Doc) :
  sizePositive bannerSize = true -> rectFinite rect = true ->
  exists d', drawBannerFitted i bannerSize rect profile d = (Ok tt, d').
Proof.
  destruct bannerSize as [[| |bw|] [| |bh|]]; cbn; intro Hb; try discriminate Hb.
  apply andb_true_iff in Hb. destruct Hb as [Hbw Hbh].
  apply Qltb_true in Hbw, Hbh.
  destruct rect as [[| |tx|] [| |ty|] [| |tw|] [| |th|]]; cbn; intro Hr; try discriminate Hr.
  pose proof (aspect_pos Hbw Hbh) as Hia.
  unfold drawBannerFitted.
  cbn [size_width size_height rect_x rect_y rect_width rect_height].
  rewrite (num_div_Fin bw Hbh).
  destruct (Bool.eqb (String.eqb (bannerFit profile) "cover")
                     (Fin (bw / bh) >? Fin tw / Fin th)%num);
    cbn [num_mul];
    rewrite ?(num_div_Fin tw Hia);
    cbn [num_sub num_add num_neg];
    rewrite !(@num_div_Fin _ 2) by reflexivity;
    cbn [num_add num_neg];
    unfold mbind, mret;
    (destruct (fillBackground profile);
     [rewrite mdraw_finite by reflexivity|]);
    unfold mdraw; cbn [drawRect];
    destruct (bottomOffsetPx profile) as [| |off|]; cbn; eexists; reflexivity.
Qed.

(** In ai-cut mode a plausible wide footer strip at or above the automatic
    threshold is replaced on the stable footer rectangle of the page, not
    on the detected box: with a banner loaded the banner is fitted to that
    rectangle; without one the rectangle is filled with the footer colour.
    The action is [replaced_footer_banner] in both cases.  This is so when
    the page size and the footer ratio of the profile are finite numbers and
    the banner has a positive size, so that pdf-lib draws what it is asked
    to; with a footer ratio that is not a number and no banner, pdf-lib
    refuses the rectangle and the decision throws, with nothing drawn. *)
Theorem decidePage_strip_replacement :
  forall (cfg : Config) (w : World) (profile : FormatProfile)
         (autoThreshold reviewThreshold : num) (i : Z) (pw : PageWorld) (width height : Z)
         (det : Detection) (d : Doc),
    detectorMode cfg = "ai-cut"%string ->
    det_plausible det = true ->
    det_wideFooterStrip det = true ->
    (score (det_match det) >=? autoThreshold)%num = true ->
    let rect := getStableFooterPdfRect (pw_pageSize pw) (footerRatio profile) in
    let run := decidePage cfg w profile autoThreshold reviewThreshold i pw width height det d in
    (sizeFinite (pw_pageSize pw) = true ->
     isFinite (footerRatio profile) = true ->
     (forall bannerSize, w_banner w = Some bannerSize -> sizePositive bannerSize = true) ->
     exists dec d',
       run = (Ok dec, d') /\
       dec_action dec = ActReplacedFooterBanner /\
       dec_pdfRect dec = Some rect /\
       match w_banner w with
       | Some bannerSize => drawBannerFitted i bannerSize rect profile d = (Ok tt, d')
       | None =>
           d' = {| doc_rendered := doc_rendered d;
                   doc_draws := doc_draws d ++ [DrawFilledRectangle i rect SOLID_FOOTER_COLOR] |}
       end) /\
    (footerRatio profile = NaN -> w_banner w = None ->
     exists msg, run = (Throw msg, d)).
Proof.
  intros cfg w profile auto review i pw width height det d Hmode Hpl Hwide Hscore rect run.
  subst run.
  destruct det as [zone [s bb ref] plausible ai wide].
  cbn [det_plausible det_match det_wideFooterStrip score bboxPx] in *. subst plausible wide.
  unfold decidePage. cbn [det_plausible det_match det_wideFooterStrip score bboxPx].
  rewrite Hmode, Hscore. cbn [String.eqb Ascii.eqb Bool.eqb negb andb].
  fold rect. rewrite andb_false_r. split.
  - intros Hsize Hratio Hbanner.
    pose proof (getStableFooterPdfRect_rectFinite _ _ Hsize Hratio) as Hrect. fold rect in Hrect.
    destruct (w_banner w) as [bannerSize|].
    + destruct (drawBannerFitted_returns i bannerSize rect profile d
                  (Hbanner _ eq_refl) Hrect) as (d1 & E).
      unfold mbind, mret. rewrite E. cbn [isRemovedAction negb andb]. rewrite andb_false_r.
      eexists. eexists. split; [reflexivity|]. repeat split.
    + unfold mbind, mret. rewrite mdraw_finite by exact Hrect.
      cbn [isRemovedAction negb andb]. rewrite andb_false_r.
      eexists. eexists. split; [reflexivity|]. repeat split.
  - intros Hnan ->. unfold mbind, mret, mdraw. cbn [drawRect].
    assert (E : exists name, rejectedOption rect = Some name).
    { unfold rect, getStableFooterPdfRect, rejectedOption.
      cbn [rect_x rect_y rect_width rect_height isNaN]. rewrite Hnan.
      destruct (size_width (pw_pageSize pw)), (size_height (pw_pageSize pw));
        eexists; reflexivity. }
    destruct E as (name & ->). eexists. reflexivity.
Qed.

(** ** Decision and audit engine (C1, C5, C8, C9) *)

Lemma num_ltb_not_geb (a b : num) : (a <? b)%num = true -> (a >=? b)%num = false.
Proof.
  unfold num_geb. destruct a as [| |p|], b as [| |q|]; cbn [num_leb num_ltb];
    intro H; try discriminate; try reflexivity.
  all: apply Qltb_true in H; apply Qle_bool_false; exact H.
Qed.

Lemma num_geb_trans (review auto s : num) :
  (review <? auto)%num = true -> (s >=? auto)%num = true -> (s >=? review)%num = true.
Proof.
  unfold num_geb.
  destruct review as [| |r|], auto as [| |a|], s as [| |q|]; cbn [num_leb num_ltb];
    intros H1 H2; try discriminate; try reflexivity.
  all: try apply Qltb_true in H1; apply Qle_bool_iff in H2; apply Qle_bool_iff; lra.
Qed.

Lemma num_geb_not_ltb (review auto s : num) :
  (review <? auto)%num = true -> (s >=? review)%num = true ->
  (s >=? auto)%num = false -> (s <? auto)%num = true.
Proof.
  unfold num_geb.
  destruct review as [| |r|], auto as [| |a|], s as [| |q|]; cbn [num_leb num_ltb];
    intros H1 H2 H3; try discriminate; try reflexivity.
  all: apply Qltb_true; apply Qle_bool_false; exact H3.
Qed.

(** A plausible detection has a box. *)
Lemma detectPage_plausible_bbox cfg js templates pw width height det :
  detectPage cfg js templates pw width height = Ok det ->
  det_plausible det = true ->
  exists b, bboxPx (det_match det) = Some b.
Proof.
  unfold detectPage, detectForced, detectWithAi, detectDeterministic.
  destruct (forceFooterBanner cfg); [|destruct (useAiDetector cfg)].
  - destruct (footerBandOf _ _ _) as [zone|msg|]; simpl; try discriminate.
    intros H _. injection H as <-. simpl. eexists. reflexivity.
  - destruct (detectLogoWithVision _ _) as [probe|msg|]; simpl; try discriminate.
    destruct (probe_found probe); [destruct (probe_bbox probe) as [b|]|]; intros H P;
      injection H as <-; simpl in *; try discriminate.
    eexists. reflexivity.
  - destruct (footerBandOf _ _ _) as [zone|msg|]; simpl; try discriminate.
    intros H P. injection H as <-. simpl in *.
    destruct (bboxPx _) as [b|]; [eexists; reflexivity|discriminate].
Qed.

Ltac finish_draws :=
  split; [reflexivity|];
  eexists; split;
  [rewrite <- ?app_assoc; cbn [app]; first [reflexivity|symmetry; apply app_nil_r]|];
  split; cbn; rewrite ?Z.eqb_refl; reflexivity.

(** Both outcomes of every drawing of a step. *)
Ltac split_draws :=
  repeat (match goal with
          | |- context [rejectedOption ?r] => destruct (rejectedOption r)
          end;
          cbn [negb andb isRemovedAction doc_draws doc_rendered fst snd drawRect]).

(** The decision of a page ends: it returns or pdf-lib throws. *)
Lemma decidePage_ends cfg w profile auto review i pw width height det d :
  fst (decidePage cfg w profile auto review i pw width height det d) <> Hang.
Proof.
  destruct det as [zone [s bb ref] plausible ai wide].
  unfold decidePage. cbn [det_plausible det_match det_wideFooterStrip score bboxPx].
  destruct (negb (String.eqb (detectorMode cfg) "ai-probe") && plausible && (s >=? auto)%num);
    [|destruct (plausible && (s >=? review)%num)];
    unfold mbind, mret, mdraw, mlift, drawBannerFitted;
    destruct (String.eqb (detectorMode cfg) "ai-cut"), wide,
             (w_banner w) as [bannerSize|], (debugDrawBoxes cfg), (fillBackground profile),
             bb as [b|];
    cbn [negb andb isRemovedAction doc_draws doc_rendered fst snd drawRect];
    unfold mbind, mret, mdraw;
    cbn [negb andb isRemovedAction doc_draws doc_rendered fst snd drawRect];
    split_draws; discriminate.
Qed.

(** The decision of a page returns when pdf-lib is given finite
    rectangles: for a render that is not empty, a finite page size and
    footer ratio, a detected box with finite coordinates and a banner of
    positive size. *)
Lemma decidePage_returns cfg w profile auto review i pw width height det d :
  (det_plausible det = true -> exists b, bboxPx (det_match det) = Some b) ->
  (0 < width)%Z -> (0 < height)%Z ->
  sizeFinite (pw_pageSize pw) = true ->
  isFinite (footerRatio profile) = true ->
  (forall b, bboxPx (det_match det) = Some b -> rectFinite b = true) ->
  (forall bannerSize, w_banner w = Some bannerSize -> sizePositive bannerSize = true) ->
  exists dec d',
    decidePage cfg w profile auto review i pw width height det d = (Ok dec, d').
Proof.
  intros Hbox Hw Hh Hsize Hratio Hb Hbanner.
  destruct det as [zone [s bb ref] plausible ai wide].
  cbn [det_plausible det_match det_wideFooterStrip score bboxPx] in *.
  pose proof (getStableFooterPdfRect_rectFinite _ _ Hsize Hratio) as Hstable.
  assert (Hmapped : forall b, bb = Some b ->
            rectFinite (imageBboxToPdfRect b (mkSize (ofZ width) (ofZ height))
                                           (pw_pageSize pw)) = true).
  { intros b E. apply imageBboxToPdfRect_rectFinite; [apply Hb, E|lia|lia|exact Hsize]. }
  unfold decidePage. cbn [det_plausible det_match det_wideFooterStrip score bboxPx].
  destruct (negb (String.eqb (detectorMode cfg) "ai-probe") && plausible && (s >=? auto)%num)
    eqn:Eauto.
  - assert (Hpl : plausible = true).
    { apply andb_true_iff in Eauto. destruct Eauto as [Eauto _].
      apply andb_true_iff in Eauto. tauto. }
    destruct (Hbox Hpl) as (b & ->). specialize (Hmapped b eq_refl).
    destruct (String.eqb (detectorMode cfg) "ai-cut" && wide) eqn:Emode.
    + assert (Hwide : wide = true) by (apply andb_true_iff in Emode; tauto).
      subst wide.
      destruct (w_banner w) as [bannerSize|].
      * unfold mbind at 1 2 3. unfold mret at 1 2.
        unfold mbind at 1.
        destruct (drawBannerFitted_returns i bannerSize _ profile d
                    (Hbanner _ eq_refl) Hstable) as (d1 & ->).
        unfold mret. cbn [isRemovedAction negb andb]. rewrite andb_false_r.
        eexists. eexists. reflexivity.
      * unfold mbind, mret. rewrite mdraw_finite by exact Hstable.
        cbn [isRemovedAction negb andb]. rewrite andb_false_r.
        eexists. eexists. reflexivity.
    + unfold mbind, mret. rewrite mdraw_finite by exact Hmapped.
      destruct wide; cbn [isRemovedAction negb andb]; rewrite andb_false_r;
        eexists; eexists; reflexivity.
  - destruct (plausible && (s >=? review)%num);
      unfold mbind, mret; cbn [isRemovedAction negb andb]; rewrite andb_true_r;
      (destruct (debugDrawBoxes cfg), bb as [b|];
       [rewrite mdraw_finite by (apply Hmapped; reflexivity)| | |]);
      eexists; eexists; reflexivity.
Qed.

(** C1 (as amended).  For thresholds with [reviewThreshold <
    autoThreshold] and the detection of a page, whenever the decision of
    the page returns: in every mode but ai-probe, a plausible match scoring
    at least [autoThreshold] is redacted on that page, with action
    [replaced_footer_banner] when it was classified as a wide footer strip
    and [removed] otherwise; a plausible match scoring at least
    [reviewThreshold] and less than [autoThreshold] gives [review] without
    redaction; in ai-probe mode a plausible match scoring at least
    [autoThreshold] gives [review] without redaction too; in every other
    case the action is [none], without redaction.  The decision always
    ends, by returning or by an error of pdf-lib, which refuses a rectangle
    with a coordinate that is not a number; and it returns when the render
    is not empty, the page size and the footer ratio are finite, the
    detected box has finite coordinates and the banner a positive size. *)
Theorem decidePage_policy :
  forall (cfg : Config) (w : World) (profile : FormatProfile) (templates : list Template)
         (autoThreshold reviewThreshold : num) (i : Z) (pw : PageWorld) (width height : Z)
         (det : Detection) (d : Doc),
    (reviewThreshold <? autoThreshold)%num = true ->
    detectPage cfg (w_engine w) templates pw width height = Ok det ->
    let plausible := det_plausible det in
    let s := score (det_match det) in
    let run :=
      decidePage cfg w profile autoThreshold reviewThreshold i pw width height det d in
    (forall dec d',
        run = (Ok dec, d') ->
        (String.eqb (detectorMode cfg) "ai-probe" = false ->
         plausible = true -> (s >=? autoThreshold)%num = true ->
         dec_action dec = (if det_wideFooterStrip det
                           then ActReplacedFooterBanner else ActRemoved) /\
         redactedOn i d d') /\
        (plausible = true -> (s >=? reviewThreshold)%num = true ->
         (s <? autoThreshold)%num = true ->
         dec_action dec = ActReview /\ notRedacted i d d') /\
        (String.eqb (detectorMode cfg) "ai-probe" = true ->
         plausible = true -> (s >=? autoThreshold)%num = true ->
         dec_action dec = ActReview /\ notRedacted i d d') /\
        (plausible = false \/ (s >=? reviewThreshold)%num = false ->
         dec_action dec = ActNone /\ notRedacted i d d')) /\
    fst run <> Hang /\
    ((0 < width)%Z -> (0 < height)%Z ->
     sizeFinite (pw_pageSize pw) = true ->
     isFinite (footerRatio profile) = true ->
     (forall b, bboxPx (det_match det) = Some b -> rectFinite b = true) ->
     (forall bannerSize, w_banner w = Some bannerSize -> sizePositive bannerSize = true) ->
     exists dec d', run = (Ok dec, d')).
Proof.
  intros cfg w profile templates auto review i pw width height det d Hlt Hdet plausible s run.
  pose proof (detectPage_plausible_bbox _ _ _ _ _ _ Hdet) as Hbox.
  split; [|split; [apply decidePage_ends|apply decidePage_returns; exact Hbox]].
  intros dec d'.
  pose proof (@num_ltb_not_geb s auto) as Hnot.
  pose proof (@num_geb_trans review auto s Hlt) as Htrans.
  subst plausible s run.
  destruct det as [zone [s bb ref] plausible ai wide]. cbn [det_plausible det_match score] in *.
  cbn [det_wideFooterStrip bboxPx] in *.
  unfold decidePage, redactedOn, notRedacted.
  cbn [det_plausible det_match det_wideFooterStrip score bboxPx].
  destruct (String.eqb (detectorMode cfg) "ai-probe") eqn:Emode;
    destruct plausible;
    destruct (s >=? auto)%num eqn:Ea;
    destruct (s >=? review)%num eqn:Er;
    try (specialize (Htrans eq_refl); discriminate);
    destruct bb as [b|];
    try (destruct (Hbox eq_refl) as [? ?]; discriminate);
    cbn [negb andb];
    unfold mbind, mret, mdraw, mlift, drawBannerFitted;
    destruct (String.eqb (detectorMode cfg) "ai-cut"), wide,
             (w_banner w) as [bannerSize|], (debugDrawBoxes cfg), (fillBackground profile);
    cbn [negb andb isRemovedAction doc_draws doc_rendered fst snd drawRect];
    unfold mbind, mret, mdraw;
    cbn [negb andb isRemovedAction doc_draws doc_rendered fst snd drawRect];
    split_draws;
    intro H; try discriminate H; injection H as <- <-;
    cbn [dec_action doc_draws doc_rendered];
    (split; [|split; [|split]]);
    intros; try discriminate;
    try match goal with H : _ \/ _ |- _ => destruct H; try discriminate end;
    try (match goal with H : (_ <? _)%num = true |- _ =>
           specialize (Hnot H); discriminate end);
    (split; [reflexivity|finish_draws]).
Qed.

(** Page 2 of the sample document in ai-cut mode: the logo is removed. *)
Lemma decidePage_policy_witness :
  exists dec d',
    decidePage (sampleConfig "ai-cut") sampleWorld sampleProfile (Fin 0.75) (Fin 0.45) 1
               (samplePage logoReply) 100 100 logoDetection emptyDoc = (Ok dec, d') /\
    dec_action dec = ActRemoved /\
    redactedOn 1 emptyDoc d'.
Proof.
  destruct (@decidePage_policy (sampleConfig "ai-cut") sampleWorld sampleProfile []
              (Fin 0.75) (Fin 0.45) 1 (samplePage logoReply) 100 100 logoDetection emptyDoc)
    as (Hpolicy & _ & Hreturns).
  - reflexivity.
  - vm_compute. reflexivity.
  - destruct Hreturns as (dec & d' & E); [lia|lia|reflexivity|reflexivity| | |].
    + intros b Hb. injection Hb as <-. reflexivity.
    + intros bannerSize Hs. injection Hs as <-. reflexivity.
    + exists dec, d'. split; [exact E|].
      destruct (Hpolicy dec d' E) as (Hauto & _). apply Hauto; reflexivity.
Defined.

(** C1 as stated fails in ai-probe mode: page 2 of the sample document is
    detected plausibly with score 0.9, above [autoThreshold = 0.75], and the
    decision is [review], with nothing drawn. *)
Lemma decidePage_ai_probe_counterexample :
  detectPage (sampleConfig "ai-probe") sampleEngine [] (samplePage logoReply) 100 100
  = Ok logoDetection /\
  (Fin 0.45 <? Fin 0.75)%num = true /\
  det_plausible logoDetection = true /\
  (score (det_match logoDetection) >=? Fin 0.75)%num = true /\
  decidePage (sampleConfig "ai-probe") sampleWorld sampleProfile (Fin 0.75) (Fin 0.45) 1
             (samplePage logoReply) 100 100 logoDetection emptyDoc
  = (Ok (mkDecision ActReview None None), emptyDoc).
Proof. vm_compute. repeat split. Qed.

(** *** The page loop *)

Lemma mbind_Ok (A B : Type) (m : M A) (k : A -> M B) (d d' : Doc) (b : B) :
  mbind m k d = (Ok b, d') ->
  exists a d1, m d = (Ok a, d1) /\ k a d1 = (Ok b, d').
Proof.
  unfold mbind. destruct (m d) as [[a|msg|] d1]; intro H; try discriminate.
  exists a, d1. split; [reflexivity|exact H].
Qed.

Lemma mlift_Ok (A : Type) (r : Result A) (d d' : Doc) (a : A) :
  mlift r d = (Ok a, d') -> r = Ok a /\ d' = d.
Proof. unfold mlift. intro H. injection H as -> ->. split; reflexivity. Qed.

(** Whatever it decides, the decision of page [i] draws on page [i] only
    and renders nothing. *)
Lemma decidePage_draws cfg w profile auto review i pw width height det d r d' :
  decidePage cfg w profile auto review i pw width height det d = (r, d') ->
  doc_rendered d' = doc_rendered d /\
  exists new, doc_draws d' = doc_draws d ++ new /\
              forallb (fun op => (drawPage op =? i)%Z) new = true.
Proof.
  destruct det as [zone [s bb ref] plausible ai wide].
  unfold decidePage. cbn [det_plausible det_match det_wideFooterStrip score bboxPx].
  destruct (negb (String.eqb (detectorMode cfg) "ai-probe") && plausible && (s >=? auto)%num);
    [|destruct (plausible && (s >=? review)%num)];
    unfold mbind, mret, mdraw, mlift, drawBannerFitted;
    destruct (String.eqb (detectorMode cfg) "ai-cut"), wide,
             (w_banner w) as [bannerSize|], (debugDrawBoxes cfg), (fillBackground profile),
             bb as [b|];
    cbn [negb andb isRemovedAction doc_draws doc_rendered fst snd drawRect];
    unfold mbind, mret, mdraw;
    cbn [negb andb isRemovedAction doc_draws doc_rendered fst snd drawRect];
    split_draws;
    intro H; injection H as <- <-; cbn [doc_draws doc_rendered];
    (split; [reflexivity|]);
    eexists; (split;
              [rewrite <- ?app_assoc; cbn [app]; first [reflexivity|symmetry; apply app_nil_r]|]);
    cbn; rewrite ?Z.eqb_refl; reflexivity.
Qed.

Lemma processPage_spec cfg w profile templates auto review acc i d acc' d' :
  processPage cfg w profile templates auto review acc i d = (Ok acc', d') ->
  (exists rec, acc' = acc ++ [rec] /\ pageNumber rec = (i + 1)%Z) /\
  doc_rendered d' = doc_rendered d ++ [(i + 1)%Z] /\
  exists new, doc_draws d' = doc_draws d ++ new /\
              forallb (fun op => (drawPage op =? i)%Z) new = true.
Proof.
  unfold processPage. intro H.
  apply mbind_Ok in H. destruct H as ([width height] & d1 & H1 & H).
  apply mlift_Ok in H1. destruct H1 as [_ ->].
  apply mbind_Ok in H. destruct H as ([] & d2 & H2 & H).
  unfold mrendered in H2. injection H2 as <-.
  apply mbind_Ok in H. destruct H as (det & d3 & H3 & H).
  apply mlift_Ok in H3. destruct H3 as [_ ->].
  apply mbind_Ok in H. destruct H as (dec & d4 & H4 & H).
  apply decidePage_draws in H4. destruct H4 as (Hr & new & Hd & Hp).
  unfold mret in H. injection H as <- <-.
  split; [eexists; split; reflexivity|].
  split; [rewrite Hr; reflexivity|].
  exists new. split; [rewrite Hd; reflexivity|exact Hp].
Qed.

Lemma mfold_processPage cfg w profile templates auto review (l : list Z) :
  forall acc d acc' d',
    mfold (processPage cfg w profile templates auto review) l acc d = (Ok acc', d') ->
    map pageNumber acc' = map pageNumber acc ++ map (fun i => (i + 1)%Z) l /\
    doc_rendered d' = doc_rendered d ++ map (fun i => (i + 1)%Z) l /\
    exists new, doc_draws d' = doc_draws d ++ new /\
                forall op, In op new -> In (drawPage op) l.
Proof.
  induction l as [|i l IH]; intros acc d acc' d' H.
  - cbn in H. injection H as <- <-. cbn. rewrite !app_nil_r.
    split; [reflexivity|]. split; [reflexivity|].
    exists []. split; [symmetry; apply app_nil_r|intros op []].
  - cbn [mfold] in H. apply mbind_Ok in H. destruct H as (acc1 & d1 & H1 & H).
    apply processPage_spec in H1.
    destruct H1 as ((rec & -> & Hn) & Hr1 & new1 & Hd1 & Hp1).
    apply IH in H. destruct H as (Hm & Hr & new & Hd & Hp).
    split; [|split].
    + rewrite Hm, map_app. cbn [map]. rewrite Hn, <- app_assoc. reflexivity.
    + rewrite Hr, Hr1, <- app_assoc. reflexivity.
    + exists (new1 ++ new). split; [rewrite Hd, Hd1, app_assoc; reflexivity|].
      intros op Hop. apply in_app_or in Hop. destruct Hop as [Hop|Hop].
      * left. rewrite forallb_forall in Hp1. specialize (Hp1 op Hop).
        apply Z.eqb_eq in Hp1. symmetry. exact Hp1.
      * right. apply Hp, Hop.
Qed.

(** What a job that returns has gone through. *)
Lemma processPdf_Ok cfg w settings out audit d' :
  processPdf cfg w settings emptyDoc = (Ok (out, audit), d') ->
  exists n1 n2 templates auditPages,
    w_pdfLibLoad w = Ok n1 /\ w_pdfJsLoad w = Ok n2 /\
    let cap := pagesToProcessOf cfg n1 n2 in
    mfold (processPage cfg w (audit_formatProfile audit) templates
                       (autoThresholdOf cfg settings) (reviewThresholdOf cfg settings))
          (pagesLoop cap) [] emptyDoc = (Ok auditPages, d') /\
    pages audit = auditPages /\
    summary audit =
      {| totalPages := cap;
         totalPagesInPdf := Z.min n1 n2;
         sum_removed := countActions isRemovedAction auditPages;
         sum_review := countActions isReviewAction auditPages;
         sum_none := (Z.of_nat (List.length auditPages)
                      - countActions isRemovedAction auditPages
                      - countActions isReviewAction auditPages)%Z;
         statusHint := if needsReview (countActions isReviewAction auditPages)
                                      (countActions isRemovedAction auditPages)
                       then "needs_review"%string else "completed"%string |} /\
    out = {| pagesTotal := cap;
             pagesProcessed := cap;
             progress := 100;
             hasReview := needsReview (countActions isReviewAction auditPages)
                                      (countActions isRemovedAction auditPages);
             removedCount := countActions isRemovedAction auditPages;
             reviewCount := countActions isReviewAction auditPages |}.
Proof.
  unfold processPdf. intro H.
  apply mbind_Ok in H. destruct H as (templates & d1 & H1 & H).
  apply mlift_Ok in H1. destruct H1 as [_ ->].
  apply mbind_Ok in H. destruct H as (logoRefs & d2 & H2 & H).
  apply mlift_Ok in H2. destruct H2 as [_ ->].
  apply mbind_Ok in H. destruct H as (n1 & d3 & H3 & H).
  apply mlift_Ok in H3. destruct H3 as [E1 ->].
  apply mbind_Ok in H. destruct H as (n2 & d4 & H4 & H).
  apply mlift_Ok in H4. destruct H4 as [E2 ->].
  apply mbind_Ok in H. destruct H as (auditPages & d5 & H5 & H).
  apply mbind_Ok in H. destruct H as ([] & d6 & H6 & H).
  apply mlift_Ok in H6. destruct H6 as [_ ->].
  apply mbind_Ok in H. destruct H as ([] & d7 & H7 & H).
  apply mlift_Ok in H7. destruct H7 as [_ ->].
  unfold mret in H. injection H as <- <- <-.
  exists n1, n2, templates, auditPages.
  split; [exact E1|]. split; [exact E2|]. cbv zeta. cbn [audit_formatProfile pages summary].
  split; [exact H5|]. repeat split.
Qed.

Lemma pageNumbers_map (n : num) : map (fun i => (i + 1)%Z) (pagesLoop n) = pageNumbers n.
Proof. reflexivity. Qed.

(** C8.  When the job returns, the summary counts as removed every page
    whose action is [removed] or [replaced_footer_banner] (or
    [removed_footer_strip], which no page gets), the job result carries the
    same counts, [hasReview] and the [needs_review] hint hold exactly when
    the review count is positive or the removed count is zero, and the audit
    holds one record per processed page, in page-number order. *)
Theorem processPdf_summary :
  forall (cfg : Config) (w : World) (settings : Settings)
         (out : JobResult) (audit : Audit) (d' : Doc),
    processPdf cfg w settings emptyDoc = (Ok (out, audit), d') ->
    let s := summary audit in
    let counted (p : AuditPage) :=
      match action p with
      | ActRemoved | ActReplacedFooterBanner | ActRemovedFooterStrip => true
      | _ => false
      end in
    let inReview (p : AuditPage) :=
      match action p with ActReview => true | _ => false end in
    sum_removed s = Z.of_nat (List.length (filter counted (pages audit))) /\
    sum_review s = Z.of_nat (List.length (filter inReview (pages audit))) /\
    sum_none s = (Z.of_nat (List.length (pages audit)) - sum_removed s - sum_review s)%Z /\
    removedCount out = sum_removed s /\
    reviewCount out = sum_review s /\
    (hasReview out = true <-> (0 < sum_review s)%Z \/ sum_removed s = 0%Z) /\
    (statusHint s = "needs_review"%string <-> (0 < sum_review s)%Z \/ sum_removed s = 0%Z) /\
    (statusHint s = "needs_review"%string \/ statusHint s = "completed"%string) /\
    map pageNumber (pages audit) = pageNumbers (totalPages s) /\
    doc_rendered d' = pageNumbers (totalPages s).
Proof.
  intros cfg w settings out audit d' H s counted inReview.
  apply processPdf_Ok in H.
  destruct H as (n1 & n2 & templates & auditPages & E1 & E2 & H).
  cbv zeta in H. destruct H as (Hfold & Hpages & Hsum & ->).
  apply mfold_processPage in Hfold. destruct Hfold as (Hm & Hr & _).
  cbn [map app doc_rendered emptyDoc] in Hm, Hr. rewrite pageNumbers_map in Hm, Hr.
  unfold s. rewrite Hsum, Hpages. cbn [sum_removed sum_review sum_none totalPages statusHint
                                        removedCount reviewCount hasReview].
  assert (Hneeds : forall a b, needsReview a b = true <-> (0 < a)%Z \/ b = 0%Z).
  { intros a b. unfold needsReview. rewrite orb_true_iff, Z.ltb_lt, Z.eqb_eq. tauto. }
  repeat split; try reflexivity; try assumption;
    try (apply Hneeds); try (intro Hx; apply Hneeds in Hx; exact Hx).
  - destruct (needsReview _ _) eqn:N; [intros _; apply Hneeds, N|discriminate].
  - intro Hx. apply Hneeds in Hx. rewrite Hx. reflexivity.
  - destruct (needsReview _ _); [left|right]; reflexivity.
Qed.

(** *** The page cap (C9) *)

Lemma Math_min_not_PosInf (a b : num) : a <> PosInf -> Math_min a b <> PosInf.
Proof.
  destruct a as [| |p|], b as [| |q|]; cbn; intro H; try discriminate; try congruence.
  destruct (Qltb q p); discriminate.
Qed.

Lemma pagesToProcessOf_not_PosInf (cfg : Config) (n1 n2 : Z) :
  pagesToProcessOf cfg n1 n2 <> PosInf.
Proof.
  unfold pagesToProcessOf. cbv zeta.
  assert (H : Math_min (Math_min (ofZ (Z.min n1 n2)) (maxPagesPerJob cfg))
                       (aiMaxPagesPerJob cfg) <> PosInf).
  { apply Math_min_not_PosInf, Math_min_not_PosInf. discriminate. }
  destruct (aiPageLimit cfg >? Fin 0)%num; [apply Math_min_not_PosInf|]; exact H.
Qed.

Lemma lt_Qceiling (z : Z) (q : Q) : (z < Qceiling q)%Z <-> (inject_Z z < q)%Q.
Proof.
  pose proof (Qle_ceiling q) as Hle. pose proof (Qceiling_lt q) as Hlt.
  split; intro H.
  - apply Qle_lt_trans with (y := inject_Z (Qceiling q - 1)); [|exact Hlt].
    rewrite <- Zle_Qle. lia.
  - rewrite Zlt_Qlt. lra.
Qed.

(** Page [k] is visited when the loop test [k - 1 < n] holds. *)
Lemma in_pageNumbers (n : num) (k : Z) :
  n <> PosInf ->
  (In k (pageNumbers n) <-> (1 <= k)%Z /\ (ofZ (k - 1) <? n)%num = true).
Proof.
  intro Hn. unfold pageNumbers, pagesLoop.
  destruct n as [| |q|]; cbn [map num_ltb ofZ]; try (split; [intros []|intros [_ H]; discriminate]).
  - rewrite in_map_iff. split.
    + intros (i & <- & Hi). apply in_zrange in Hi.
      replace (i + 1 - 1)%Z with i by lia.
      split; [lia|]. apply Qltb_true, lt_Qceiling. lia.
    + intros [Hk Hlt]. apply Qltb_true, lt_Qceiling in Hlt.
      exists (k - 1)%Z. split; [lia|]. apply in_zrange. lia.
  - congruence.
Qed.

Lemma pageNumbers_ofZ (n : Z) :
  pageNumbers (ofZ n) = map (fun i => (i + 1)%Z) (zrange 0 n).
Proof. unfold pageNumbers, pagesLoop, ofZ. rewrite Qceiling_Z. reflexivity. Qed.

Lemma Math_min_ofZ (a b : Z) : Math_min (ofZ a) (ofZ b) = ofZ (Z.min a b).
Proof.
  unfold Math_min, ofZ, num_ltb.
  destruct (Qltb (inject_Z b) (inject_Z a)) eqn:E.
  - apply Qltb_true in E. rewrite <- Zlt_Qlt in E. rewrite Z.min_r by lia. reflexivity.
  - apply Qltb_false in E. rewrite <- Zle_Qle in E. rewrite Z.min_l by lia. reflexivity.
Qed.

Lemma num_gtb_ofZ_0 (c : Z) : (ofZ c >? Fin 0)%num = (0 <? c)%Z.
Proof.
  unfold num_gtb, ofZ, num_ltb.
  destruct (Z.ltb_spec 0 c) as [H|H].
  - apply Qltb_true. change 0%Q with (inject_Z 0). rewrite <- Zlt_Qlt. exact H.
  - apply Qltb_false. change 0%Q with (inject_Z 0). rewrite <- Zle_Qle. exact H.
Qed.

(** C9 (as amended).  When the job returns, [summary.totalPages],
    [pagesTotal] and [pagesProcessed] are the cap: the least of the
    document's page count, [maxPagesPerJob], [aiMaxPagesPerJob], and
    [aiPageLimit] when that is positive, as [Math.min] computes it ([NaN] as
    soon as a limit is [NaN]); [summary.totalPagesInPdf] is the document's
    page count.  The pages processed are those the loop test lets in: page
    [k] has an audit record, is rendered, and may be drawn on exactly when
    [k - 1 < cap].  For a cap that is an integer [n] these are the pages 1
    to [n], and the cap is an integer whenever the three limits are. *)
Theorem processPdf_page_cap :
  forall (cfg : Config) (w : World) (settings : Settings)
         (out : JobResult) (audit : Audit) (d' : Doc),
    processPdf cfg w settings emptyDoc = (Ok (out, audit), d') ->
    exists pdfLibPages pdfJsPages : Z,
      w_pdfLibLoad w = Ok pdfLibPages /\ w_pdfJsLoad w = Ok pdfJsPages /\
      let inPdf := Z.min pdfLibPages pdfJsPages in
      let capped :=
        Math_min (Math_min (ofZ inPdf) (maxPagesPerJob cfg)) (aiMaxPagesPerJob cfg) in
      let cap := if (aiPageLimit cfg >? Fin 0)%num
                 then Math_min capped (aiPageLimit cfg) else capped in
      totalPages (summary audit) = cap /\
      pagesTotal out = cap /\
      pagesProcessed out = cap /\
      totalPagesInPdf (summary audit) = inPdf /\
      map pageNumber (pages audit) = pageNumbers cap /\
      doc_rendered d' = pageNumbers cap /\
      (forall op, In op (doc_draws d') -> In (drawPage op + 1)%Z (pageNumbers cap)) /\
      (forall k, In k (pageNumbers cap) <-> (1 <= k)%Z /\ (ofZ (k - 1) <? cap)%num = true) /\
      (forall n : Z, cap = ofZ n ->
         pageNumbers cap = map (fun i => (i + 1)%Z) (zrange 0 n)) /\
      (forall a b c : Z,
          maxPagesPerJob cfg = ofZ a -> aiMaxPagesPerJob cfg = ofZ b ->
          aiPageLimit cfg = ofZ c ->
          cap = ofZ (if (0 <? c)%Z then Z.min (Z.min (Z.min inPdf a) b) c
                     else Z.min (Z.min inPdf a) b)).
Proof.
  intros cfg w settings out audit d' H.
  apply processPdf_Ok in H.
  destruct H as (n1 & n2 & templates & auditPages & E1 & E2 & H).
  cbv zeta in H. destruct H as (Hfold & Hpages & Hsum & ->).
  apply mfold_processPage in Hfold. destruct Hfold as (Hm & Hr & new & Hd & Hp).
  cbn [map app doc_rendered doc_draws emptyDoc] in Hm, Hr, Hd. rewrite pageNumbers_map in Hm, Hr.
  exists n1, n2. split; [exact E1|]. split; [exact E2|]. cbv zeta.
  rewrite Hsum, Hpages. cbn [totalPages totalPagesInPdf pagesTotal pagesProcessed].
  fold (pagesToProcessOf cfg n1 n2).
  split; [reflexivity|]. split; [reflexivity|]. split; [reflexivity|].
  split; [reflexivity|]. split; [exact Hm|]. split; [exact Hr|].
  split; [|split; [|split]].
  - intros op Hop. rewrite Hd in Hop. apply Hp in Hop.
    unfold pageNumbers. apply in_map with (f := fun i => (i + 1)%Z). exact Hop.
  - intro k. apply in_pageNumbers, pagesToProcessOf_not_PosInf.
  - intros n ->. apply pageNumbers_ofZ.
  - intros a b c Ha Hb Hc. unfold pagesToProcessOf. cbv zeta.
    rewrite Ha, Hb, Hc, !Math_min_ofZ, num_gtb_ofZ_0.
    destruct (0 <? c)%Z; rewrite ?Math_min_ofZ; reflexivity.
Qed.

(** The sample document in ai-cut mode: the strip of page 1 is replaced,
    the logo of page 2 removed, page 3 left alone. *)
Lemma processPdf_summary_witness :
  exists out audit d',
    sampleJob = (Ok (out, audit), d') /\
    map action (pages audit) = [ActReplacedFooterBanner; ActRemoved; ActNone] /\
    sum_removed (summary audit) = 2%Z /\
    sum_review (summary audit) = 0%Z /\
    sum_none (summary audit) = 1%Z /\
    removedCount out = 2%Z /\
    hasReview out = false /\
    statusHint (summary audit) = "completed"%string /\
    map pageNumber (pages audit) = [1; 2; 3]%Z.
Proof.
  assert (E : processPdf (sampleConfig "ai-cut") sampleWorld sampleSettings emptyDoc = sampleJob)
    by (vm_compute; reflexivity).
  unfold sampleJob in *.
  match type of E with _ = (Ok (?o, ?a), ?d) => exists o, a, d end.
  split; [reflexivity|].
  destruct (processPdf_summary _ _ _ E) as (H1 & H2 & H3 & H4 & H5 & H6 & H7 & H8 & H9 & H10).
  split; [reflexivity|].
  split; [exact H1|]. split; [exact H2|]. split; [exact H3|].
  split; [exact H4|]. split; [reflexivity|]. split; [reflexivity|]. exact H9.
Defined.

(** The three-page sample document with [MAX_PAGES_PER_JOB = 2]: pages 1
    and 2 are processed, page 3 is not. *)
Lemma processPdf_page_cap_witness :
  exists out audit d',
    processPdf (withMaxPages (sampleConfig "ai-cut") (Fin 2)) sampleWorld sampleSettings
               emptyDoc = (Ok (out, audit), d') /\
    totalPages (summary audit) = Fin 2 /\
    pagesTotal out = Fin 2 /\
    pagesProcessed out = Fin 2 /\
    totalPagesInPdf (summary audit) = 3%Z /\
    map pageNumber (pages audit) = [1; 2]%Z /\
    doc_rendered d' = [1; 2]%Z /\
    map drawPage (doc_draws d') = [0; 0; 1]%Z.
Proof.
  destruct (processPdf (withMaxPages (sampleConfig "ai-cut") (Fin 2)) sampleWorld
                       sampleSettings emptyDoc) as [[[out audit]|msg|] d'] eqn:E;
    [|vm_compute in E; discriminate|vm_compute in E; discriminate].
  destruct (processPdf_page_cap _ _ _ E) as (n1 & n2 & E1 & E2 & H).
  injection E1 as <-. injection E2 as <-.
  destruct H as (H1 & H2 & H3 & H4 & H5 & H6 & _).
  exists out, audit, d'. split; [reflexivity|].
  split; [exact H1|]. split; [exact H2|]. split; [exact H3|]. split; [exact H4|].
  split; [exact H5|]. split; [exact H6|].
  vm_compute in E. injection E as _ _ <-. reflexivity.
Defined.

(** C9 as stated fails for a limit that is not an integer: with
    [MAX_PAGES_PER_JOB = 2.5] the job reports 2.5 pages as total and as
    processed, and processes three, page 3 included.  With a limit that is
    not a number the totals are [NaN] and no page is processed. *)
Lemma processPdf_fractional_cap_counterexample :
  (exists out audit d',
      processPdf (withMaxPages (sampleConfig "ai-cut") (Fin 2.5)) sampleWorld sampleSettings
                 emptyDoc = (Ok (out, audit), d') /\
      totalPages (summary audit) = Fin 2.5 /\
      pagesTotal out = Fin 2.5 /\
      pagesProcessed out = Fin 2.5 /\
      map pageNumber (pages audit) = [1; 2; 3]%Z /\
      doc_rendered d' = [1; 2; 3]%Z) /\
  (exists out audit d',
      processPdf (withMaxPages (sampleConfig "ai-cut") NaN) sampleWorld sampleSettings
                 emptyDoc = (Ok (out, audit), d') /\
      totalPages (summary audit) = NaN /\
      pagesProcessed out = NaN /\
      totalPagesInPdf (summary audit) = 3%Z /\
      pages audit = [] /\
      doc_rendered d' = []).
Proof.
  split; eexists; eexists; eexists; (split; [vm_compute; reflexivity|]); repeat split.
Qed.

(** *** Template library failures (C5) *)

Lemma rfold_addVariant_discard (dir : RefDir) (file : string) (widths : list Z) :
  forall templates,
    (forall tw, In tw widths ->
                exists v, resizedRaw dir file tw = Ok v /\ variantDiscarded v = true) ->
    rfold (addVariant dir file) widths templates = Ok templates.
Proof.
  induction widths as [|tw widths IH]; intros templates H; [reflexivity|].
  cbn [rfold]. destruct (H tw (or_introl eq_refl)) as ([[vw vh] data] & Ev & Hv).
  unfold addVariant at 1. rewrite Ev. cbn [rbind].
  unfold variantDiscarded in Hv.
  destruct ((vw =? 0)%Z || (vh =? 0)%Z || (vw <? 40)%Z || (vh <? 12)%Z).
  - cbn [rbind]. apply IH. intros tw' Htw'. apply H. right. exact Htw'.
  - cbn [orb] in Hv. rewrite Hv. cbn [rbind].
    apply IH. intros tw' Htw'. apply H. right. exact Htw'.
Qed.

Lemma rfold_addFile_discard (dir : RefDir) (files : list string) :
  forall templates,
    (forall file, In file files ->
       exists bw bh, trimmedMeta dir file = Ok (bw, bh) /\
         (((bw =? 0)%Z || (bh =? 0)%Z = true) \/
          forall tw, In tw targetWidths ->
                     exists v, resizedRaw dir file tw = Ok v /\ variantDiscarded v = true)) ->
    rfold (addFile dir) files templates = Ok templates.
Proof.
  induction files as [|file files IH]; intros templates H; [reflexivity|].
  cbn [rfold]. destruct (H file (or_introl eq_refl)) as (bw & bh & Em & Hd).
  unfold addFile at 1. rewrite Em. cbn [rbind].
  assert (Hrest : rfold (addFile dir) files templates = Ok templates)
    by (apply IH; intros f Hf; apply H; right; exact Hf).
  destruct ((bw =? 0)%Z || (bh =? 0)%Z) eqn:Z0.
  - cbn [rbind]. exact Hrest.
  - destruct Hd as [Hd|Hd]; [discriminate|].
    rewrite (rfold_addVariant_discard dir file targetWidths templates Hd).
    cbn [rbind]. exact Hrest.
Qed.

(** C5.  In a mode that uses the deterministic detector (any mode but
    ai-probe and ai-cut), when the reference directory lists no PNG or JPEG
    file, or sharp reads every listed file and each variant it produces is
    discarded (too small, or fewer than 40 edge pixels), [processPdf] throws
    the error of [loadLogoTemplates] with no page rendered and nothing
    drawn. *)
Theorem processPdf_template_failure :
  forall (cfg : Config) (w : World) (settings : Settings) (names : list string),
    useAiDetector cfg = false ->
    readdir (w_refDir w) = Ok names ->
    (filter isLogoFileName names = [] \/
     forall file, In file (filter isLogoFileName names) ->
       exists bw bh, trimmedMeta (w_refDir w) file = Ok (bw, bh) /\
         (((bw =? 0)%Z || (bh =? 0)%Z = true) \/
          forall tw, In tw targetWidths ->
            exists v, resizedRaw (w_refDir w) file tw = Ok v /\ variantDiscarded v = true)) ->
    exists msg,
      (msg = ("No logo references found in " ++ logoRefsDir cfg)%string \/
       msg = "No usable template variants could be built"%string) /\
      loadLogoTemplates (logoRefsDir cfg) (w_refDir w) = Throw msg /\
      processPdf cfg w settings emptyDoc = (Throw msg, emptyDoc).
Proof.
  intros cfg w settings names Hmode Hdir Hcase.
  assert (Hload : exists msg,
             (msg = ("No logo references found in " ++ logoRefsDir cfg)%string \/
              msg = "No usable template variants could be built"%string) /\
             loadLogoTemplates (logoRefsDir cfg) (w_refDir w) = Throw msg).
  { unfold loadLogoTemplates. rewrite Hdir. cbn [rbind].
    destruct (filter isLogoFileName names) as [|f files] eqn:F.
    - eexists. split; [left; reflexivity|reflexivity].
    - destruct Hcase as [Hcase|Hcase]; [discriminate|].
      rewrite (rfold_addFile_discard (w_refDir w) (f :: files) [] Hcase). cbn [rbind].
      eexists. split; [right; reflexivity|reflexivity]. }
  destruct Hload as (msg & Hmsg & Hload).
  exists msg. split; [exact Hmsg|]. split; [exact Hload|].
  unfold processPdf, mbind, mlift. rewrite Hmode, Hload. reflexivity.
Qed.

(** The sample reference directory: its one image gives variants without
    edges. *)
Lemma processPdf_template_failure_witness :
  loadLogoTemplates "samples/logo-refs" sampleRefDir
  = Throw "No usable template variants could be built" /\
  processPdf (sampleConfig "deterministic") sampleWorld sampleSettings emptyDoc
  = (Throw "No usable template variants could be built", emptyDoc).
Proof.
  destruct (@processPdf_template_failure (sampleConfig "deterministic") sampleWorld
              sampleSettings ["logo.png"; "notes.txt"]%string) as (msg & Hmsg & H1 & H2).
  - reflexivity.
  - reflexivity.
  - right. intros file Hf. vm_compute in Hf. destruct Hf as [<-|[]].
    exists 300%Z, 100%Z. split; [reflexivity|]. right.
    intros tw Htw. eexists. split; [reflexivity|].
    cbn in Htw. destruct Htw as [<-|[<-|[<-|[<-|[<-|[]]]]]]; vm_compute; reflexivity.
  - assert (Em : msg = "No usable template variants could be built"%string).
    { cbn [sampleConfig logoRefsDir sampleWorld w_refDir] in H1.
      assert (E : loadLogoTemplates "samples/logo-refs" sampleRefDir
                  = Throw "No usable template variants could be built")
        by (vm_compute; reflexivity).
      rewrite E in H1. injection H1 as <-. reflexivity. }
    subst msg. split; [exact H1|exact H2].
Defined.

(** *** Whole jobs *)

(** The record a page adds is made of its detection and its decision. *)
Lemma processPage_inv cfg w profile templates auto review acc i d acc' d' :
  processPage cfg w profile templates auto review acc i d = (Ok acc', d') ->
  exists width height det dec d1 rec,
    pw_render (w_page w (i + 1)) = Ok (width, height) /\
    detectPage cfg (w_engine w) templates (w_page w (i + 1)) width height = Ok det /\
    decidePage cfg w profile auto review i (w_page w (i + 1)) width height det d1
    = (Ok dec, d') /\
    doc_draws d1 = doc_draws d /\
    acc' = acc ++ [rec] /\
    action rec = dec_action dec /\
    audit_plausible rec = det_plausible det /\
    option_map ai_found (aiProbe rec) = option_map probe_found (det_aiProbe det) /\
    pdfRect rec = dec_pdfRect dec.
Proof.
  unfold processPage. intro H.
  apply mbind_Ok in H. destruct H as ([width height] & d1 & H1 & H).
  apply mlift_Ok in H1. destruct H1 as [E1 ->].
  apply mbind_Ok in H. destruct H as ([] & d2 & H2 & H).
  unfold mrendered in H2. injection H2 as <-.
  apply mbind_Ok in H. destruct H as (det & d3 & H3 & H).
  apply mlift_Ok in H3. destruct H3 as [E3 ->].
  apply mbind_Ok in H. destruct H as (dec & d4 & H4 & H).
  unfold mret in H. injection H as <- <-.
  exists width, height, det, dec. do 2 eexists.
  split; [exact E1|]. split; [exact E3|]. split; [exact H4|].
  split; [reflexivity|]. split; [reflexivity|]. cbn [action audit_plausible aiProbe pdfRect].
  split; [reflexivity|]. split; [reflexivity|].
  split; [destruct (det_aiProbe det); reflexivity|reflexivity].
Qed.

(** A property of every record a page can add holds of the whole audit. *)
Lemma mfold_processPage_Forall cfg w profile templates auto review
    (P : AuditPage -> Prop) (Q : DrawOp -> Prop) (l : list Z) :
  (forall acc i d acc' d',
      processPage cfg w profile templates auto review acc i d = (Ok acc', d') ->
      (exists rec, acc' = acc ++ [rec] /\ P rec) /\
      (exists new, doc_draws d' = doc_draws d ++ new /\ Forall Q new)) ->
  forall acc d acc' d',
    mfold (processPage cfg w profile templates auto review) l acc d = (Ok acc', d') ->
    Forall P acc -> Forall Q (doc_draws d) ->
    Forall P acc' /\ Forall Q (doc_draws d').
Proof.
  intros Hstep. induction l as [|i l IH]; intros acc d acc' d' H HP HQ.
  - cbn in H. injection H as <- <-. split; assumption.
  - cbn [mfold] in H. apply mbind_Ok in H. destruct H as (acc1 & d1 & H1 & H).
    destruct (Hstep _ _ _ _ _ H1) as ((rec & -> & Hrec) & new & Hd & Hnew).
    apply (IH _ _ _ _ H).
    + apply Forall_app. split; [assumption|]. constructor; [assumption|constructor].
    + rewrite Hd. apply Forall_app. split; assumption.
Qed.

(** In ai-probe mode a decision never redacts and never removes. *)
Lemma decidePage_probe cfg w profile auto review i pw width height det d r d' :
  String.eqb (detectorMode cfg) "ai-probe" = true ->
  decidePage cfg w profile auto review i pw width height det d = (r, d') ->
  (exists new, doc_draws d' = doc_draws d ++ new /\
               Forall (fun op => isRedaction op = false) new) /\
  (forall dec, r = Ok dec -> isRemovedAction (dec_action dec) = false).
Proof.
  intros Hmode.
  destruct det as [zone [s bb ref] plausible ai wide].
  unfold decidePage. cbn [det_plausible det_match det_wideFooterStrip score bboxPx].
  rewrite Hmode. cbn [negb andb].
  destruct (plausible && (s >=? review)%num);
    unfold mbind, mret, mdraw, mlift;
    destruct (debugDrawBoxes cfg), bb as [b|];
    cbn [negb andb isRemovedAction doc_draws doc_rendered fst snd drawRect];
    split_draws;
    intro H; injection H as <- <-; cbn [doc_draws doc_rendered];
    (split;
     [eexists; split; [first [reflexivity|symmetry; apply app_nil_r]|];
      repeat constructor
     |intros dec Hdec; first [discriminate Hdec|injection Hdec as <-; reflexivity]]).
Qed.

Lemma countActions_none (f : Action -> bool) (auditPages : list AuditPage) :
  Forall (fun p => f (action p) = false) auditPages -> countActions f auditPages = 0%Z.
Proof.
  intro H. unfold countActions. rewrite filter_none; [reflexivity|].
  intros p Hp. rewrite Forall_forall in H. apply H, Hp.
Qed.

(** In ai-probe mode a job that returns has redacted nothing: no filled
    rectangle and no banner is drawn, no page is counted as removed, and the
    job always asks for review. *)
Theorem processPdf_probe_never_redacts :
  forall (cfg : Config) (w : World) (settings : Settings)
         (out : JobResult) (audit : Audit) (d' : Doc),
    detectorMode cfg = "ai-probe"%string ->
    processPdf cfg w settings emptyDoc = (Ok (out, audit), d') ->
    existsb isRedaction (doc_draws d') = false /\
    Forall (fun p => action p = ActReview \/ action p = ActNone) (pages audit) /\
    removedCount out = 0%Z /\
    hasReview out = true /\
    statusHint (summary audit) = "needs_review"%string.
Proof.
  intros cfg w settings out audit d' Hmode H.
  assert (Hm : String.eqb (detectorMode cfg) "ai-probe" = true)
    by (rewrite Hmode; reflexivity).
  apply processPdf_Ok in H.
  destruct H as (n1 & n2 & templates & auditPages & E1 & E2 & H).
  cbv zeta in H. destruct H as (Hfold & Hpages & Hsum & ->).
  apply (@mfold_processPage_Forall cfg w (audit_formatProfile audit) templates
           (autoThresholdOf cfg settings) (reviewThresholdOf cfg settings)
           (fun p => isRemovedAction (action p) = false)
           (fun op => isRedaction op = false)) in Hfold; [| |constructor|constructor].
  - destruct Hfold as (HP & HQ). cbn [removedCount hasReview].
    rewrite Hsum, Hpages. cbn [statusHint].
    rewrite (countActions_none isRemovedAction HP).
    split; [|split; [|split; [reflexivity|split; unfold needsReview;
                                           rewrite orb_true_r; reflexivity]]].
    + clear - HQ. induction HQ as [|op l Hop _ IH]; [reflexivity|].
      cbn [existsb]. rewrite Hop, IH. reflexivity.
    + eapply Forall_impl; [|exact HP]. intros p Hp. cbv beta in Hp.
      destruct (action p); try discriminate; [right|left]; reflexivity.
  - intros acc i d acc1 d1 Hp.
    apply processPage_inv in Hp.
    destruct Hp as (width & height & det & dec & d0 & rec & _ & _ & Hdec & Hd0 & -> & Ha & _).
    destruct (decidePage_probe _ _ _ _ _ _ _ _ _ _ _ Hm Hdec) as ((new & Hd & Hnew) & Hact).
    split.
    + exists rec. split; [reflexivity|]. rewrite Ha. apply Hact. reflexivity.
    + exists new. split; [rewrite Hd, Hd0; reflexivity|exact Hnew].
Qed.

Lemma processPdf_probe_never_redacts_witness :
  exists out audit d',
    processPdf (sampleConfig "ai-probe") sampleWorld sampleSettings emptyDoc
    = (Ok (out, audit), d') /\
    map action (pages audit) = [ActReview; ActReview; ActNone] /\
    doc_draws d' = [] /\
    removedCount out = 0%Z /\
    hasReview out = true /\
    statusHint (summary audit) = "needs_review"%string.
Proof.
  destruct (processPdf (sampleConfig "ai-probe") sampleWorld sampleSettings emptyDoc)
    as [[[out audit]|msg|] d'] eqn:E;
    [|vm_compute in E; discriminate|vm_compute in E; discriminate].
  destruct (@processPdf_probe_never_redacts (sampleConfig "ai-probe") sampleWorld
              sampleSettings out audit d' eq_refl E) as (H1 & H2 & H3 & H4 & H5).
  exists out, audit, d'. split; [reflexivity|].
  vm_compute in E. injection E as <- <- <-.
  repeat split.
Defined.

(** With the banner forced, a page that is detected is the whole footer
    strip, at score 1. *)
Lemma detectPage_forced cfg js templates pw width height det :
  forceFooterBanner cfg = true ->
  detectPage cfg js templates pw width height = Ok det ->
  det_plausible det = true /\ det_wideFooterStrip det = true /\
  score (det_match det) = Fin 1 /\
  matchedReference (det_match det) = JStr "footer-banner" /\
  det_aiProbe det = None /\
  exists b, bboxPx (det_match det) = Some b.
Proof.
  intros Hforce. unfold detectPage. rewrite Hforce. unfold detectForced.
  destruct (footerBandOf (pw_rgb pw) width height) as [zone|msg|]; cbn [rbind];
    [|discriminate|discriminate].
  intro H. injection H as <-.
  cbn [det_plausible det_wideFooterStrip det_match det_aiProbe score bboxPx matchedReference].
  repeat split. eexists. reflexivity.
Qed.

(** Outside ai-probe mode, a plausible wide strip at or above the automatic
    threshold is replaced. *)
Lemma decidePage_wide_strip cfg w profile auto review i pw width height det d dec d' :
  String.eqb (detectorMode cfg) "ai-probe" = false ->
  det_plausible det = true ->
  det_wideFooterStrip det = true ->
  (score (det_match det) >=? auto)%num = true ->
  decidePage cfg w profile auto review i pw width height det d = (Ok dec, d') ->
  dec_action dec = ActReplacedFooterBanner /\
  exists new, doc_draws d' = doc_draws d ++ new /\ existsb isRedaction new = true.
Proof.
  intros Hmode Hpl Hwide Hscore.
  destruct det as [zone [s bb ref] plausible ai wide].
  cbn [det_plausible det_match det_wideFooterStrip score bboxPx] in *. subst plausible wide.
  unfold decidePage. cbn [det_plausible det_match det_wideFooterStrip score bboxPx].
  rewrite Hmode, Hscore. cbn [negb andb].
  unfold drawBannerFitted, mbind, mret, mdraw, mlift.
  destruct (String.eqb (detectorMode cfg) "ai-cut"), bb as [b|], (w_banner w) as [bannerSize|],
    (fillBackground profile), (debugDrawBoxes cfg);
    cbn [negb andb isRemovedAction doc_draws doc_rendered fst snd drawRect];
    split_draws;
    intro H; try discriminate; injection H as <- <-; cbn [doc_draws doc_rendered dec_action];
    (split; [reflexivity|]);
    eexists; (split; [try rewrite <- !app_assoc; reflexivity|]); reflexivity.
Qed.

Lemma countActions_all (f : Action -> bool) (auditPages : list AuditPage) :
  Forall (fun p => f (action p) = true) auditPages ->
  countActions f auditPages = Z.of_nat (List.length auditPages).
Proof.
  intro H. unfold countActions. rewrite filter_all; [reflexivity|].
  intros p Hp. rewrite Forall_forall in H. apply H, Hp.
Qed.

(** With the banner forced and a mode other than ai-probe, a job whose
    automatic threshold is at most 1 and that returns has replaced the footer
    of every page it processed: every record has the action
    replaced_footer_banner, none asks for review, and a job of at least one
    page is completed. *)
Theorem processPdf_forced_banner :
  forall cfg w settings out audit d',
    forceFooterBanner cfg = true ->
    String.eqb (detectorMode cfg) "ai-probe" = false ->
    (Fin 1 >=? autoThresholdOf cfg settings)%num = true ->
    processPdf cfg w settings emptyDoc = (Ok (out, audit), d') ->
    Forall (fun p => action p = ActReplacedFooterBanner /\ audit_plausible p = true)
           (pages audit) /\
    removedCount out = Z.of_nat (List.length (pages audit)) /\
    reviewCount out = 0%Z /\
    (pages audit <> [] ->
     hasReview out = false /\ statusHint (summary audit) = "completed"%string).
Proof.
  intros cfg w settings out audit d' Hforce Hmode Hauto H.
  apply processPdf_Ok in H.
  destruct H as (n1 & n2 & templates & auditPages & E1 & E2 & H).
  cbv zeta in H. destruct H as (Hfold & Hpages & Hsum & ->).
  apply (@mfold_processPage_Forall cfg w (audit_formatProfile audit) templates
           (autoThresholdOf cfg settings) (reviewThresholdOf cfg settings)
           (fun p => action p = ActReplacedFooterBanner /\ audit_plausible p = true)
           (fun _ => True)) in Hfold; [| |constructor|constructor].
  - destruct Hfold as (HP & _). cbn [removedCount hasReview reviewCount].
    rewrite Hsum, Hpages. cbn [statusHint].
    assert (Hrem : countActions isRemovedAction auditPages
                   = Z.of_nat (List.length auditPages)).
    { apply countActions_all. eapply Forall_impl; [|exact HP].
      intros p [-> _]. reflexivity. }
    assert (Hrev : countActions isReviewAction auditPages = 0%Z).
    { apply countActions_none. eapply Forall_impl; [|exact HP].
      intros p [-> _]. reflexivity. }
    rewrite Hrem, Hrev.
    split; [exact HP|]. split; [reflexivity|]. split; [reflexivity|].
    intro Hne. unfold needsReview.
    destruct auditPages as [|p l]; [contradiction Hne; reflexivity|].
    cbn [List.length]. rewrite Nat2Z.inj_succ.
    replace (Z.succ (Z.of_nat (List.length l)) =? 0)%Z with false
      by (symmetry; apply Z.eqb_neq; lia).
    split; reflexivity.
  - intros acc i d acc1 d1 Hp.
    apply processPage_inv in Hp.
    destruct Hp as (width & height & det & dec & d0 & rec & _ & Hdet & Hdec & Hd0 & -> & Ha & Hpl & _).
    destruct (detectPage_forced _ _ _ _ _ _ Hforce Hdet) as (Hp1 & Hw & Hs & _).
    assert (Hge : (score (det_match det) >=? autoThresholdOf cfg settings)%num = true)
      by (rewrite Hs; exact Hauto).
    destruct (decidePage_wide_strip _ _ _ _ _ _ _ _ _ _ _ Hmode Hp1 Hw Hge Hdec)
      as (Hact & new & Hd & _).
    split.
    + exists rec. split; [reflexivity|]. rewrite Ha, Hpl. split; assumption.
    + exists new. split; [rewrite Hd, Hd0; reflexivity|].
      apply Forall_forall. intros; exact I.
Qed.

Lemma processPdf_forced_banner_witness :
  exists out audit d',
    processPdf (forcedConfig "ai-cut") plainWorld sampleSettings emptyDoc
    = (Ok (out, audit), d') /\
    map action (pages audit)
    = [ActReplacedFooterBanner; ActReplacedFooterBanner; ActReplacedFooterBanner] /\
    removedCount out = 3%Z /\
    reviewCount out = 0%Z /\
    hasReview out = false /\
    statusHint (summary audit) = "completed"%string.
Proof.
  destruct (processPdf (forcedConfig "ai-cut") plainWorld sampleSettings emptyDoc)
    as [[[out audit]|msg|] d'] eqn:E;
    [|vm_compute in E; discriminate|vm_compute in E; discriminate].
  destruct (@processPdf_forced_banner (forcedConfig "ai-cut") plainWorld sampleSettings
              out audit d' eq_refl eq_refl eq_refl E) as (_ & H2 & H3 & H4).
  exists out, audit, d'. split; [reflexivity|].
  assert (Hp : map action (pages audit)
               = [ActReplacedFooterBanner; ActReplacedFooterBanner; ActReplacedFooterBanner])
    by (vm_compute in E; injection E as <- <- <-; reflexivity).
  split; [exact Hp|].
  assert (Hne : pages audit <> []) by (intro H0; rewrite H0 in Hp; discriminate).
  destruct (H4 Hne) as [H5 H6].
  assert (Hlen : List.length (pages audit) = 3%nat)
    by (rewrite <- (length_map action), Hp; reflexivity).
  rewrite Hlen in H2.
  repeat split; assumption.
Defined.

(** When the classifier finds nothing on a page, the page is left alone:
    the record has the action none and keeps [found = false], and the step
    draws nothing on the document, neither a redaction nor a debug box. *)
Theorem processPage_probe_not_found :
  forall cfg w profile templates auto review acc i d acc' d' probe,
    forceFooterBanner cfg = false ->
    useAiDetector cfg = true ->
    detectLogoWithVision (w_engine w) (pw_fetch (w_page w (i + 1))) = Ok probe ->
    probe_found probe = false ->
    processPage cfg w profile templates auto review acc i d = (Ok acc', d') ->
    exists rec,
      acc' = acc ++ [rec] /\
      action rec = ActNone /\
      option_map ai_found (aiProbe rec) = Some false /\
      pdfRect rec = None /\
      doc_draws d' = doc_draws d.
Proof.
  intros cfg w profile templates auto review acc i d acc' d' probe Hforce Hai Hprobe Hfound Hp.
  apply processPage_inv in Hp.
  destruct Hp as (width & height & det & dec & d0 & rec & _ & Hdet & Hdec & Hd0 & ->
                  & Ha & _ & Hrec & Hrect).
  unfold detectPage in Hdet. rewrite Hforce, Hai in Hdet.
  unfold detectWithAi in Hdet. rewrite Hprobe in Hdet. cbn [rbind] in Hdet.
  rewrite Hfound in Hdet. cbn [andb] in Hdet. injection Hdet as <-.
  exists rec. split; [reflexivity|].
  cbn [det_aiProbe option_map] in Hrec. rewrite Hfound in Hrec.
  unfold decidePage in Hdec.
  cbn [det_plausible det_match det_wideFooterStrip noMatch score bboxPx andb negb] in Hdec.
  rewrite andb_false_r in Hdec. cbn [andb] in Hdec.
  unfold mbind, mret in Hdec. cbn [isRemovedAction negb] in Hdec.
  rewrite andb_true_r in Hdec.
  destruct (debugDrawBoxes cfg); injection Hdec as <- <-;
    (split; [rewrite Ha; reflexivity|]); (split; [exact Hrec|]);
    (split; [rewrite Hrect; reflexivity|]);
    rewrite Hd0; reflexivity.
Qed.

Lemma processPage_probe_not_found_witness :
  exists acc' d' rec,
    processPage (sampleConfig "ai-cut") sampleWorld sampleProfile [] (Fin 0.75) (Fin 0.45)
                [] 2 emptyDoc = (Ok acc', d') /\
    acc' = [rec] /\
    action rec = ActNone /\
    option_map ai_found (aiProbe rec) = Some false /\
    doc_draws d' = [].
Proof.
  destruct (processPage (sampleConfig "ai-cut") sampleWorld sampleProfile [] (Fin 0.75)
                        (Fin 0.45) [] 2 emptyDoc) as [[acc'|msg|] d'] eqn:E;
    [|vm_compute in E; discriminate|vm_compute in E; discriminate].
  destruct (@processPage_probe_not_found (sampleConfig "ai-cut") sampleWorld sampleProfile []
              (Fin 0.75) (Fin 0.45) [] 2%Z emptyDoc acc' d'
              (probeFromText sampleEngine nothingReply)
              eq_refl eq_refl eq_refl eq_refl E) as (rec & Hacc & Hact & Hai & _ & Hd).
  exists acc', d', rec. split; [reflexivity|]. split; [exact Hacc|].
  split; [exact Hact|]. split; [exact Hai|exact Hd].
Defined.

(** ** Edge maps *)

(** The edge map has one cell per pixel, each 0 or 1, and no edge in the
    last column or the last row. *)
Theorem computeEdgeMap_shape :
  forall (gray : list Z) (width height threshold : Z),
    (0 <= width)%Z -> (0 <= height)%Z ->
    let edges := computeEdgeMap gray width height threshold in
    List.length edges = Z.to_nat (width * height) /\
    (forall idx v, typedGet edges idx = Some v -> v = 0%Z \/ v = 1%Z) /\
    (forall x y, (0 <= x < width)%Z -> (0 <= y < height)%Z ->
                 x = (width - 1)%Z \/ y = (height - 1)%Z ->
                 typedGet edges (y * width + x) = Some 0%Z).
Proof.
  intros gray width height threshold _ _ edges. unfold edges, computeEdgeMap.
  split; [|split].
  - rewrite length_map, length_zrange. f_equal. lia.
  - intros idx v. rewrite typedGet_map_zrange.
    destruct ((0 <=? idx)%Z && (idx <? width * height)%Z); [|discriminate].
    intro H. injection H as <-.
    destruct ((idx / width <? height - 1)%Z && (idx mod width <? width - 1)%Z);
      [|left; reflexivity].
    unfold edgeAt.
    destruct (typedGet gray _) as [g|]; [|left; reflexivity].
    destruct (typedGet gray _) as [gRight|]; [|left; reflexivity].
    destruct (typedGet gray _) as [gBelow|]; [|left; reflexivity].
    destruct (threshold <=? _)%Z; [right|left]; reflexivity.
  - intros x y Hx Hy Hlast. rewrite typedGet_map_zrange.
    assert (Hidx : (0 <= y * width + x < width * height)%Z) by nia.
    destruct (Z.leb_spec 0 (y * width + x)); [|lia].
    destruct (Z.ltb_spec (y * width + x) (width * height)); [|lia].
    cbn [andb].
    assert (Ediv : ((y * width + x) / width = y)%Z)
      by (rewrite Z.div_add_l by lia; rewrite Z.div_small by lia; lia).
    assert (Emod : ((y * width + x) mod width = x)%Z)
      by (rewrite Z.add_comm, Z.mod_add by lia; apply Z.mod_small; lia).
    rewrite Ediv, Emod.
    destruct Hlast as [->| ->].
    + rewrite Z.ltb_irrefl, andb_false_r. reflexivity.
    + rewrite Z.ltb_irrefl. reflexivity.
Qed.

(** A 4x3 bitmap with a bright pixel in its corner. *)
Lemma computeEdgeMap_shape_witness :
  computeEdgeMap [0; 0; 0; 200; 0; 0; 0; 0; 0; 200; 200; 200]%Z 4 3 defaultEdgeThreshold
  = [0; 0; 1; 0; 0; 1; 1; 0; 0; 0; 0; 0]%Z /\
  List.length (computeEdgeMap [0; 0; 0; 200; 0; 0; 0; 0; 0; 200; 200; 200]%Z 4 3
                              defaultEdgeThreshold) = 12%nat.
Proof.
  split; [reflexivity|].
  destruct (@computeEdgeMap_shape [0; 0; 0; 200; 0; 0; 0; 0; 0; 200; 200; 200]%Z 4 3
              defaultEdgeThreshold ltac:(lia) ltac:(lia)) as (H & _).
  exact H.
Defined.

(** A grey bitmap of one value has no edge, for any positive threshold. *)
Lemma computeEdgeMap_flat (gray : list Z) (width height threshold g : Z) :
  (0 < threshold)%Z ->
  (forall i v, typedGet gray i = Some v -> v = g) ->
  forall idx, truthyElem (typedGet (computeEdgeMap gray width height threshold) idx) = false.
Proof.
  intros Ht Hg idx. unfold computeEdgeMap. rewrite typedGet_map_zrange.
  destruct ((0 <=? idx)%Z && (idx <? width * height)%Z); [|reflexivity].
  destruct ((idx / width <? height - 1)%Z && (idx mod width <? width - 1)%Z);
    [|reflexivity].
  unfold edgeAt. cbv zeta.
  destruct (typedGet gray (idx / width * width + idx mod width)) as [a|] eqn:Ea;
    [|reflexivity].
  destruct (typedGet gray (idx / width * width + idx mod width + 1)) as [b|] eqn:Eb;
    [|reflexivity].
  destruct (typedGet gray ((idx / width + 1) * width + idx mod width)) as [c|] eqn:Ec;
    [|reflexivity].
  apply Hg in Ea, Eb, Ec. subst. unfold absdiff. rewrite Z.sub_diag. cbn [Z.abs Z.add].
  destruct (Z.leb_spec threshold 0); [lia|reflexivity].
Qed.

(** ** Deterministic matcher: the best window *)

(** The match returned is the best of the scan: its score is a number
    between 0 and 1, at least the score of every window the scan visits,
    for every template; and the match is either no match at all (score 0,
    no box) or the box, score and reference name of such a window. *)
Theorem detectLogoByTemplateMatch_best :
  forall (pageEdges : list Z) (pageWidth pageHeight : Z) (templates : list Template)
         (searchZone : option Zone),
    let zone := effectiveZone pageWidth pageHeight searchZone in
    let m := detectLogoByTemplateMatch pageEdges pageWidth pageHeight templates searchZone in
    exists q : Q,
      score m = Fin q /\ (0 <= q <= 1)%Q /\
      (forall template x y,
          In template templates -> onGrid zone template x y ->
          (scoreTemplateAt pageEdges pageWidth x y template <= q)%Q) /\
      (m = noMatch \/
       exists template x y,
         In template templates /\ onGrid zone template x y /\
         m = {| score := Fin (scoreTemplateAt pageEdges pageWidth x y template);
                bboxPx := Some (rectZ x y (t_width template) (t_height template));
                matchedReference := JStr (refName template) |}).
Proof.
  intros pageEdges pageWidth pageHeight templates searchZone zone m.
  assert (Hm : m = fold_left
                 (fun b t => fold_left (scanZone pageEdges pageWidth t) [zone] b)
                 templates noMatch).
  { unfold m, detectLogoByTemplateMatch, zone, effectiveZone.
    destruct searchZone; reflexivity. }
  destruct (scans_detect pageEdges pageWidth pageHeight templates searchZone
              noMatch (q0 := 0) eq_refl) as (q & Sq & Lq & Uq & Rq).
  fold zone in Sq, Uq, Rq. rewrite <- Hm in Sq, Rq.
  exists q. split; [exact Sq|]. split; [|split].
  - split; [exact Lq|].
    destruct Rq as [Rq|(_ & c & (t & x & y & -> & _) & Rc)].
    + rewrite Rq in Sq. cbn in Sq. injection Sq as <-. discriminate.
    + rewrite Rc in Sq. cbn in Sq. injection Sq as <-. apply scoreTemplateAt_range.
  - intros template x y Hin Hgrid.
    apply (Uq (template, x, y)). exists template, x, y. tauto.
  - destruct Rq as [Rq|(_ & c & (t & x & y & -> & Ht & Hg) & Rc)]; [left; exact Rq|].
    right. exists t, x, y. split; [exact Ht|]. split; [exact Hg|exact Rc].
Qed.

Lemma fold_left_fixed (A B : Type) (f : B -> A -> B) (l : list A) (b : B) :
  (forall a, In a l -> f b a = b) -> fold_left f l b = b.
Proof.
  induction l as [|a l IH]; intro H; [reflexivity|].
  cbn [fold_left]. rewrite (H a (or_introl eq_refl)).
  apply IH. intros a' Ha'. apply H. right. exact Ha'.
Qed.

Section BlankPage.
Variables (pageEdges : list Z) (pageWidth : Z).
Hypothesis Hblank : forall idx, truthyElem (typedGet pageEdges idx) = false.

Lemma scoreTemplateAt_blank (x y : Z) (template : Template) :
  scoreTemplateAt pageEdges pageWidth x y template == 0.
Proof.
  unfold scoreTemplateAt. rewrite countWindow_overlap. unfold scoreOfCounts.
  cbn [tp fp fn].
  assert (E : overlapCount true true pageEdges pageWidth x y template = 0%Z).
  { unfold overlapCount. rewrite filter_none; [reflexivity|].
    intros [ty tx] _. rewrite Hblank. reflexivity. }
  rewrite E. destruct (Qltb 0 _); [|reflexivity].
  unfold Qdiv. rewrite Qmult_0_l. reflexivity.
Qed.

Lemma scanZone_blank (template : Template) (zone : Zone) :
  scanZone pageEdges pageWidth template noMatch zone = noMatch.
Proof.
  unfold scanZone. destruct (_ || _); [reflexivity|].
  apply fold_left_fixed. intros y _. apply fold_left_fixed. intros x _.
  unfold tryPosition. cbn [score noMatch]. rewrite num_gtb_Fin.
  replace (Qltb 0 (scoreTemplateAt pageEdges pageWidth x y template)) with false;
    [reflexivity|].
  symmetry. apply Qltb_false. rewrite scoreTemplateAt_blank. apply Qle_refl.
Qed.

End BlankPage.

(** On a page without an edge pixel nothing is matched. *)
Lemma detectLogoByTemplateMatch_blank (pageEdges : list Z) (width height : Z)
    (templates : list Template) (searchZone : option Zone) :
  (forall idx, truthyElem (typedGet pageEdges idx) = false) ->
  detectLogoByTemplateMatch pageEdges width height templates searchZone = noMatch.
Proof.
  intro Hblank. unfold detectLogoByTemplateMatch.
  apply fold_left_fixed. intros template _.
  destruct searchZone as [z|]; cbn [fold_left]; apply scanZone_blank; exact Hblank.
Qed.

(** On a grey bitmap of one value nothing is matched, whatever the
    templates and the zone: the edge map has no edge pixel, the score is 0
    and there is no box. *)
Theorem detectLogoByTemplateMatch_flat_page :
  forall (gray : list Z) (g width height : Z) (templates : list Template)
         (searchZone : option Zone),
    (forall i v, typedGet gray i = Some v -> v = g) ->
    let pageEdges := computeEdgeMap gray width height defaultEdgeThreshold in
    (forall idx v, typedGet pageEdges idx = Some v -> v = 0%Z) /\
    detectLogoByTemplateMatch pageEdges width height templates searchZone = noMatch.
Proof.
  intros gray g width height templates searchZone Hg pageEdges.
  assert (Hblank : forall idx, truthyElem (typedGet pageEdges idx) = false)
    by (apply computeEdgeMap_flat with (g := g); [reflexivity|exact Hg]).
  split.
  - intros idx v Hv. specialize (Hblank idx). rewrite Hv in Hblank.
    cbn [truthyElem] in Hblank. apply negb_false_iff, Z.eqb_eq in Hblank. exact Hblank.
  - apply detectLogoByTemplateMatch_blank. exact Hblank.
Qed.

(** A 60x30 bitmap of the grey 128 against the sample template. *)
Lemma detectLogoByTemplateMatch_flat_page_witness :
  detectLogoByTemplateMatch (computeEdgeMap (repeat 128%Z 1800) 60 30 defaultEdgeThreshold)
                            60 30 [sampleTemplate] (Some sampleZone)
  = noMatch.
Proof.
  apply (@detectLogoByTemplateMatch_flat_page (repeat 128%Z 1800) 128 60 30
           [sampleTemplate] (Some sampleZone)).
  intros i v. apply typedGet_repeat.
Defined.

(** ** Footer band locator: what a band is *)

(** On a bitmap at least one pixel wide the scan ends, and a band it
    returns spans the page from 45% of its width, lies in the scanned part
    of the page and is at least [minBandHeight] (24 rows or more) high; its
    first row reaches the entry ratio 0.28 and all its rows the ratio 0.2. *)
Theorem detectFooterBand_band :
  forall (raw : list Z) (width height channels : Z),
    (0 < width)%Z -> (0 <= height)%Z ->
    exists r,
      detectFooterBand raw width height channels = Some r /\
      forall zone, r = Some zone ->
        x0 zone = Qfloor (inject_Z width * 0.45) /\ x1 zone = width /\
        (footerStartY height <= y0 zone)%Z /\ (y1 zone <= height)%Z /\
        (24 <= minBandHeight height <= y1 zone - y0 zone)%Z /\
        (rowPurpleRatio raw width channels (y0 zone) >=? Fin 0.28)%num = true /\
        (forall y, (y0 zone <= y < y1 zone)%Z ->
                   (rowPurpleRatio raw width channels y >=? Fin 0.2)%num = true).
Proof.
  intros raw width height channels Hwidth _.
  destruct (@scanBands_ok (rowPurpleRatio raw width channels) height)
    with (fuel := Z.to_nat (height - footerStartY height)) (y := footerStartY height)
         (best := @None Band) as (r & Hr & Hok); try lia.
  - intro y. eexists. apply rowPurpleRatio_Fin. assumption.
  - exact I.
  - unfold detectFooterBand. rewrite Hr. destruct r as [b|].
    + eexists. split; [reflexivity|]. intros zone Hz. injection Hz as <-.
      cbn [x0 x1 y0 y1]. destruct Hok as (H1 & H2 & H3 & H4 & H5 & H6).
      pose proof (minBandHeight_pos height).
      repeat split; try lia; try assumption.
      intros y Hy. apply H5. lia.
    + eexists. split; [reflexivity|]. intros zone Hz. discriminate.
Qed.

(** The 4x100 page with a solid 30-row footer band. *)
Lemma detectFooterBand_band_witness :
  exists r,
    detectFooterBand (bandedBitmap 4 100 30 white footerColor) 4 100 3 = Some r /\
    r = Some {| x0 := 1; y0 := 70; x1 := 4; y1 := 100 |}.
Proof.
  destruct (@detectFooterBand_band (bandedBitmap 4 100 30 white footerColor) 4 100 3
              ltac:(lia) ltac:(lia)) as (r & E & _).
  exists r. split; [exact E|].
  vm_compute in E. injection E as <-. reflexivity.
Defined.

(** On a bitmap of width 0 with at least one row the scan never ends:
    every row's ratio is [NaN], which neither skips the row nor extends a
    band. *)
Theorem detectFooterBand_zero_width :
  forall (raw : list Z) (height channels : Z) (fuel : nat) (best : option Band),
    (0 < height)%Z ->
    scanBands fuel (rowPurpleRatio raw 0 channels) height (minBandHeight height)
              (footerStartY height) best = None /\
    detectFooterBand raw 0 height channels = None.
Proof.
  intros raw height channels fuel best Hheight.
  assert (Hstart : (footerStartY height < height)%Z).
  { unfold footerStartY.
    assert (H : (inject_Z height * 0.45 < inject_Z height)%Q).
    { assert (0 < inject_Z height)%Q by (rewrite <- (Zlt_Qlt 0); exact Hheight). lra. }
    pose proof (Qfloor_le (inject_Z height * 0.45)) as Hf.
    rewrite Zlt_Qlt. lra. }
  assert (Hnan : forall y, rowPurpleRatio raw 0 channels y = NaN) by reflexivity.
  assert (Hloop : forall (fuel : nat) (best : option Band),
             scanBands fuel (rowPurpleRatio raw 0 channels) height (minBandHeight height)
                       (footerStartY height) best = None).
  { induction fuel0 as [|fuel0 IH]; intro best0; cbn [scanBands];
      destruct (Z.ltb_spec (footerStartY height) height); try lia; [reflexivity|].
    rewrite Hnan. cbn [num_ltb].
    destruct (Z.to_nat (height - footerStartY height)) as [|k] eqn:Ek; [lia|].
    cbn [extendBand]. rewrite Hnan.
    destruct (Z.ltb_spec (footerStartY height) height); [|lia].
    cbn [andb num_geb num_leb]. apply IH. }
  split; [apply Hloop|].
  unfold detectFooterBand. rewrite Hloop. reflexivity.
Qed.

Lemma detectFooterBand_zero_width_witness :
  scanBands 1000 (rowPurpleRatio [] 0 3) 100 (minBandHeight 100) (footerStartY 100) None = None /\
  detectFooterBand [] 0 100 3 = None.
Proof.
  apply (@detectFooterBand_zero_width [] 100 3 1000 None). lia.
Defined.

(** ** Pages and jobs *)

(** What a page that returns has gone through, and the record it adds. *)
Lemma processPage_record cfg w profile templates auto review acc i d acc' d' :
  processPage cfg w profile templates auto review acc i d = (Ok acc', d') ->
  exists width height det dec d1,
    pw_render (w_page w (i + 1)) = Ok (width, height) /\
    detectPage cfg (w_engine w) templates (w_page w (i + 1)) width height = Ok det /\
    decidePage cfg w profile auto review i (w_page w (i + 1)) width height det d1
    = (Ok dec, d') /\
    doc_draws d1 = doc_draws d /\
    acc' = acc ++ [auditRecord (i + 1) det dec].
Proof.
  unfold processPage. intro H.
  apply mbind_Ok in H. destruct H as ([width height] & d1 & H1 & H).
  apply mlift_Ok in H1. destruct H1 as [E1 ->].
  apply mbind_Ok in H. destruct H as ([] & d2 & H2 & H).
  unfold mrendered in H2. injection H2 as <-.
  apply mbind_Ok in H. destruct H as (det & d3 & H3 & H).
  apply mlift_Ok in H3. destruct H3 as [E3 ->].
  apply mbind_Ok in H. destruct H as (dec & d4 & H4 & H).
  unfold mret in H. injection H as <- <-.
  exists width, height, det, dec. eexists.
  split; [exact E1|]. split; [exact E3|]. split; [exact H4|].
  split; reflexivity.
Qed.

(** An implausible detection is left alone: the action is [none], nothing
    is redacted, and the page gets no rectangle. *)
Lemma decidePage_implausible cfg w profile auto review i pw width height det d dec d' :
  det_plausible det = false ->
  decidePage cfg w profile auto review i pw width height det d = (Ok dec, d') ->
  dec_action dec = ActNone /\ dec_pdfRect dec = None /\
  exists new, doc_draws d' = doc_draws d ++ new /\ existsb isRedaction new = false /\
              (bboxPx (det_match det) = None -> new = []).
Proof.
  intros Hpl. destruct det as [zone [s bb ref] plausible ai wide].
  cbn [det_plausible det_match det_wideFooterStrip score bboxPx] in *. subst plausible.
  unfold decidePage. cbn [det_plausible det_match det_wideFooterStrip score bboxPx].
  rewrite andb_false_r. cbn [andb].
  unfold mbind, mret, mdraw. cbn [isRemovedAction negb drawRect]. rewrite andb_true_r.
  destruct (debugDrawBoxes cfg), bb as [b|]; split_draws;
    intro H; try discriminate H; injection H as <- <-;
    cbn [dec_action dec_pdfRect doc_draws];
    (split; [reflexivity|]); (split; [reflexivity|]);
    eexists; (split; [first [reflexivity|symmetry; apply app_nil_r]|]);
    (split; [reflexivity|]); intro Hb; first [reflexivity|discriminate].
Qed.

Lemma wide_box_not_narrow (w : num) :
  (w >=? Fin 0.55)%num = true -> (w >? Fin 0.35)%num = true.
Proof.
  destruct w as [| |q|]; cbn [num_geb num_leb num_gtb num_ltb]; try discriminate;
    [|reflexivity].
  intro H. apply Qle_bool_iff in H. apply Qltb_true. lra.
Qed.

(** The two classes of a classifier's box exclude each other: no box is
    both a wide footer strip and a valid footer logo box. *)
Theorem footer_box_classes_exclusive :
  forall bbox : option Rect,
    isFooterStripCandidate bbox && isFooterLogoBboxValid bbox = false.
Proof.
  intros [b|]; [|reflexivity].
  destruct (isFooterStripCandidate (Some b)) eqn:E; [|reflexivity]. cbn [andb].
  unfold isFooterStripCandidate in E.
  apply andb_true_iff in E. destruct E as [E _].
  apply andb_true_iff in E. destruct E as [E _].
  apply andb_true_iff in E. destruct E as [_ Hw].
  unfold isFooterLogoBboxValid. rewrite (wide_box_not_narrow _ Hw), orb_true_r.
  destruct (rect_y b <? Fin 0.72)%num; reflexivity.
Qed.

(** A box the classifier places above the footer (its top above 72% of the
    page height) is never acted on, whatever its confidence and the
    thresholds: the page's action is [none], the detection is recorded as
    implausible, and nothing is redacted. *)
Theorem processPage_above_footer :
  forall cfg w profile templates auto review acc i d acc' d' probe b,
    forceFooterBanner cfg = false ->
    useAiDetector cfg = true ->
    detectLogoWithVision (w_engine w) (pw_fetch (w_page w (i + 1))) = Ok probe ->
    probe_bbox probe = Some b ->
    (rect_y b <? Fin 0.72)%num = true ->
    processPage cfg w profile templates auto review acc i d = (Ok acc', d') ->
    exists rec new,
      acc' = acc ++ [rec] /\
      action rec = ActNone /\
      audit_plausible rec = false /\
      pdfRect rec = None /\
      doc_draws d' = doc_draws d ++ new /\
      existsb isRedaction new = false.
Proof.
  intros cfg w profile templates auto review acc i d acc' d' probe b
         Hforce Hai Hprobe Hbox Hy Hp.
  apply processPage_record in Hp.
  destruct Hp as (width & height & det & dec & d1 & _ & Hdet & Hdec & Hd1 & ->).
  assert (Hpl : det_plausible det = false).
  { unfold detectPage in Hdet. rewrite Hforce, Hai in Hdet.
    unfold detectWithAi in Hdet. rewrite Hprobe in Hdet. cbn [rbind] in Hdet.
    rewrite Hbox in Hdet.
    unfold isFooterLogoBboxValid, isFooterStripCandidate in Hdet.
    rewrite Hy, (num_ltb_not_geb _ _ Hy) in Hdet. cbn [andb] in Hdet.
    rewrite andb_false_r in Hdet. cbn [andb orb] in Hdet.
    destruct (probe_found probe); injection Hdet as <-; reflexivity. }
  destruct (decidePage_implausible _ _ _ _ _ _ _ _ _ _ _ Hpl Hdec)
    as (Hact & Hrect & new & Hnew & Hred & _).
  exists (auditRecord (i + 1) det dec), new.
  split; [reflexivity|]. cbn [auditRecord action audit_plausible pdfRect].
  split; [exact Hact|]. split; [exact Hpl|]. split; [exact Hrect|].
  split; [rewrite Hnew, Hd1; reflexivity|exact Hred].
Qed.

(** A confident detection in the title area of the page, in ai-cut mode. *)
Lemma processPage_above_footer_witness :
  exists acc' d' rec,
    processPage (sampleConfig "ai-cut") titleWorld sampleProfile [] (Fin 0.75) (Fin 0.45)
                [] 0 emptyDoc = (Ok acc', d') /\
    acc' = [rec] /\
    action rec = ActNone /\
    audit_plausible rec = false /\
    option_map ai_confidence (aiProbe rec) = Some (Fin 0.97) /\
    doc_draws d' = [].
Proof.
  destruct (processPage (sampleConfig "ai-cut") titleWorld sampleProfile [] (Fin 0.75)
                        (Fin 0.45) [] 0 emptyDoc) as [[acc'|msg|] d'] eqn:E;
    [|vm_compute in E; discriminate|vm_compute in E; discriminate].
  destruct (@processPage_above_footer (sampleConfig "ai-cut") titleWorld sampleProfile []
              (Fin 0.75) (Fin 0.45) [] 0%Z emptyDoc acc' d'
              (probeFromText titleEngine titleReply) (finRect 0.3 0.05 0.3 0.08)
              eq_refl eq_refl eq_refl eq_refl eq_refl E)
    as (rec & new & Hacc & Hact & Hpl & _ & _ & _).
  exists acc', d', rec. split; [reflexivity|]. split; [exact Hacc|].
  split; [exact Hact|]. split; [exact Hpl|].
  vm_compute in E. injection E as <- <-. injection Hacc as <-.
  split; reflexivity.
Defined.

(** In the deterministic mode a page whose grey bitmap has one value is
    left alone: nothing is matched, the action is [none], the record has no
    box, and nothing at all is drawn. *)
Theorem processPage_flat_page :
  forall cfg w profile templates auto review acc i d acc' d' g,
    forceFooterBanner cfg = false ->
    useAiDetector cfg = false ->
    (forall idx v, typedGet (pw_gray (w_page w (i + 1))) idx = Some v -> v = g) ->
    processPage cfg w profile templates auto review acc i d = (Ok acc', d') ->
    exists rec,
      acc' = acc ++ [rec] /\
      action rec = ActNone /\
      audit_bboxPx rec = None /\
      audit_matchedReference rec = JNull /\
      audit_plausible rec = false /\
      doc_draws d' = doc_draws d.
Proof.
  intros cfg w profile templates auto review acc i d acc' d' g Hforce Hai Hflat Hp.
  apply processPage_record in Hp.
  destruct Hp as (width & height & det & dec & d1 & _ & Hdet & Hdec & Hd1 & ->).
  unfold detectPage in Hdet. rewrite Hforce, Hai in Hdet.
  unfold detectDeterministic in Hdet.
  destruct (footerBandOf _ width height) as [zone|msg|]; cbn [rbind] in Hdet;
    try discriminate.
  rewrite (@detectLogoByTemplateMatch_blank _ width height templates zone) in Hdet
    by (apply computeEdgeMap_flat with (g := g); [reflexivity|exact Hflat]).
  injection Hdet as <-.
  apply decidePage_implausible in Hdec; [|reflexivity].
  destruct Hdec as (Hact & _ & new & Hnew & _ & Hnone).
  exists (auditRecord (i + 1)
            {| det_footerZone := zone; det_match := noMatch; det_plausible := false;
               det_aiProbe := None; det_wideFooterStrip := false |} dec).
  split; [reflexivity|]. cbn [auditRecord action audit_bboxPx audit_matchedReference
                              audit_plausible det_match det_plausible noMatch bboxPx
                              matchedReference].
  split; [exact Hact|]. split; [reflexivity|]. split; [reflexivity|]. split; [reflexivity|].
  rewrite Hnew, (Hnone eq_refl), app_nil_r. exact Hd1.
Qed.

(** The page of the grey document, 2720 pixels of the grey 128, against
    the sample template, which the scan tries at two windows. *)
Lemma processPage_flat_page_witness :
  exists acc' d' rec,
    List.length (pw_gray (w_page greyWorld 1)) = 2720%nat /\
    processPage (sampleConfig "deterministic") greyWorld sampleProfile [sampleTemplate]
                (Fin 0.75) (Fin 0.45) [] 0 emptyDoc = (Ok acc', d') /\
    acc' = [rec] /\
    action rec = ActNone /\
    audit_bboxPx rec = None /\
    doc_draws d' = [].
Proof.
  assert (E : exists acc' d',
             processPage (sampleConfig "deterministic") greyWorld sampleProfile
                         [sampleTemplate] (Fin 0.75) (Fin 0.45) [] 0 emptyDoc
             = (Ok acc', d'))
    by (vm_compute; eexists; eexists; reflexivity).
  destruct E as (acc' & d' & E).
  destruct (@processPage_flat_page (sampleConfig "deterministic") greyWorld sampleProfile
              [sampleTemplate] (Fin 0.75) (Fin 0.45) [] 0%Z emptyDoc acc' d' 128%Z
              eq_refl eq_refl) as (rec & Hacc & Hact & Hbox & _ & _ & Hd); [|exact E|].
  - intros idx v. apply typedGet_repeat.
  - exists acc', d', rec. split; [apply repeat_length|]. split; [exact E|].
    split; [exact Hacc|]. split; [exact Hact|]. split; [exact Hbox|exact Hd].
Defined.

(** Page 1 of the sample document, a wide footer strip, in ai-cut mode:
    the background is filled and the banner drawn, both on page index 0.
    With a profile whose footer ratio is not a number and no banner, the
    decision throws. *)
Lemma decidePage_strip_replacement_witness :
  exists det dec d',
    detectPage (sampleConfig "ai-cut") sampleEngine [] (samplePage stripReply) 100 100
    = Ok det /\
    decidePage (sampleConfig "ai-cut") sampleWorld sampleProfile (Fin 0.75) (Fin 0.45) 0
               (samplePage stripReply) 100 100 det emptyDoc = (Ok dec, d') /\
    dec_action dec = ActReplacedFooterBanner /\
    dec_pdfRect dec = Some (getStableFooterPdfRect (finSize 600 600) (Fin 0.112)) /\
    map isRedaction (doc_draws d') = [true; true] /\
    exists msg,
      decidePage (sampleConfig "ai-cut") noRefsWorld undefinedProfile (Fin 0.75) (Fin 0.45) 0
                 (samplePage stripReply) 100 100 det emptyDoc = (Throw msg, emptyDoc).
Proof.
  destruct (detectPage (sampleConfig "ai-cut") sampleEngine [] (samplePage stripReply)
                       100 100) as [det|msg|] eqn:E;
    [|vm_compute in E; discriminate|vm_compute in E; discriminate].
  assert (Hpl : det_plausible det = true)
    by (vm_compute in E; injection E as <-; reflexivity).
  assert (Hwide : det_wideFooterStrip det = true)
    by (vm_compute in E; injection E as <-; reflexivity).
  assert (Hscore : (score (det_match det) >=? Fin 0.75)%num = true)
    by (vm_compute in E; injection E as <-; reflexivity).
  destruct (@decidePage_strip_replacement (sampleConfig "ai-cut") sampleWorld sampleProfile
              (Fin 0.75) (Fin 0.45) 0%Z (samplePage stripReply) 100%Z 100%Z det emptyDoc
              eq_refl Hpl Hwide Hscore) as (Hreturns & _).
  destruct Hreturns as (dec & d' & Hdec & Hact & Hrect & Hdraw);
    [reflexivity|reflexivity| |].
  { intros bannerSize Hs. injection Hs as <-. reflexivity. }
  exists det, dec, d'. split; [reflexivity|]. split; [exact Hdec|].
  split; [exact Hact|]. split; [exact Hrect|].
  split.
  - cbn [w_banner sampleWorld] in Hdraw. vm_compute in Hdraw. injection Hdraw as <-.
    reflexivity.
  - destruct (@decidePage_strip_replacement (sampleConfig "ai-cut") noRefsWorld
                undefinedProfile (Fin 0.75) (Fin 0.45) 0%Z (samplePage stripReply)
                100%Z 100%Z det emptyDoc eq_refl Hpl Hwide Hscore) as (_ & Hthrows).
    apply Hthrows; reflexivity.
Defined.

(** ** Whole jobs: failures and thresholds *)

(** Every step a job that returns has gone through. *)
Lemma processPdf_steps cfg w settings out audit d' :
  processPdf cfg w settings emptyDoc = (Ok (out, audit), d') ->
  exists n1 n2 templates logoRefs auditPages,
    (if useAiDetector cfg then Ok []
     else loadLogoTemplates (logoRefsDir cfg) (w_refDir w)) = Ok templates /\
    (if useAiDetector cfg then loadLogoReferenceImages (logoRefsDir cfg) (w_refDir w)
     else Ok []) = Ok logoRefs /\
    w_pdfLibLoad w = Ok n1 /\ w_pdfJsLoad w = Ok n2 /\
    mfold (processPage cfg w (audit_formatProfile audit) templates
                       (autoThresholdOf cfg settings) (reviewThresholdOf cfg settings))
          (pagesLoop (pagesToProcessOf cfg n1 n2)) [] emptyDoc = (Ok auditPages, d') /\
    w_writeOutput w = Ok tt /\ w_writeAudit w = Ok tt /\
    pagesTotal out = pagesToProcessOf cfg n1 n2.
Proof.
  unfold processPdf. intro H.
  apply mbind_Ok in H. destruct H as (templates & d1 & H1 & H).
  apply mlift_Ok in H1. destruct H1 as [E0 ->].
  apply mbind_Ok in H. destruct H as (logoRefs & d2 & H2 & H).
  apply mlift_Ok in H2. destruct H2 as [E0' ->].
  apply mbind_Ok in H. destruct H as (n1 & d3 & H3 & H).
  apply mlift_Ok in H3. destruct H3 as [E1 ->].
  apply mbind_Ok in H. destruct H as (n2 & d4 & H4 & H).
  apply mlift_Ok in H4. destruct H4 as [E2 ->].
  apply mbind_Ok in H. destruct H as (auditPages & d5 & H5 & H).
  apply mbind_Ok in H. destruct H as ([] & d6 & H6 & H).
  apply mlift_Ok in H6. destruct H6 as [E6 ->].
  apply mbind_Ok in H. destruct H as ([] & d7 & H7 & H).
  apply mlift_Ok in H7. destruct H7 as [E7 ->].
  unfold mret in H. injection H as <- <- <-.
  exists n1, n2, templates, logoRefs, auditPages.
  cbn [audit_formatProfile pagesTotal]. repeat split; assumption.
Qed.

(** Every page of a loop that returns was processed. *)
Lemma mfold_processPage_each cfg w profile templates auto review (l : list Z) :
  forall acc d acc' d',
    mfold (processPage cfg w profile templates auto review) l acc d = (Ok acc', d') ->
    forall i, In i l ->
      exists acc1 d1 acc2 d2,
        processPage cfg w profile templates auto review acc1 i d1 = (Ok acc2, d2).
Proof.
  induction l as [|i l IH]; intros acc d acc' d' H k Hk; [contradiction|].
  cbn [mfold] in H. apply mbind_Ok in H. destruct H as (acc1 & d1 & H1 & H).
  destruct Hk as [<-|Hk].
  - exists acc, d, acc1, d1. exact H1.
  - apply (IH _ _ _ _ H k Hk).
Qed.

(** A job returns only if nothing failed: the reference images or
    templates were loaded, both libraries loaded the document, every
    processed page was rendered, the classifier answered for every processed
    page when it is consulted, and both files were written. *)
Theorem processPdf_returns_only_if :
  forall (cfg : Config) (w : World) (settings : Settings)
         (out : JobResult) (audit : Audit) (d' : Doc),
    processPdf cfg w settings emptyDoc = (Ok (out, audit), d') ->
    (if useAiDetector cfg
     then exists refs, loadLogoReferenceImages (logoRefsDir cfg) (w_refDir w) = Ok refs
     else exists templates, loadLogoTemplates (logoRefsDir cfg) (w_refDir w) = Ok templates) /\
    (exists n1 n2, w_pdfLibLoad w = Ok n1 /\ w_pdfJsLoad w = Ok n2) /\
    (forall k, In k (pageNumbers (pagesTotal out)) ->
       (exists width height, pw_render (w_page w k) = Ok (width, height)) /\
       (forceFooterBanner cfg = false -> useAiDetector cfg = true ->
        exists probe, detectLogoWithVision (w_engine w) (pw_fetch (w_page w k)) = Ok probe)) /\
    w_writeOutput w = Ok tt /\ w_writeAudit w = Ok tt.
Proof.
  intros cfg w settings out audit d' H.
  apply processPdf_steps in H.
  destruct H as (n1 & n2 & templates & logoRefs & auditPages
                 & E0 & E0' & E1 & E2 & Hfold & E6 & E7 & Hcap).
  split; [|split; [|split; [|split]]]; try assumption.
  - destruct (useAiDetector cfg); eexists; eassumption.
  - exists n1, n2. split; assumption.
  - intros k Hk. rewrite Hcap in Hk.
    assert (Hin : In (k - 1)%Z (pagesLoop (pagesToProcessOf cfg n1 n2))).
    { unfold pageNumbers in Hk. apply in_map_iff in Hk. destruct Hk as (j & <- & Hj).
      replace (j + 1 - 1)%Z with j by lia. exact Hj. }
    destruct (@mfold_processPage_each _ _ _ _ _ _ _ _ _ _ _ Hfold _ Hin)
      as (acc1 & d1 & acc2 & d2 & Hp).
    apply processPage_record in Hp.
    destruct Hp as (width & height & det & dec & d3 & Hr & Hdet & _).
    replace (k - 1 + 1)%Z with k in * by lia.
    split; [exists width, height; exact Hr|].
    intros Hforce Hai. unfold detectPage in Hdet. rewrite Hforce, Hai in Hdet.
    unfold detectWithAi in Hdet.
    destruct (detectLogoWithVision _ _) as [probe|msg|]; try discriminate.
    exists probe. reflexivity.
Qed.

Lemma processPdf_returns_only_if_witness :
  exists out audit d',
    sampleJob = (Ok (out, audit), d') /\
    (forall k, (1 <= k <= 3)%Z ->
       exists width height, pw_render (w_page sampleWorld k) = Ok (width, height)) /\
    w_writeOutput sampleWorld = Ok tt.
Proof.
  assert (E : processPdf (sampleConfig "ai-cut") sampleWorld sampleSettings emptyDoc = sampleJob)
    by (vm_compute; reflexivity).
  unfold sampleJob in *.
  match type of E with _ = (Ok (?o, ?a), ?d) => exists o, a, d end.
  split; [reflexivity|].
  destruct (processPdf_returns_only_if _ _ _ E) as (_ & _ & Hpages & Hout & _).
  split; [|exact Hout].
  intros k Hk. apply (Hpages k).
  change (In k (pageNumbers (ofZ 3))). rewrite pageNumbers_ofZ. apply in_map_iff.
  exists (k - 1)%Z. split; [lia|]. apply in_zrange. lia.
Defined.

(** In an AI detector mode, when the reference directory lists no PNG or
    JPEG file, the job throws before any page is rendered and nothing is
    drawn. *)
Theorem processPdf_reference_failure :
  forall (cfg : Config) (w : World) (settings : Settings) (names : list string),
    useAiDetector cfg = true ->
    readdir (w_refDir w) = Ok names ->
    filter isLogoFileName names = [] ->
    processPdf cfg w settings emptyDoc
    = (Throw ("No logo references found in " ++ logoRefsDir cfg), emptyDoc).
Proof.
  intros cfg w settings names Hai Hdir Hnone.
  unfold processPdf, mbind, mlift. rewrite Hai.
  unfold loadLogoReferenceImages. rewrite Hdir. cbn [rbind]. rewrite Hnone. reflexivity.
Qed.

Lemma processPdf_reference_failure_witness :
  processPdf (sampleConfig "ai-cut") noRefsWorld sampleSettings emptyDoc
  = (Throw "No logo references found in samples/logo-refs", emptyDoc).
Proof.
  exact (@processPdf_reference_failure (sampleConfig "ai-cut") noRefsWorld sampleSettings
           ["README.md"; "logo.svg"]%string eq_refl eq_refl eq_refl).
Defined.

(** With a threshold that is not a number no comparison with it holds. *)
Lemma decidePage_NaN_auto cfg w profile review i pw width height det d r d' :
  decidePage cfg w profile NaN review i pw width height det d = (r, d') ->
  (exists new, doc_draws d' = doc_draws d ++ new /\
               Forall (fun op => isRedaction op = false) new) /\
  (forall dec, r = Ok dec ->
     isRemovedAction (dec_action dec) = false /\
     (review = NaN -> dec_action dec = ActNone)).
Proof.
  destruct det as [zone [s bb ref] plausible ai wide].
  unfold decidePage. cbn [det_plausible det_match det_wideFooterStrip score bboxPx].
  assert (E : (s >=? NaN)%num = false) by (unfold num_geb; reflexivity).
  rewrite E, andb_false_r.
  destruct (plausible && (s >=? review)%num) eqn:Er;
    unfold mbind, mret, mdraw, mlift;
    destruct (debugDrawBoxes cfg), bb as [b|];
    cbn [negb andb isRemovedAction doc_draws doc_rendered fst snd drawRect];
    split_draws;
    intro H; injection H as <- <-; cbn [doc_draws doc_rendered];
    split.
  all: try (eexists; split; [first [reflexivity|symmetry; apply app_nil_r]|];
            repeat constructor; fail).
  all: intros dec Hdec; try discriminate Hdec;
    injection Hdec as <-; cbn [dec_action isRemovedAction];
    (split; [reflexivity|]);
    intro Hnan; subst review; rewrite ?E, ?andb_false_r in Er;
    first [discriminate|reflexivity].
Qed.

(** When the automatic threshold is not a number (an unparsable
    [MATCH_AUTO_THRESHOLD], say), a job that returns has redacted nothing:
    no page is counted as removed and the job asks for review; when the
    review threshold is not a number either, every page's action is [none]. *)
Theorem processPdf_NaN_thresholds :
  forall (cfg : Config) (w : World) (settings : Settings)
         (out : JobResult) (audit : Audit) (d' : Doc),
    autoThresholdOf cfg settings = NaN ->
    processPdf cfg w settings emptyDoc = (Ok (out, audit), d') ->
    existsb isRedaction (doc_draws d') = false /\
    removedCount out = 0%Z /\
    hasReview out = true /\
    statusHint (summary audit) = "needs_review"%string /\
    (reviewThresholdOf cfg settings = NaN ->
     Forall (fun p => action p = ActNone) (pages audit) /\ reviewCount out = 0%Z).
Proof.
  intros cfg w settings out audit d' Hauto H.
  apply processPdf_Ok in H.
  destruct H as (n1 & n2 & templates & auditPages & E1 & E2 & H).
  cbv zeta in H. destruct H as (Hfold & Hpages & Hsum & ->).
  rewrite Hauto in Hfold.
  apply (@mfold_processPage_Forall cfg w (audit_formatProfile audit) templates
           NaN (reviewThresholdOf cfg settings)
           (fun p => isRemovedAction (action p) = false /\
                     (reviewThresholdOf cfg settings = NaN -> action p = ActNone))
           (fun op => isRedaction op = false)) in Hfold; [| |constructor|constructor].
  - destruct Hfold as (HP & HQ). cbn [removedCount hasReview reviewCount].
    rewrite Hsum, Hpages. cbn [statusHint].
    assert (Hrem : countActions isRemovedAction auditPages = 0%Z).
    { apply countActions_none. eapply Forall_impl; [|exact HP]. intros p [Hp _]. exact Hp. }
    rewrite Hrem. unfold needsReview. rewrite orb_true_r.
    split; [|split; [reflexivity|split; [reflexivity|split; [reflexivity|]]]].
    + clear - HQ. induction HQ as [|op l Hop _ IH]; [reflexivity|].
      cbn [existsb]. rewrite Hop, IH. reflexivity.
    + intro Hrev.
      assert (Hnone : Forall (fun p => action p = ActNone) auditPages).
      { eapply Forall_impl; [|exact HP]. intros p [_ Hp]. apply Hp, Hrev. }
      split; [exact Hnone|].
      apply countActions_none. eapply Forall_impl; [|exact Hnone].
      intros p Hp. cbv beta in Hp. rewrite Hp. reflexivity.
  - intros acc i d acc1 d1 Hp.
    apply processPage_inv in Hp.
    destruct Hp as (width & height & det & dec & d0 & rec & _ & _ & Hdec & Hd0 & -> & Ha & _).
    destruct (@decidePage_NaN_auto _ _ _ _ _ _ _ _ _ _ _ _ Hdec) as ((new & Hd & Hnew) & Hact).
    destruct (Hact dec eq_refl) as [Hrem Hnone].
    split.
    + exists rec. split; [reflexivity|]. rewrite Ha. split; assumption.
    + exists new. split; [rewrite Hd, Hd0; reflexivity|exact Hnew].
Qed.

(** The sample document with thresholds that are not numbers. *)
Lemma processPdf_NaN_thresholds_witness :
  exists out audit d',
    processPdf (sampleConfig "ai-cut") sampleWorld nanSettings emptyDoc
    = (Ok (out, audit), d') /\
    map action (pages audit) = [ActNone; ActNone; ActNone] /\
    doc_draws d' = [] /\
    removedCount out = 0%Z /\
    statusHint (summary audit) = "needs_review"%string.
Proof.
  destruct (processPdf (sampleConfig "ai-cut") sampleWorld nanSettings emptyDoc)
    as [[[out audit]|msg|] d'] eqn:E;
    [|vm_compute in E; discriminate|vm_compute in E; discriminate].
  destruct (@processPdf_NaN_thresholds (sampleConfig "ai-cut") sampleWorld nanSettings
              out audit d' eq_refl E) as (_ & H2 & _ & H4 & _).
  exists out, audit, d'. split; [reflexivity|].
  vm_compute in E. injection E as <- <- <-.
  repeat split; reflexivity.
Defined.

(** ** Template library: what is loaded *)

Lemma rfold_inv (A B : Type) (body : B -> A -> Result B) (P : B -> Prop) (l : list A) :
  (forall acc a acc', In a l -> P acc -> body acc a = Ok acc' -> P acc') ->
  forall acc r, P acc -> rfold body l acc = Ok r -> P r.
Proof.
  induction l as [|a l IH]; intros Hstep acc r Hacc H.
  - cbn in H. injection H as <-. exact Hacc.
  - cbn [rfold] in H. destruct (body acc a) as [acc1|msg|] eqn:E; cbn [rbind] in H;
      try discriminate.
    apply (IH (fun acc0 a0 acc0' Ha0 => Hstep acc0 a0 acc0' (or_intror Ha0)) acc1 r);
      [|exact H].
    apply (Hstep acc a acc1 (or_introl eq_refl) Hacc E).
Qed.

Lemma rfold_length (A B : Type) (body : list B -> A -> Result (list B)) (c : nat)
    (l : list A) :
  (forall acc a acc', body acc a = Ok acc' -> (List.length acc' <= List.length acc + c)%nat) ->
  forall acc r, rfold body l acc = Ok r ->
                (List.length r <= List.length acc + c * List.length l)%nat.
Proof.
  intros Hstep. induction l as [|a l IH]; intros acc r H.
  - cbn in H. injection H as <-. cbn [List.length]. lia.
  - cbn [rfold] in H. destruct (body acc a) as [acc1|msg|] eqn:E; cbn [rbind] in H;
      try discriminate.
    apply IH in H. apply Hstep in E. cbn [List.length]. lia.
Qed.

(** What makes a template variant usable: it is the edge map of the raw
    variant sharp made of a listed image at one of the target widths, at
    least 40 wide and 12 high, with at least 40 edge pixels. *)
Local Abbreviation usableVariant dir files :=
  (fun t : Template =>
     In (refName t) files /\
     exists targetWidth data,
       In targetWidth targetWidths /\
       resizedRaw dir (refName t) targetWidth = Ok (t_width t, t_height t, data) /\
       t_edges t = computeEdgeMap data (t_width t) (t_height t) defaultEdgeThreshold /\
       (40 <= t_width t)%Z /\ (12 <= t_height t)%Z /\ (40 <= sumEdges (t_edges t))%Z).

Lemma addVariant_usable (dir : RefDir) (files : list string) (file : string)
    (templates templates' : list Template) (targetWidth : Z) :
  In file files -> In targetWidth targetWidths ->
  Forall (usableVariant dir files) templates ->
  addVariant dir file templates targetWidth = Ok templates' ->
  Forall (usableVariant dir files) templates'.
Proof.
  intros Hfile Htw Hacc. unfold addVariant.
  destruct (resizedRaw dir file targetWidth) as [[[w h] data]|msg|] eqn:E; cbn [rbind];
    try discriminate.
  destruct ((w =? 0)%Z || (h =? 0)%Z || (w <? 40)%Z || (h <? 12)%Z) eqn:Esize.
  - intro H. injection H as <-. exact Hacc.
  - destruct (Z.ltb_spec (sumEdges (computeEdgeMap data w h defaultEdgeThreshold)) 40)
      as [Hfew|Hmany].
    + intro H. injection H as <-. exact Hacc.
    + intro H. injection H as <-. apply Forall_app. split; [exact Hacc|].
      constructor; [|constructor].
      cbn [refName t_width t_height t_edges]. split; [exact Hfile|].
      exists targetWidth, data.
      rewrite !orb_false_iff in Esize. destruct Esize as [[[_ _] Hw] Hh].
      apply Z.ltb_ge in Hw, Hh.
      repeat split; assumption.
Qed.

Lemma addVariant_length (dir : RefDir) (file : string) (templates templates' : list Template)
    (targetWidth : Z) :
  addVariant dir file templates targetWidth = Ok templates' ->
  (List.length templates' <= List.length templates + 1)%nat.
Proof.
  unfold addVariant.
  destruct (resizedRaw dir file targetWidth) as [[[w h] data]|msg|]; cbn [rbind];
    try discriminate.
  destruct (_ || _); [intro H; injection H as <-; lia|].
  destruct (_ <? _)%Z; intro H; injection H as <-; [lia|].
  rewrite length_app. cbn [List.length]. lia.
Qed.

(** The templates loaded are usable variants of the listed PNG and JPEG
    files, at most five for each file, and there is at least one. *)
Theorem loadLogoTemplates_usable :
  forall (logoRefsDir : string) (dir : RefDir) (templates : list Template),
    loadLogoTemplates logoRefsDir dir = Ok templates ->
    exists names,
      readdir dir = Ok names /\
      templates <> [] /\
      (List.length templates <= 5 * List.length (filter isLogoFileName names))%nat /\
      Forall (fun t =>
                In (refName t) names /\ isLogoFileName (refName t) = true /\
                exists targetWidth data,
                  In targetWidth targetWidths /\
                  resizedRaw dir (refName t) targetWidth = Ok (t_width t, t_height t, data) /\
                  t_edges t = computeEdgeMap data (t_width t) (t_height t)
                                             defaultEdgeThreshold /\
                  (40 <= t_width t)%Z /\ (12 <= t_height t)%Z /\
                  (40 <= sumEdges (t_edges t))%Z)
             templates.
Proof.
  intros logoRefsDir dir templates. unfold loadLogoTemplates.
  destruct (readdir dir) as [names|msg|]; cbn [rbind]; try discriminate.
  destruct (filter isLogoFileName names) as [|f files'] eqn:Efiles; [discriminate|].
  set (files := f :: files') in *.
  destruct (rfold (addFile dir) files []) as [r|msg|] eqn:E; cbn [rbind]; try discriminate.
  destruct r as [|t r']; [discriminate|]. intro H. injection H as <-.
  exists names. split; [reflexivity|]. split; [discriminate|]. split.
  - apply (@rfold_length _ _ (addFile dir) 5%nat files) in E;
      [rewrite Efiles; cbn [List.length] in E |- *; lia|].
    intros acc a acc'. unfold addFile.
    destruct (trimmedMeta dir a) as [[bw bh]|msg|]; cbn [rbind]; try discriminate.
    destruct (_ || _); [intro H; injection H as <-; lia|].
    intro H. apply (@rfold_length _ _ (addVariant dir a) 1%nat targetWidths) in H;
      [cbn in H; lia|].
    intros acc0 tw acc0'. apply addVariant_length.
  - assert (Hall : Forall (usableVariant dir files) (t :: r')).
    { apply (@rfold_inv _ _ (addFile dir) (Forall (usableVariant dir files)) files)
        with (acc := []); [|constructor|exact E].
      intros acc a acc' Ha Hacc. unfold addFile.
      destruct (trimmedMeta dir a) as [[bw bh]|msg|]; cbn [rbind]; try discriminate.
      destruct (_ || _); [intro H; injection H as <-; exact Hacc|].
      apply (@rfold_inv _ _ (addVariant dir a) (Forall (usableVariant dir files))
               targetWidths); [|exact Hacc].
      intros acc0 tw acc0' Htw Hacc0. apply addVariant_usable; assumption. }
    eapply Forall_impl; [|exact Hall].
    intros t0 [Hin Hrest]. rewrite <- Efiles in Hin.
    apply filter_In in Hin.
    destruct Hin as [Hin Hlogo]. split; [exact Hin|]. split; [exact Hlogo|exact Hrest].
Qed.

(** The striped reference directory: five variants of its one image. *)
Lemma loadLogoTemplates_usable_witness :
  exists templates,
    loadLogoTemplates "samples/logo-refs" stripedRefDir = Ok templates /\
    map refName templates = ["logo.png"; "logo.png"; "logo.png"; "logo.png"; "logo.png"]%string /\
    map t_width templates = [40; 40; 40; 40; 40]%Z /\
    map (fun t => sumEdges (t_edges t)) templates = [429; 429; 429; 429; 429]%Z.
Proof.
  destruct (loadLogoTemplates "samples/logo-refs" stripedRefDir) as [templates|msg|] eqn:E;
    [|vm_compute in E; discriminate|vm_compute in E; discriminate].
  destruct (loadLogoTemplates_usable _ _ E) as (names & _ & _ & _ & _).
  exists templates. split; [reflexivity|].
  vm_compute in E. injection E as <-. repeat split; reflexivity.
Defined.

(** The reference images sent to the classifier are the listed PNG and
    JPEG files, each once, in the order of the listing, each with the PNG
    sharp made of it; there is at least one. *)
Theorem loadLogoReferenceImages_listing :
  forall (logoRefsDir : string) (dir : RefDir) (refs : list LogoRef),
    loadLogoReferenceImages logoRefsDir dir = Ok refs ->
    exists names,
      readdir dir = Ok names /\
      refs <> [] /\
      map ref_name refs = filter isLogoFileName names /\
      Forall (fun r => resizedPng dir (ref_name r) = Ok (ref_base64 r)) refs.
Proof.
  intros logoRefsDir dir refs. unfold loadLogoReferenceImages.
  destruct (readdir dir) as [names|msg|]; cbn [rbind]; try discriminate.
  set (body := fun (refs : list LogoRef) (file : string) =>
                 rbind (resizedPng dir file) (fun png => Ok (refs ++ [mkLogoRef file png]))).
  assert (Hfold : forall files acc r,
             rfold body files acc = Ok r ->
             Forall (fun r => resizedPng dir (ref_name r) = Ok (ref_base64 r)) acc ->
             map ref_name r = map ref_name acc ++ files /\
             Forall (fun r => resizedPng dir (ref_name r) = Ok (ref_base64 r)) r).
  { induction files as [|f files IH]; intros acc r H Hacc.
    - cbn in H. injection H as <-. rewrite app_nil_r. split; [reflexivity|exact Hacc].
    - cbn [rfold] in H. unfold body at 1 in H.
      destruct (resizedPng dir f) as [png|msg|] eqn:E; cbn [rbind] in H; try discriminate.
      apply IH in H.
      + destruct H as [Hn Hr]. split; [|exact Hr].
        rewrite Hn, map_app, <- app_assoc. reflexivity.
      + apply Forall_app. split; [exact Hacc|]. constructor; [exact E|constructor]. }
  destruct (filter isLogoFileName names) as [|f files] eqn:Efiles; [discriminate|].
  intro H. apply Hfold in H; [|constructor]. destruct H as [Hn Hr].
  exists names. split; [reflexivity|]. split; [|split; [rewrite Efiles; exact Hn|exact Hr]].
  intro Hnil. rewrite Hnil in Hn. discriminate.
Qed.

Lemma loadLogoReferenceImages_listing_witness :
  exists refs,
    loadLogoReferenceImages "samples/logo-refs" sampleRefDir = Ok refs /\
    map ref_name refs = ["logo.png"]%string.
Proof.
  destruct (loadLogoReferenceImages "samples/logo-refs" sampleRefDir) as [refs|msg|] eqn:E;
    [|vm_compute in E; discriminate|vm_compute in E; discriminate].
  destruct (loadLogoReferenceImages_listing _ _ E) as (names & Hdir & _ & Hn & _).
  exists refs. split; [reflexivity|].
  cbn in Hdir. injection Hdir as <-. exact Hn.
Defined.

(** * The jobs API *)

(** ** Job store *)

Section Fields.
Variable V : Type.

Lemma fieldOf_setField_same (key : string) (v : V) (o : list (string * V)) :
  fieldOf key (setField key v o) = Some v.
Proof.
  induction o as [|[k v'] o IH]; cbn [setField fieldOf].
  - rewrite String.eqb_refl. reflexivity.
  - destruct (String.eqb k key) eqn:E; cbn [fieldOf]; rewrite E; [reflexivity|exact IH].
Qed.

Lemma fieldOf_setField_other (key other : string) (v : V) (o : list (string * V)) :
  other <> key -> fieldOf other (setField key v o) = fieldOf other o.
Proof.
  intro Hne. induction o as [|[k v'] o IH]; cbn [setField fieldOf].
  - destruct (String.eqb_spec key other) as [->|_]; [contradiction|reflexivity].
  - destruct (String.eqb_spec k key) as [->|Hk]; cbn [fieldOf].
    + destruct (String.eqb_spec key other) as [->|_]; [contradiction|reflexivity].
    + destruct (String.eqb k other); [reflexivity|exact IH].
Qed.

Lemma fieldOf_app (key : string) (a b : list (string * V)) :
  fieldOf key (a ++ b) = match fieldOf key a with
                         | Some v => Some v
                         | None => fieldOf key b
                         end.
Proof.
  induction a as [|[k v] a IH]; cbn [app fieldOf]; [reflexivity|].
  destruct (String.eqb k key); [reflexivity|exact IH].
Qed.

(** A property of the merged object is the one of [data] when [data] has
    it (the last one given), and the existing one otherwise. *)
Lemma fieldOf_spread (key : string) (data existing : list (string * V)) :
  fieldOf key (spread existing data) = match fieldOf key (rev data) with
                                       | Some v => Some v
                                       | None => fieldOf key existing
                                       end.
Proof.
  unfold spread. revert existing.
  induction data as [|[k v] data IH]; intro existing; cbn [fold_left rev fst snd];
    [reflexivity|].
  rewrite IH, fieldOf_app. destruct (fieldOf key (rev data)); [reflexivity|].
  cbn [fieldOf]. destruct (String.eqb_spec k key) as [->|Hne].
  - apply fieldOf_setField_same.
  - apply fieldOf_setField_other. congruence.
Qed.

End Fields.

Lemma getJob_setJob_same (V : Type) (jobs : JobStore V) (jobId : string)
    (data : list (string * V)) :
  exists job,
    getJob (setJob jobs jobId data) jobId = Some job /\
    forall key,
      fieldOf key job = match fieldOf key (rev data) with
                        | Some v => Some v
                        | None => match getJob jobs jobId with
                                  | Some old => fieldOf key old
                                  | None => None
                                  end
                        end.
Proof.
  unfold getJob, setJob.
  eexists. split; [apply fieldOf_setField_same|].
  intro key. rewrite fieldOf_spread.
  destruct (fieldOf key (rev data)); [reflexivity|].
  destruct (fieldOf jobId jobs); reflexivity.
Qed.

Lemma getJob_setJob_other (V : Type) (jobs : JobStore V) (jobId other : string)
    (data : list (string * V)) :
  other <> jobId -> getJob (setJob jobs jobId data) other = getJob jobs other.
Proof.
  intro Hne. unfold getJob, setJob. apply fieldOf_setField_other. exact Hne.
Qed.

(** Storing and reading a job: after [setJob] the job read back under the
    same identifier has every property of [data] with its new value and
    every other property as before (none, for a new job); the jobs stored
    under other identifiers read back unchanged; an identifier never stored
    reads as [null]; and [updateJob] is [setJob]. *)
Theorem setJob_getJob :
  forall (V : Type) (jobs : JobStore V) (jobId : string) (data : list (string * V)),
    (exists job,
        getJob (setJob jobs jobId data) jobId = Some job /\
        forall key,
          fieldOf key job = match fieldOf key (rev data) with
                            | Some v => Some v
                            | None => match getJob jobs jobId with
                                      | Some old => fieldOf key old
                                      | None => None
                                      end
                            end) /\
    (forall other, other <> jobId ->
                   getJob (setJob jobs jobId data) other = getJob jobs other) /\
    getJob (@nil (string * list (string * V))) jobId = None /\
    updateJob jobs jobId data = setJob jobs jobId data.
Proof.
  intros V jobs jobId data.
  split; [apply getJob_setJob_same|].
  split; [intros other Hne; apply getJob_setJob_other; exact Hne|].
  split; reflexivity.
Qed.

(** ** Routes *)

(** A request that is refused creates no job: with a format other than the
    three allowed, without a file, or with a file whose type does not
    contain "pdf", the reply is 400 with an error message, the job store is
    unchanged, and neither the upload nor the processor is consulted. *)
Theorem postJob_refused :
  forall (req : PostRequest) (jobs : JobStore string),
    isAllowedFormat (formatOf (req_format req)) = false \/
    req_file req = Ok None \/
    (exists file, req_file req = Ok (Some file) /\
                  includes "pdf" (match up_mimetype file with
                                  | Some m => m
                                  | None => ""%string
                                  end) = false) ->
    exists msg,
      forall (cfg : Config) (w : World) (api : ApiContext),
        postJob cfg w api req jobs = (Ok (replyJson 400 [("error"%string, msg)]), jobs).
Proof.
  intros req jobs H. unfold postJob.
  destruct (isAllowedFormat (formatOf (req_format req))) eqn:Ef; cbn [negb].
  - destruct H as [H|[H|(file & H & Hm)]]; [discriminate| |].
    + rewrite H. eexists. intros; reflexivity.
    + rewrite H, Hm. cbn [negb]. eexists. intros; reflexivity.
  - eexists. intros; reflexivity.
Qed.

(** An upload of a text file, and a request naming two formats. *)
Lemma postJob_refused_witness :
  postJob (sampleConfig "ai-cut") sampleWorld sampleApi
          {| req_format := ["style_b"]%string;
             req_file := Ok (Some {| up_mimetype := Some "text/plain"%string |}) |}
          sampleJobs
  = (Ok (replyJson 400 [("error", "Only PDF uploads are allowed")]%string), sampleJobs) /\
  postJob (sampleConfig "ai-cut") sampleWorld sampleApi
          {| req_format := ["style_a"; "style_b"]%string;
             req_file := Ok (Some {| up_mimetype := Some "application/pdf"%string |}) |}
          sampleJobs
  = (Ok (replyJson 400 [("error", "Invalid format. Use style_a, style_b, or style_c.")]%string),
     sampleJobs).
Proof.
  split.
  - destruct (@postJob_refused
                {| req_format := ["style_b"]%string;
                   req_file := Ok (Some {| up_mimetype := Some "text/plain"%string |}) |}
                sampleJobs) as (msg & H).
    + right. right. eexists. split; reflexivity.
    + specialize (H (sampleConfig "ai-cut") sampleWorld sampleApi).
      rewrite H. vm_compute in H. injection H as <-. reflexivity.
  - destruct (@postJob_refused
                {| req_format := ["style_a"; "style_b"]%string;
                   req_file := Ok (Some {| up_mimetype := Some "application/pdf"%string |}) |}
                sampleJobs) as (msg & H).
    + left. reflexivity.
    + specialize (H (sampleConfig "ai-cut") sampleWorld sampleApi).
      rewrite H. vm_compute in H. injection H as <-. reflexivity.
Defined.

Lemma statusOf_statusHint cfg w settings out audit d' :
  processPdf cfg w settings emptyDoc = (Ok (out, audit), d') ->
  statusOf out = statusHint (summary audit).
Proof.
  intro H. apply processPdf_Ok in H.
  destruct H as (n1 & n2 & templates & auditPages & _ & _ & H).
  cbv zeta in H. destruct H as (_ & _ & Hsum & ->).
  rewrite Hsum. unfold statusOf, shouldReview. cbn [hasReview removedCount statusHint].
  unfold needsReview. rewrite <- orb_assoc, orb_diag. reflexivity.
Qed.

(** An accepted upload ends in the status of its audit, or as failed.
    For a request with an allowed format and a PDF file whose upload was
    saved: when the processor returns, the reply is 200 with the status
    [needs_review] or [completed], which is the [statusHint] of the audit
    summary, and the job read back from the store has that status and the
    page counts of the result; when the processor throws, the reply is 500
    with the status [failed] and the error's message, and the job read back
    has them too.  The other jobs of the store are unchanged. *)
Theorem postJob_outcome :
  forall (cfg : Config) (w : World) (api : ApiContext) (req : PostRequest)
         (jobs : JobStore string) (file : Upload),
    isAllowedFormat (formatOf (req_format req)) = true ->
    req_file req = Ok (Some file) ->
    includes "pdf" (match up_mimetype file with
                    | Some m => m
                    | None => ""%string
                    end) = true ->
    api_saveUpload api = Ok tt ->
    let jobId := api_uuid api in
    let settings := settingsOf (w_engine w) api (formatOf (req_format req)) in
    let jobs' := snd (postJob cfg w api req jobs) in
    (forall out audit d',
        processPdf cfg w settings emptyDoc = (Ok (out, audit), d') ->
        let status := statusHint (summary audit) in
        fst (postJob cfg w api req jobs)
        = Ok (replyJson 200 [("jobId", jobId); ("status", status)]%string) /\
        exists job,
          getJob jobs' jobId = Some job /\
          fieldOf "jobId" job = Some jobId /\
          fieldOf "status" job = Some status /\
          fieldOf "progress" job = Some "100"%string /\
          fieldOf "pagesProcessed" job = Some (stringOfNum (w_engine w) (pagesProcessed out)) /\
          fieldOf "pagesTotal" job = Some (stringOfNum (w_engine w) (pagesTotal out)) /\
          fieldOf "startedAt" job = Some (api_startedAt api) /\
          fieldOf "finishedAt" job = Some (api_finishedAt api) /\
          fieldOf "error" job = Some ""%string) /\
    (forall msg d',
        processPdf cfg w settings emptyDoc = (Throw msg, d') ->
        fst (postJob cfg w api req jobs)
        = Ok (replyJson 500 [("jobId", jobId); ("status", "failed"); ("error", msg)]%string) /\
        exists job,
          getJob jobs' jobId = Some job /\
          fieldOf "status" job = Some "failed"%string /\
          fieldOf "progress" job = Some "100"%string /\
          fieldOf "error" job = Some msg /\
          fieldOf "finishedAt" job = Some (api_finishedAt api)) /\
    (forall other, other <> jobId -> getJob jobs' other = getJob jobs other).
Proof.
  intros cfg w api req jobs file Hformat Hfile Hpdf Hsave jobId settings jobs'.
  assert (Hget : forall data key,
             exists job,
               getJob (updateJob (setJob jobs jobId (initialJob jobId (api_startedAt api)))
                                 jobId data) jobId = Some job /\
               fieldOf key job
               = match fieldOf key (rev data) with
                 | Some v => Some v
                 | None => match fieldOf key (rev (initialJob jobId (api_startedAt api))) with
                           | Some v => Some v
                           | None => match getJob jobs jobId with
                                     | Some old => fieldOf key old
                                     | None => None
                                     end
                           end
                 end).
  { intros data key.
    destruct (getJob_setJob_same (setJob jobs jobId (initialJob jobId (api_startedAt api)))
                                 jobId data) as (job & Hjob & Hkeys).
    destruct (getJob_setJob_same jobs jobId (initialJob jobId (api_startedAt api)))
      as (job0 & Hjob0 & Hkeys0).
    exists job. unfold updateJob. split; [exact Hjob|].
    rewrite Hkeys, Hjob0, Hkeys0. reflexivity. }
  assert (Hother : forall data other, other <> jobId ->
             getJob (updateJob (setJob jobs jobId (initialJob jobId (api_startedAt api)))
                               jobId data) other = getJob jobs other).
  { intros data other Hne. unfold updateJob.
    rewrite !getJob_setJob_other by exact Hne. reflexivity. }
  unfold jobs', postJob. rewrite Hformat, Hfile, Hpdf, Hsave. cbn [negb].
  fold jobId. fold settings.
  split; [|split].
  - intros out audit d' Hrun. cbv zeta. rewrite Hrun. cbn [fst snd].
    rewrite (statusOf_statusHint _ _ _ Hrun).
    split; [reflexivity|].
    match goal with |- context [updateJob _ _ ?data] => set (data0 := data) end.
    destruct (Hget data0 "jobId"%string) as (job & Hjob & H1).
    exists job. split; [exact Hjob|].
    assert (Hprog : progress out = 100%Z).
    { apply processPdf_Ok in Hrun.
      destruct Hrun as (n1 & n2 & templates & auditPages & _ & _ & Hrun).
      cbv zeta in Hrun. destruct Hrun as (_ & _ & _ & ->). reflexivity. }
    repeat split;
      match goal with
      | |- fieldOf ?key job = _ =>
          destruct (Hget data0 key) as (job' & Hjob' & Hk);
          rewrite Hjob in Hjob'; injection Hjob' as <-; rewrite Hk;
          unfold data0; cbn; rewrite ?Hprog; reflexivity
      end.
  - intros msg d' Hrun. rewrite Hrun. cbn [fst snd].
    split; [reflexivity|].
    match goal with |- context [updateJob _ _ ?data] => set (data0 := data) end.
    destruct (Hget data0 "status"%string) as (job & Hjob & H1).
    exists job. split; [exact Hjob|].
    repeat split;
      match goal with
      | |- fieldOf ?key job = _ =>
          destruct (Hget data0 key) as (job' & Hjob' & Hk);
          rewrite Hjob in Hjob'; injection Hjob' as <-; rewrite Hk;
          unfold data0; cbn; reflexivity
      end.
  - intros other Hne.
    destruct (processPdf cfg w settings emptyDoc) as [[[out audit]|msg|] d'];
      cbn [fst snd]; [apply Hother, Hne|apply Hother, Hne|].
    apply getJob_setJob_other, Hne.
Qed.

(** The sample upload on the sample document in ai-cut mode. *)
Lemma postJob_outcome_witness :
  fst (postJob (sampleConfig "ai-cut") sampleWorld sampleApi samplePost sampleJobs)
  = Ok (replyJson 200 [("jobId", api_uuid sampleApi); ("status", "completed")]%string) /\
  exists job,
    getJob (snd (postJob (sampleConfig "ai-cut") sampleWorld sampleApi samplePost sampleJobs))
           (api_uuid sampleApi) = Some job /\
    fieldOf "status" job = Some "completed"%string /\
    fieldOf "pagesTotal" job = Some "3"%string.
Proof.
  destruct (processPdf (sampleConfig "ai-cut") sampleWorld
              (settingsOf (w_engine sampleWorld) sampleApi (formatOf (req_format samplePost)))
              emptyDoc) as [[[out audit]|msg|] d'] eqn:E;
    [|vm_compute in E; discriminate|vm_compute in E; discriminate].
  destruct (@postJob_outcome (sampleConfig "ai-cut") sampleWorld sampleApi samplePost
              sampleJobs {| up_mimetype := Some "application/pdf"%string |}
              eq_refl eq_refl eq_refl eq_refl) as (Hok & _ & _).
  destruct (Hok out audit d' E)
    as (Hreply & job & Hjob & _ & Hstatus & _ & _ & Htotal & _).
  assert (Hs : statusHint (summary audit) = "completed"%string)
    by (vm_compute in E; injection E as <- <- <-; reflexivity).
  assert (Ht : pagesTotal out = Fin 3)
    by (vm_compute in E; injection E as <- <- <-; reflexivity).
  rewrite Hs in Hreply, Hstatus. rewrite Ht in Htotal.
  split; [exact Hreply|].
  exists job. split; [exact Hjob|]. split; [exact Hstatus|exact Htotal].
Defined.

(** The output of a job is served only for a stored job whose status is
    [completed] or [needs_review] and whose output file can be read; an
    unknown identifier gives 404, and a job in any other status gives 409
    without the file system being consulted. *)
Theorem downloadRoute_gate :
  forall (jobs : JobStore string) (jobId : string)
         (access : Result unit) (readFile : Result (list Z)),
    (getJob jobs jobId = None ->
     downloadRoute jobs jobId access readFile
     = Ok (replyJson 404 [("error", "Job not found")]%string)) /\
    (forall job status,
        getJob jobs jobId = Some job -> fieldOf "status" job = Some status ->
        status <> "completed"%string -> status <> "needs_review"%string ->
        downloadRoute jobs jobId access readFile
        = Ok (replyJson 409 [("error", "Job status is " ++ status)]%string)) /\
    (forall reply,
        downloadRoute jobs jobId access readFile = Ok reply ->
        reply_code reply = 200%Z ->
        exists job bytes,
          getJob jobs jobId = Some job /\
          (fieldOf "status" job = Some "completed"%string \/
           fieldOf "status" job = Some "needs_review"%string) /\
          access = Ok tt /\ readFile = Ok bytes /\
          reply_body reply = BodyFile bytes).
Proof.
  intros jobs jobId access readFile. unfold downloadRoute.
  split; [|split].
  - intros ->. reflexivity.
  - intros job status -> -> Hc Hn. cbn [existsb].
    destruct (String.eqb_spec status "completed") as [E|_]; [contradiction|].
    destruct (String.eqb_spec status "needs_review") as [E|_]; [contradiction|].
    reflexivity.
  - intros reply. destruct (getJob jobs jobId) as [job|];
      [|intro H; injection H as <-; discriminate].
    destruct (fieldOf "status" job) as [status|] eqn:Es;
      [|intro H; injection H as <-; discriminate].
    cbn [existsb].
    destruct (String.eqb_spec status "completed") as [Ec|Ec];
      [|destruct (String.eqb_spec status "needs_review") as [En|En]];
      cbn [orb negb];
      try (intro H; injection H as <-; discriminate).
    all: destruct access as [[]|msg|]; try discriminate;
      try (intro H; injection H as <-; discriminate).
    all: destruct readFile as [bytes|msg|]; cbn [rbind]; try discriminate.
    all: intro H; injection H as <-; intros _.
    all: exists job, bytes; subst status; repeat split; auto.
Qed.

(** After an accepted upload the job can be read back, and its output is
    served exactly when the processor returned: then the download replies
    with the file as an attachment named after the job, and when the
    processor threw it replies 409 with "Job status is failed", whatever the
    file system holds. *)
Theorem postJob_then_download :
  forall (cfg : Config) (w : World) (api : ApiContext) (req : PostRequest)
         (jobs : JobStore string) (file : Upload),
    isAllowedFormat (formatOf (req_format req)) = true ->
    req_file req = Ok (Some file) ->
    includes "pdf" (match up_mimetype file with
                    | Some m => m
                    | None => ""%string
                    end) = true ->
    api_saveUpload api = Ok tt ->
    let jobId := api_uuid api in
    let settings := settingsOf (w_engine w) api (formatOf (req_format req)) in
    let jobs' := snd (postJob cfg w api req jobs) in
    (exists job, getJobRoute jobs' jobId = replyJson 200 job) /\
    (forall out audit d' bytes,
        processPdf cfg w settings emptyDoc = (Ok (out, audit), d') ->
        downloadRoute jobs' jobId (Ok tt) (Ok bytes)
        = Ok (mkReply 200
                [("Content-Type", "application/pdf");
                 ("Content-Disposition", "attachment; filename=cleaned-" ++ jobId ++ ".pdf")]%string
                (BodyFile bytes))) /\
    (forall msg d' access readFile,
        processPdf cfg w settings emptyDoc = (Throw msg, d') ->
        downloadRoute jobs' jobId access readFile
        = Ok (replyJson 409 [("error", "Job status is failed")]%string)).
Proof.
  intros cfg w api req jobs file Hformat Hfile Hpdf Hsave jobId settings jobs'.
  assert (Hstatus : forall data,
             exists job,
               getJob (updateJob (setJob jobs jobId (initialJob jobId (api_startedAt api)))
                                 jobId data) jobId = Some job /\
               fieldOf "status" job
               = match fieldOf "status" (rev data) with
                 | Some v => Some v
                 | None => Some "processing"%string
                 end).
  { intros data. unfold updateJob.
    destruct (getJob_setJob_same (setJob jobs jobId (initialJob jobId (api_startedAt api)))
                                 jobId data) as (job & Hjob & Hkeys).
    destruct (getJob_setJob_same jobs jobId (initialJob jobId (api_startedAt api)))
      as (job0 & Hjob0 & Hkeys0).
    exists job. split; [exact Hjob|].
    rewrite Hkeys, Hjob0, Hkeys0. reflexivity. }
  unfold jobs', postJob. rewrite Hformat, Hfile, Hpdf, Hsave. cbn [negb].
  fold jobId. fold settings.
  split; [|split].
  - unfold getJobRoute.
    destruct (processPdf cfg w settings emptyDoc) as [[[out audit]|msg|] d']; cbn [fst snd].
    + match goal with |- context [updateJob _ _ ?data] =>
                        destruct (Hstatus data) as (job & -> & _) end.
      exists job. reflexivity.
    + match goal with |- context [updateJob _ _ ?data] =>
                        destruct (Hstatus data) as (job & -> & _) end.
      exists job. reflexivity.
    + destruct (getJob_setJob_same jobs jobId (initialJob jobId (api_startedAt api)))
        as (job0 & -> & _).
      exists job0. reflexivity.
  - intros out audit d' bytes Hrun. rewrite Hrun. cbn [fst snd].
    match goal with |- context [updateJob _ _ ?data] =>
                      destruct (Hstatus data) as (job & Hjob & Hs) end.
    unfold downloadRoute. rewrite Hjob, Hs. cbn [rev app fieldOf String.eqb Ascii.eqb Bool.eqb].
    unfold statusOf. destruct (shouldReview out); reflexivity.
  - intros msg d' access readFile Hrun. rewrite Hrun. cbn [fst snd].
    match goal with |- context [updateJob _ _ ?data] =>
                      destruct (Hstatus data) as (job & Hjob & Hs) end.
    unfold downloadRoute. rewrite Hjob, Hs. reflexivity.
Qed.

(** The sample upload, and the same upload on a document that pdf-lib
    cannot load. *)
Lemma postJob_then_download_witness :
  downloadRoute
    (snd (postJob (sampleConfig "ai-cut") sampleWorld sampleApi samplePost sampleJobs))
    (api_uuid sampleApi) (Ok tt) (Ok [37; 80; 68; 70]%Z)
  = Ok (mkReply 200
          [("Content-Type", "application/pdf");
           ("Content-Disposition",
            "attachment; filename=cleaned-0b9f5c1e-7a43-4d2f-9f0e-3c1a5be7d210.pdf")]%string
          (BodyFile [37; 80; 68; 70]%Z)).
Proof.
  destruct (processPdf (sampleConfig "ai-cut") sampleWorld
              (settingsOf (w_engine sampleWorld) sampleApi (formatOf (req_format samplePost)))
              emptyDoc) as [[[out audit]|msg|] d'] eqn:E;
    [|vm_compute in E; discriminate|vm_compute in E; discriminate].
  destruct (@postJob_then_download (sampleConfig "ai-cut") sampleWorld sampleApi samplePost
              sampleJobs {| up_mimetype := Some "application/pdf"%string |}
              eq_refl eq_refl eq_refl eq_refl) as (_ & Hok & _).
  exact (Hok out audit d' [37; 80; 68; 70]%Z E).
Defined.

(** ** Vision probe adapter: where candidates come from *)

Section Salvage.
Variables (js : Engine) (cleaned : string).

(** [obj] is what [JSON.parse] gave for a slice of the cleaned text, and is
    an object. *)
Let parsedSlice (obj : jsval) : Prop :=
  exists a b,
    JSON_parse js (slice a b cleaned) = Some obj /\
    truthy obj = true /\ isObjectType obj = true.

Lemma scanChar_sound (st : ScanState) (i : nat) (ch : ascii) :
  Forall parsedSlice (objects st) ->
  Forall parsedSlice (objects (scanChar js cleaned st i ch)).
Proof.
  intro H. unfold scanChar.
  destruct (inString st).
  - destruct (escaped st); [exact H|].
    destruct (String.eqb _ _); [exact H|].
    destruct (Ascii.eqb ch quoteChar); exact H.
  - destruct (Ascii.eqb ch quoteChar); [exact H|].
    destruct (Ascii.eqb ch openBrace); [exact H|].
    destruct (Ascii.eqb ch closeBrace); [|exact H].
    destruct ((depth st - 1 =? 0)%Z && (0 <=? start st)%Z); [|exact H].
    cbn [objects].
    destruct (JSON_parse js (slice (Z.to_nat (start st)) (i + 1) cleaned)) as [obj|] eqn:E;
      [|exact H].
    destruct (truthy obj && isObjectType obj) eqn:Eo; [|exact H].
    apply andb_true_iff in Eo. destruct Eo as [Et Eobj].
    apply Forall_app. split; [exact H|].
    constructor; [|constructor].
    exists (Z.to_nat (start st)), (i + 1)%nat. repeat split; assumption.
Qed.

Lemma scanFrom_sound (rest : string) :
  forall (st : ScanState) (i : nat),
    Forall parsedSlice (objects st) ->
    Forall parsedSlice (objects (scanFrom js cleaned st i rest)).
Proof.
  induction rest as [|ch rest IH]; intros st i H; cbn [scanFrom]; [exact H|].
  apply IH, scanChar_sound, H.
Qed.

End Salvage.

(** The parser invents nothing.  Every candidate parsed from a reply is
    what [JSON.parse] gave: an element of the array the cleaned text parses
    to, or the object the cleaned text parses to, or the object a slice of
    the cleaned text parses to; and a reply that is empty once cleaned has
    no candidate. *)
Theorem parseVisionDetections_sound :
  forall (js : Engine) (text : string) (item : jsval),
    In item (parseVisionDetections js text) ->
    let cleaned := cleanModelJsonText text in
    cleaned <> ""%string /\
    ((exists items, JSON_parse js cleaned = Some (JArr items) /\ In item items) \/
     (JSON_parse js cleaned = Some item /\ truthy item = true /\ isObjectType item = true) \/
     (exists a b, JSON_parse js (slice a b cleaned) = Some item /\
                  truthy item = true /\ isObjectType item = true)).
Proof.
  intros js text item. unfold parseVisionDetections. cbv zeta.
  set (cleaned := cleanModelJsonText text).
  destruct (String.eqb_spec cleaned "") as [E|Hne]; [contradiction|].
  intro Hin. split; [exact Hne|].
  assert (Hsalvage : In item (salvageObjects js cleaned) ->
            exists a b, JSON_parse js (slice a b cleaned) = Some item /\
                        truthy item = true /\ isObjectType item = true).
  { intro H. unfold salvageObjects in H.
    pose proof (@scanFrom_sound js cleaned cleaned (mkScanState [] 0 (-1) false false) O
                  (Forall_nil _)) as Hall.
    rewrite Forall_forall in Hall. exact (Hall item H). }
  destruct (JSON_parse js cleaned) as [data|] eqn:Ep.
  - assert (Hobj : forall data' : jsval,
               In item (match (if truthy data' && isObjectType data'
                               then Some [data'] else None) with
                        | Some items => items
                        | None => salvageObjects js cleaned
                        end) ->
               (data' = item /\ truthy item = true /\ isObjectType item = true) \/
               In item (salvageObjects js cleaned)).
    { intros data' H. destruct (truthy data' && isObjectType data') eqn:Ed; [|right; exact H].
      apply andb_true_iff in Ed. destruct Ed as [Et Eo].
      destruct H as [<-|[]]. left. repeat split; assumption. }
    destruct data as [| |b|n|s|items|fields];
      try (apply Hobj in Hin; destruct Hin as [(<- & Ht & Ho)|Hin];
           [right; left; repeat split; assumption|right; right; apply Hsalvage; exact Hin]).
    left. exists items. split; [reflexivity|exact Hin].
  - destruct (truthy (extractJsonObject js cleaned) && isObjectType (extractJsonObject js cleaned))
      eqn:Eone.
    + destruct Hin as [<-|[]]. right. right.
      apply andb_true_iff in Eone. destruct Eone as [Et Eo].
      unfold extractJsonObject in *.
      destruct (String.eqb cleaned ""); [discriminate|].
      destruct (indexOfChar openBrace cleaned) as [a|]; [|discriminate].
      destruct (lastIndexOfChar closeBrace cleaned) as [b|]; [|discriminate].
      destruct (b <=? a)%nat; [discriminate|].
      destruct (JSON_parse js (slice a (b + 1) cleaned)) as [v|] eqn:Ev; [|discriminate].
      exists a, (b + 1)%nat. repeat split; assumption.
    + right. right. apply Hsalvage. exact Hin.
Qed.

Lemma parseVisionDetections_sound_witness :
  In logoItem (parseVisionDetections sampleEngine cutReply2) /\
  exists a b,
    JSON_parse sampleEngine (slice a b (cleanModelJsonText cutReply2)) = Some logoItem.
Proof.
  assert (Hin : In logoItem (parseVisionDetections sampleEngine cutReply2))
    by (vm_compute; left; reflexivity).
  split; [exact Hin|].
  destruct (@parseVisionDetections_sound sampleEngine cutReply2 logoItem Hin)
    as (_ & [(items & H & _)|[(H & _)|(a & b & H & _)]]).
  - vm_compute in H. discriminate.
  - vm_compute in H. discriminate.
  - exists a, b. exact H.
Defined.
